(** * backend/server.py: retrieval, chat memory, desert analysis, text2sql

    A shallow embedding of the request handlers of [backend/server.py].
    Python exceptions are an explicit outcome, the process globals and the
    two MongoDB collections are an explicit [World], and every external
    collaborator (sentence-transformers, FAISS, MLflow, the LLM client,
    MongoDB's query engine, [json.loads], the clock, [uuid4]) is a field of
    the record [Collab]: the handlers are written once, for any behaviour
    of these collaborators.  The document store is taken to be reachable:
    reading and writing the two collections does not raise. *)

From Stdlib Require Import ZArith List String Ascii Bool Lia.
From Stdlib Require Import Sorting.Sorted Sorting.Permutation.
From Stdlib Require Import Numbers.DecimalString.
From Stdlib Require Import Floats.PrimFloat.
Import ListNotations.

Local Open Scope string_scope.
Local Open Scope Z_scope.

(** ** Python values and exceptions *)

(** The exception classes the handlers can meet.  All of them derive from
    [Exception]; [JSONDecodeError] is the only one caught by name. *)
Inductive exn_class : Type :=
| IndexError
| KeyError
| AttributeError
| TypeError
| ValueError
| JSONDecodeError
| AssertionError
| ProviderError.

Inductive exn : Type :=
| PyExc (cls : exn_class) (msg : string)
| HTTPException (status_code : Z) (detail : string).

(** [str(e)] *)
Definition str_exn (e : exn) : string :=
  match e with
  | PyExc _ msg => msg
  | HTTPException _ detail => detail
  end.

Definition is_JSONDecodeError (e : exn) : bool :=
  match e with
  | PyExc JSONDecodeError _ => true
  | _ => false
  end.

Inductive outcome (A : Type) : Type :=
| Return (a : A)
| Raise (e : exn).
Arguments Return {A} a.
Arguments Raise {A} e.

(** [str(n)] for a non-negative [int] and for an [int]. *)
Definition str_nat (n : nat) : string := NilZero.string_of_uint (Nat.to_uint n).
Definition str_int (z : Z) : string := NilZero.string_of_int (Z.to_int z).

(** [s[:n]] *)
Definition slice_to (n : nat) (s : string) : string := substring 0 n s.

(** [s[n:]] *)
Definition slice_from (n : nat) (s : string) : string :=
  substring n (String.length s - n) s.

(** [sep.join(parts)] *)
Fixpoint join (sep : string) (parts : list string) : string :=
  match parts with
  | [] => ""
  | [p] => p
  | p :: rest => p ++ sep ++ join sep rest
  end.

(** [x in xs] for a list of strings. *)
Definition str_in (x : string) (xs : list string) : bool :=
  existsb (String.eqb x) xs.

(** The double-quote and line-feed characters, for the prompt templates. *)
Definition dq : string := String "034"%char "".
Definition nl : string := String "010"%char "".

(** ** Documents of the store *)

(** A facility document.  A key that every reader takes with [fac["k"]] is
    a plain field; a key that some reader takes with [fac.get("k", default)]
    may be absent ([None]). *)
Record Facility : Type := mkFacility {
  fac_facility_id : string;
  fac_name : string;
  fac_region : string;
  fac_district : string;
  fac_type : string;
  fac_beds : option Z;
  fac_staff_count : option Z;
  fac_specialties : option (list string);
  fac_equipment : option (list string);
  fac_services : option (list string);
  fac_operational_status : string;
  fac_capabilities_text : string;
  fac_notes : string
}.

(** One entry of [results] in [search_similar]. *)
Record SearchResult : Type := mkSearchResult {
  sr_facility_id : string;
  sr_text : string;
  sr_score : float
}.

Record Citation : Type := mkCitation {
  source_id : string;
  text_excerpt : string;
  relevance_score : float
}.

(** [data_used] of a reasoning step is a string or a list of identifiers. *)
Inductive DataUsed : Type :=
| DataStr (s : string)
| DataIds (ids : list string).

Record ReasoningStep : Type := mkStep {
  step : Z;
  action : string;
  detail : string;
  data_used : DataUsed
}.

(** A document of [db.chat_history]; [created_at] in microseconds. *)
Record Turn : Type := mkTurn {
  turn_session_id : string;
  turn_message : string;
  turn_response : string;
  turn_citations : list Citation;
  turn_reasoning_steps : list ReasoningStep;
  turn_mlflow_run_id : option string;
  turn_created_at : Z
}.

(** What [json.loads] produces. *)
Unset Elimination Schemes.
Inductive JSON : Type :=
| JNull
| JBool (b : bool)
| JInt (z : Z)
| JFloat (f : float)
| JStr (s : string)
| JList (items : list JSON)
| JDict (entries : list (string * JSON)).
Set Elimination Schemes.

(** ** The process state

    The module globals [faiss_index], [facility_texts], [facility_ids],
    the collections [db.facilities] and [db.chat_history] in insertion
    order, and how many readings have been taken from each source of
    non-determinism. *)
Record World : Type := mkWorld {
  faiss_index : option (list (list float));
  facility_texts : list string;
  facility_ids : list string;
  db_facilities : list Facility;
  db_chat_history : list Turn;
  clock_reads : nat;
  uuid_draws : nat;
  mlflow_calls : nat
}.

Definition set_chat_history (h : list Turn) (w : World) : World :=
  mkWorld (faiss_index w) (facility_texts w) (facility_ids w)
          (db_facilities w) h (clock_reads w) (uuid_draws w) (mlflow_calls w).

Definition tick_clock (w : World) : World :=
  mkWorld (faiss_index w) (facility_texts w) (facility_ids w)
          (db_facilities w) (db_chat_history w)
          (S (clock_reads w)) (uuid_draws w) (mlflow_calls w).

Definition tick_uuid (w : World) : World :=
  mkWorld (faiss_index w) (facility_texts w) (facility_ids w)
          (db_facilities w) (db_chat_history w)
          (clock_reads w) (S (uuid_draws w)) (mlflow_calls w).

Definition tick_mlflow (w : World) : World :=
  mkWorld (faiss_index w) (facility_texts w) (facility_ids w)
          (db_facilities w) (db_chat_history w)
          (clock_reads w) (uuid_draws w) (S (mlflow_calls w)).

(** ** Handlers as state-and-exception computations *)

Definition M (A : Type) : Type := World -> outcome A * World.

Definition ret {A} (a : A) : M A := fun w => (Return a, w).

Definition raise {A} (e : exn) : M A := fun w => (Raise e, w).

Definition bind {A B} (m : M A) (k : A -> M B) : M B :=
  fun w =>
    match m w with
    | (Return a, w') => k a w'
    | (Raise e, w') => (Raise e, w')
    end.

(** [try: body / except <catches>: handler]; effects of [body] before the
    exception stay. *)
Definition try_except {A} (body : M A) (catches : exn -> bool)
    (handler : exn -> M A) : M A :=
  fun w =>
    match body w with
    | (Return a, w') => (Return a, w')
    | (Raise e, w') => if catches e then handler e w' else (Raise e, w')
    end.

(** [except Exception]: every exception of the model derives from it. *)
Definition any_Exception (e : exn) : bool := true.

(** [try: body / except Exception: pass] *)
Definition try_pass (body : M unit) : M unit :=
  try_except body any_Exception (fun _ => ret tt).

Definition get {A} (f : World -> A) : M A := fun w => (Return (f w), w).

Definition lift {A} (o : outcome A) : M A := fun w => (o, w).

Declare Scope py_scope.
Delimit Scope py_scope with py.
Notation "x <- m ;; k" := (bind m (fun x => k))
  (at level 61, m at next level, right associativity) : py_scope.
Notation "m ;;; k" := (bind m (fun _ => k))
  (at level 61, right associativity) : py_scope.
Local Open Scope py_scope.

(** ** External collaborators

    Everything a handler calls outside this file.  The handlers are written
    for any [Collab]; a property that needs more of a collaborator than its
    type says so in a hypothesis. *)
Record Collab : Type := mkCollab {
  (** [encode_texts] and [encode_query]: the sentence-transformers model,
      normalised output, one vector per text. *)
  encode_texts : list string -> list (list float);
  encode_query : string -> list float;
  (** [faiss.IndexFlatIP.search(query_vec, k)]: row 0 of the score matrix
      and row 0 of the index matrix, or the exception FAISS raises (it
      refuses [k = 0]). *)
  index_search : list (list float) -> list float -> nat
                 -> outcome (list float * list Z);
  (** The [k]-th reading of the system clock, as [time.time()] returns it
      (seconds) and as [datetime.now(timezone.utc)] does (microseconds). *)
  time_time : nat -> float;
  datetime_now : nat -> Z;
  (** [uuid.uuid4().hex], by draw. *)
  uuid4_hex : nat -> string;
  (** [LlmChat(api_key, session_id, system_message).with_model(...)]
      followed by [send_message(UserMessage(text))]: the provider's answer
      or the exception it raises. *)
  send_message : string -> string -> string -> outcome string;
  (** [f"{x:.0f}"] for a float and [str(xs)] for a list of strings. *)
  format_0f : float -> string;
  str_list : list string -> string;
  (** [cursor.sort("created_at", direction)] of MongoDB. *)
  sort_created_at : Z -> list Turn -> list Turn;
  (** The [k]-th call of the process to the MLflow API or to the write of a
      step file: [None] raises, [Some r] returns ([r] is the run id when the
      call is [start_run]). *)
  mlflow_outcome : nat -> option string;
  (** [json.loads], [None] when it raises [JSONDecodeError], and
      [json.dumps]. *)
  json_loads : string -> option JSON;
  json_dumps : JSON -> string;
  (** [db.facilities.find(filter, projection)] and [cursor.sort(keys)] of
      MongoDB: the documents the cursor yields, or the exception raised by
      the driver or the server. *)
  mongo_find : JSON -> JSON -> list Facility -> outcome (list JSON);
  mongo_sort : list (string * JSON) -> list JSON -> outcome (list JSON);
  (** pydantic's validation of the [dict] and [str] fields of a response. *)
  validate_dict : JSON -> outcome (list (string * JSON));
  validate_str : JSON -> outcome string
}.

Section Server.

Variable X : Collab.

(** *** The clock, [uuid4] and the LLM client *)

Definition time_now : M float :=
  fun w => (Return (time_time X (clock_reads w)), tick_clock w).

Definition utc_now : M Z :=
  fun w => (Return (datetime_now X (clock_reads w)), tick_clock w).

Definition uuid4 : M string :=
  fun w => (Return (uuid4_hex X (uuid_draws w)), tick_uuid w).

(** [(t_end - t_start) * 1000] *)
Definition elapsed_ms (t_start t_end : float) : float :=
  ((t_end - t_start) * 1000)%float.

(** *** 1. The index *)

(** [', '.join(xs) if xs else 'None'] *)
Definition join_or_None (xs : list string) : string :=
  match xs with
  | [] => "None"
  | _ => join ", " xs
  end.

(** [fac["k"]] on a key that may be absent. *)
Definition getitem {A} (key : string) (field : option A) : outcome A :=
  match field with
  | Some v => Return v
  | None => Raise (PyExc KeyError ("'" ++ key ++ "'"))
  end.

(** The text chunk of one facility. *)
Definition facility_text (fac : Facility) : outcome string :=
  match getitem "beds" (fac_beds fac) with
  | Raise e => Raise e
  | Return beds =>
  match getitem "staff_count" (fac_staff_count fac) with
  | Raise e => Raise e
  | Return staff_count =>
  match getitem "specialties" (fac_specialties fac) with
  | Raise e => Raise e
  | Return specialties =>
  match getitem "equipment" (fac_equipment fac) with
  | Raise e => Raise e
  | Return equipment =>
  match getitem "services" (fac_services fac) with
  | Raise e => Raise e
  | Return services =>
      Return
        ("Facility: " ++ fac_name fac ++ " (ID: " ++ fac_facility_id fac ++ ")" ++ nl
         ++ "Region: " ++ fac_region fac ++ ", District: " ++ fac_district fac ++ nl
         ++ "Type: " ++ fac_type fac ++ nl
         ++ "Beds: " ++ str_int beds ++ ", Staff: " ++ str_int staff_count ++ nl
         ++ "Specialties: " ++ join_or_None specialties ++ nl
         ++ "Equipment: " ++ join_or_None equipment ++ nl
         ++ "Services: " ++ join_or_None services ++ nl
         ++ "Status: " ++ fac_operational_status fac ++ nl
         ++ "Capabilities: " ++ fac_capabilities_text fac ++ nl
         ++ "Notes: " ++ fac_notes fac)
  end end end end end.

(** The loop that builds [texts] and [ids]. *)
Fixpoint build_chunks (facilities : list Facility) (texts ids : list string)
    : outcome (list string * list string) :=
  match facilities with
  | [] => Return (texts, ids)
  | fac :: rest =>
      match facility_text fac with
      | Return text =>
          build_chunks rest (texts ++ [text])%list
                       (ids ++ [fac_facility_id fac])%list
      | Raise e => Raise e
      end
  end.

(** [db.facilities.insert_many(docs)]: PyMongo refuses an empty list. *)
Definition insert_many (docs : list Facility) : M unit :=
  match docs with
  | [] => raise (PyExc TypeError "documents must be a non-empty list")
  | _ =>
      fun w =>
        (Return tt,
         mkWorld (faiss_index w) (facility_texts w) (facility_ids w)
                 (db_facilities w ++ docs)%list (db_chat_history w)
                 (clock_reads w) (uuid_draws w) (mlflow_calls w))
  end.

(** [embeddings_array.shape[1]]: an array without rows has no second
    dimension. *)
Definition embedding_dim (embeddings : list (list float)) : outcome nat :=
  match embeddings with
  | [] => Raise (PyExc IndexError "tuple index out of range")
  | row :: _ => Return (List.length row)
  end.

(** The assignments to [faiss_index], [facility_texts] and [facility_ids];
    [IndexFlatIP(dim).add(embeddings)] holds the vectors as they are. *)
Definition set_index (embeddings : list (list float)) (texts ids : list string)
    : M unit :=
  fun w =>
    (Return tt,
     mkWorld (Some embeddings) texts ids (db_facilities w) (db_chat_history w)
             (clock_reads w) (uuid_draws w) (mlflow_calls w)).

(** [build_faiss_index], run at start-up; [facilities] is the content of
    [data/ghana_facilities.json].  [EMBED_DIM], which only the health check
    reads, is computed and not kept. *)
Definition build_faiss_index (facilities : list Facility) : M unit :=
  coll <- get db_facilities ;;
  (if (List.length coll =? 0)%nat then insert_many facilities else ret tt) ;;;
  chunks <- lift (build_chunks facilities [] []) ;;
  let '(texts, ids) := chunks in
  t0 <- time_now ;;
  let embeddings_array := encode_texts X texts in
  t <- time_now ;;
  dim <- lift (embedding_dim embeddings_array) ;;
  set_index embeddings_array texts ids.

(** *** 1. Retrieval *)

(** The body of the loop of [search_similar]: [i] is the position reached
    by [enumerate], [results] the list built so far. *)
Fixpoint search_loop (texts ids : list string) (scores : list float)
    (i : nat) (indices : list Z) (results : list SearchResult)
    : outcome (list SearchResult) :=
  match indices with
  | [] => Return results
  | idx :: rest =>
      if (0 <=? idx) && (idx <? Z.of_nat (List.length texts)) then
        match nth_error scores i with
        | None => Raise (PyExc IndexError "index out of bounds")
        | Some s =>
            if (0 <? s)%float then
              match nth_error ids (Z.to_nat idx), nth_error texts (Z.to_nat idx) with
              | Some fid, Some txt =>
                  search_loop texts ids scores (S i) rest
                              (results ++ [mkSearchResult fid txt s])%list
              | _, _ => Raise (PyExc IndexError "list index out of range")
              end
            else search_loop texts ids scores (S i) rest results
        end
      else search_loop texts ids scores (S i) rest results
  end.

Definition search_similar (query : string) (top_k : nat) : M (list SearchResult) :=
  index <- get faiss_index ;;
  match index with
  | None => ret []
  | Some ix =>
      let query_vec := encode_query X query in
      found <- lift (index_search X ix query_vec top_k) ;;
      let '(scores, indices) := found in
      texts <- get facility_texts ;;
      ids <- get facility_ids ;;
      lift (search_loop texts ids scores 0 indices [])
  end.

(** *** 2. MLflow experiment tracking

    The tracking store is not part of the model; what a handler can see of
    a call to the MLflow API, or of the write of a step file, is whether it
    raises, which [mlflow_outcome] decides call by call. *)

Definition mlflow_call : M string :=
  fun w =>
    match mlflow_outcome X (mlflow_calls w) with
    | Some r => (Return r, tick_mlflow w)
    | None => (Raise (PyExc ProviderError "mlflow"), tick_mlflow w)
    end.

Definition mlflow_log_param (key value : string) : M unit :=
  mlflow_call ;;; ret tt.
Definition mlflow_log_params (kvs : list (string * string)) : M unit :=
  mlflow_call ;;; ret tt.
Definition mlflow_log_metric (key : string) : M unit :=
  mlflow_call ;;; ret tt.
Definition mlflow_log_metrics (keys : list string) : M unit :=
  mlflow_call ;;; ret tt.
Definition mlflow_log_artifact (path : string) : M unit :=
  mlflow_call ;;; ret tt.
Definition mlflow_end_run : M unit :=
  mlflow_call ;;; ret tt.
Definition write_text (path text : string) : M unit :=
  mlflow_call ;;; ret tt.

(** [start_mlflow_run]; the result is [run.info.run_id]. *)
Definition start_mlflow_run (run_name : string) (tags : list (string * string))
    : M string :=
  mlflow_call.

Definition log_agent_step (step_num : Z) (action detail data_used : string)
    (latency_ms : float) : M unit :=
  mlflow_log_params
    [("step_" ++ str_int step_num ++ "_action", slice_to 250 action)] ;;;
  mlflow_log_metrics ["step_" ++ str_int step_num ++ "_latency_ms"] ;;;
  let step_text :=
    "Step " ++ str_int step_num ++ ": " ++ action ++ nl
    ++ "Detail: " ++ detail ++ nl
    ++ "Data: " ++ data_used ++ nl
    ++ "Latency: " ++ format_0f X latency_ms ++ "ms" in
  let step_path := "mlruns/step_" ++ str_int step_num ++ ".txt" in
  write_text step_path step_text ;;;
  mlflow_log_artifact step_path.

(** *** 4. RAG chat with multi-turn memory *)

Record ChatRequest : Type := mkChatRequest {
  req_message : string;
  req_session_id : option string
}.

Record ChatResponse : Type := mkChatResponse {
  response : string;
  citations : list Citation;
  reasoning_steps : list ReasoningStep;
  session_id : string;
  mlflow_run_id : option string
}.

(** [req.session_id or f"chat_{uuid.uuid4().hex[:8]}"]: [None] and the
    empty string are falsy. *)
Definition resolve_session_id (req : ChatRequest) : M string :=
  match req_session_id req with
  | Some (String c s) => ret (String c s)
  | _ => h <- uuid4 ;; ret ("chat_" ++ slice_to 8 h)
  end.

(** The first [try] block.  [run_id] is assigned as soon as [start_run]
    returns, so a failure of a later [log_param] leaves it set. *)
Definition start_tracking (req : ChatRequest) (session_id : string)
    : M (option string) :=
  try_except
    (run_id <- start_mlflow_run ("chat_" ++ slice_to 12 session_id)
                 [("type", "rag_chat"); ("session_id", session_id)] ;;
     try_pass
       (mlflow_log_param "user_query" (slice_to 250 (req_message req)) ;;;
        mlflow_log_param "session_id" session_id) ;;;
     ret (Some run_id))
    any_Exception
    (fun _ => ret None).

Definition query_analysis_step (req : ChatRequest) : ReasoningStep :=
  mkStep 1 "Query Analysis"
         ("Analyzing user query: '" ++ req_message req ++ "'")
         (DataStr "User input").

(** [db.chat_history.find({"session_id": session_id}, {"_id": 0})] *)
Definition find_session (session_id : string) (coll : list Turn) : list Turn :=
  filter (fun t => String.eqb (turn_session_id t) session_id) coll.

(** [....sort("created_at", -1).to_list(5)] followed by [reverse()]. *)
Definition load_history (session_id : string) : M (list Turn) :=
  coll <- get db_chat_history ;;
  ret (rev (firstn 5 (sort_created_at X (-1) (find_session session_id coll)))).

Definition conversation_line (hdoc : Turn) : string :=
  "User: " ++ turn_message hdoc ++ nl
  ++ "Assistant: " ++ slice_to 300 (turn_response hdoc) ++ "..." ++ nl ++ nl.

Definition build_conversation_context (history_docs : list Turn) : string :=
  fold_left (fun ctx hdoc => ctx ++ conversation_line hdoc) history_docs "".

(** Step 2 of the trace: the [if history_docs: ... else: ...] branches. *)
Definition memory_retrieval_step (history_docs : list Turn) : ReasoningStep :=
  match history_docs with
  | [] =>
      mkStep 2 "Memory Retrieval"
             "No previous conversation history (new session)"
             (DataStr "None")
  | _ =>
      mkStep 2 "Memory Retrieval"
             ("Loaded " ++ str_nat (List.length history_docs)
              ++ " previous conversation turns for context")
             (DataStr (str_nat (List.length history_docs)
                       ++ " chat history messages"))
  end.

Definition log_memory_retrieval (session_id : string) (t0 : float)
    (history_docs : list Turn) : M unit :=
  match history_docs with
  | [] => ret tt
  | _ =>
      try_pass
        (t <- time_now ;;
         log_agent_step 2 "Memory Retrieval"
           (str_nat (List.length history_docs) ++ " turns loaded")
           ("session=" ++ session_id) (elapsed_ms t0 t))
  end.

Definition semantic_search_step (search_results : list SearchResult)
    (search_ms : float) : ReasoningStep :=
  mkStep 3 "Semantic Search (FAISS + sentence-transformers)"
         ("Retrieved " ++ str_nat (List.length search_results)
          ++ " documents in " ++ format_0f X search_ms
          ++ "ms using sentence-transformers embeddings")
         (DataIds (map sr_facility_id search_results)).

(** The loop that builds [context_parts] and [citations]; [i] is the
    position given by [enumerate]. *)
Fixpoint build_context (i : nat) (search_results : list SearchResult)
    : list string * list Citation :=
  match search_results with
  | [] => ([], [])
  | result :: rest =>
      let '(parts, cites) := build_context (S i) rest in
      (("[Source " ++ str_nat (i + 1) ++ ": " ++ sr_facility_id result ++ "]"
        ++ nl ++ sr_text result) :: parts,
       mkCitation (sr_facility_id result)
                  (slice_to 200 (sr_text result) ++ "...")
                  (sr_score result) :: cites)
  end.

Definition context_separator : string := nl ++ nl ++ "---" ++ nl ++ nl.

(** [db.facilities.find({}, {"_id": 0, "name": 1, "region": 1}).to_list(5000)]
    and the summary line computed from it. *)
Definition facility_summary (coll : list Facility) : string :=
  let all_facilities := firstn 5000 coll in
  "Total: " ++ str_nat (List.length all_facilities) ++ " facilities across "
  ++ str_nat (List.length (nodup string_dec (map fac_region all_facilities)))
  ++ " regions.".

Definition context_assembly_step (search_results : list SearchResult)
    (history_docs : list Turn) : ReasoningStep :=
  mkStep 4 "Context Assembly"
         ("Combined " ++ str_nat (List.length search_results)
          ++ " retrieved docs + " ++ str_nat (List.length history_docs)
          ++ " conversation turns + DB summary")
         (DataStr "FAISS results + memory + summary").

Definition memory_section (conversation_context : string) : string :=
  match conversation_context with
  | EmptyString => ""
  | _ =>
      nl ++ nl ++ "PREVIOUS CONVERSATION:" ++ nl ++ conversation_context ++ nl
      ++ "Continue the conversation naturally, referring to earlier points when relevant."
  end.

Definition system_prompt (context summary memory : string) : string :=
  "You are the Virtue Foundation's Intelligent Document Parsing (IDP) Agent, specialized in analyzing healthcare facility data in Ghana.

RETRIEVED FACILITY DATA:
" ++ context ++ "

DATABASE SUMMARY: " ++ summary ++ "
" ++ memory ++ "

INSTRUCTIONS:
1. Answer questions about healthcare facilities, medical deserts, and healthcare gaps in Ghana.
2. Cite specific facility IDs (e.g., [GH-0001]) and names.
3. Identify medical deserts and infrastructure gaps.
4. Provide actionable recommendations for NGO planners.
5. Be specific with data (beds, staff, equipment, services).
6. If something isn't in the data, say so clearly.
7. Reference previous conversation context when relevant.
".

Definition generation_step (llm_ms : float) (n_parts n_history : nat)
    : ReasoningStep :=
  mkStep 5 "LLM Generation (Gemini 2.5 Flash)"
         ("Generated response in " ++ format_0f X llm_ms ++ "ms using "
          ++ str_nat n_parts ++ " context documents + conversation memory")
         (DataStr ("System prompt + " ++ str_nat n_parts ++ " docs + "
                   ++ str_nat n_history ++ " memory turns")).

Definition fallback_response (e : exn) (search_results : list SearchResult)
    : string :=
  "Error processing query: " ++ str_exn e ++ ". Found "
  ++ str_nat (List.length search_results) ++ " relevant records.".

Definition generation_error_step (e : exn) : ReasoningStep :=
  mkStep 5 "LLM Generation - Error" ("Error: " ++ str_exn e)
         (DataStr "Fallback response").

(** Step 5: the [try ... except Exception as e] around the provider call.
    The result is [response_text] and the trace after the step. *)
Definition generate (req : ChatRequest) (session_id prompt : string)
    (search_results : list SearchResult) (context_parts : list string)
    (history_docs : list Turn) (steps : list ReasoningStep)
    : M (string * list ReasoningStep) :=
  t2 <- time_now ;;
  try_except
    (h <- uuid4 ;;
     response_text <- lift (send_message X
                              ("rag_" ++ session_id ++ "_" ++ slice_to 6 h)
                              prompt (req_message req)) ;;
     t <- time_now ;;
     let llm_ms := elapsed_ms t2 t in
     let steps' := (steps ++ [generation_step llm_ms (List.length context_parts)
                                              (List.length history_docs)])%list in
     try_pass
       (log_agent_step 5 "LLM Generation"
          ("Generated in " ++ format_0f X llm_ms ++ "ms")
          (str_nat (List.length context_parts) ++ " docs") llm_ms ;;;
        mlflow_log_metric "llm_latency_ms" ;;;
        mlflow_log_metric "response_length") ;;;
     ret (response_text, steps'))
    any_Exception
    (fun e => ret (fallback_response e search_results,
                   (steps ++ [generation_error_step e])%list)).

(** [db.chat_history.insert_one({...})] *)
Definition store_turn (t : Turn) : M unit :=
  fun w => (Return tt, set_chat_history (db_chat_history w ++ [t])%list w).

(** The last [try] block: the closing metrics and [end_run], with a second
    [end_run] attempted when any of them raises. *)
Definition finish_tracking (t0 : float) : M unit :=
  try_except
    (t <- time_now ;;
     mlflow_log_metric "total_latency_ms" ;;;
     mlflow_log_metric "citation_count" ;;;
     mlflow_log_metric "reasoning_steps_count" ;;;
     mlflow_end_run)
    any_Exception
    (fun _ => try_pass mlflow_end_run).

Definition chat_endpoint (req : ChatRequest) : M ChatResponse :=
  session_id <- resolve_session_id req ;;
  run_id <- start_tracking req session_id ;;
  (* Step 1: query analysis *)
  t0 <- time_now ;;
  let steps1 := [query_analysis_step req] in
  try_pass (log_agent_step 1 "Query Analysis"
              ("Query: " ++ req_message req) "User input" 0%float) ;;;
  (* Step 2: conversation history *)
  history_docs <- load_history session_id ;;
  let conversation_context := build_conversation_context history_docs in
  let steps2 := (steps1 ++ [memory_retrieval_step history_docs])%list in
  log_memory_retrieval session_id t0 history_docs ;;;
  (* Step 3: semantic search *)
  t1 <- time_now ;;
  search_results <- search_similar (req_message req) 5 ;;
  t1' <- time_now ;;
  let search_ms := elapsed_ms t1 t1' in
  let steps3 := (steps2 ++ [semantic_search_step search_results search_ms])%list in
  try_pass
    (log_agent_step 3 "Semantic Search"
       (str_nat (List.length search_results) ++ " docs, "
        ++ format_0f X search_ms ++ "ms")
       (str_list X (map sr_facility_id search_results)) search_ms ;;;
     mlflow_log_metric "faiss_search_ms" ;;;
     mlflow_log_metric "docs_retrieved") ;;;
  let '(context_parts, citations) := build_context 0 search_results in
  let context := join context_separator context_parts in
  (* Step 4: context assembly *)
  all_facilities <- get db_facilities ;;
  let steps4 := (steps3 ++ [context_assembly_step search_results history_docs])%list in
  let prompt := system_prompt context (facility_summary all_facilities)
                              (memory_section conversation_context) in
  (* Step 5: generation *)
  generated <- generate req session_id prompt search_results
                 context_parts history_docs steps4 ;;
  let '(response_text, steps5) := generated in
  created_at <- utc_now ;;
  store_turn (mkTurn session_id (req_message req) response_text citations
                     steps5 run_id created_at) ;;;
  finish_tracking t0 ;;;
  ret (mkChatResponse response_text citations steps5 session_id run_id).

(** [db.chat_history.find(...).sort("created_at", 1).to_list(100)] *)
Definition get_chat_history (session_id : string) : M (list Turn) :=
  coll <- get db_chat_history ;;
  ret (firstn 100 (sort_created_at X 1 (find_session session_id coll))).

(** *** Analysis: region-level medical deserts *)

(** The per-region dictionary built by [get_medical_deserts]; [is_desert]
    and [severity] are absent ([None]) until the scoring loop sets them.
    [specialties] is the Python set, kept without duplicates. *)
Record RegionData : Type := mkRegionData {
  region : string;
  facilities : list string;
  total_beds : Z;
  total_staff : Z;
  specialties : list string;
  has_surgery : bool;
  has_icu : bool;
  has_ct_mri : bool;
  has_blood_bank : bool;
  desert_score : Z;
  is_desert : option bool;
  severity : option string
}.

Definition new_region (region : string) : RegionData :=
  mkRegionData region [] 0 0 [] false false false false 0 None None.

(** [set.add] *)
Definition set_add (s : string) (set : list string) : list string :=
  if str_in s set then set else (set ++ [s])%list.

(** [fac.get(key, default)] *)
Definition get_default {A} (field : option A) (default : A) : A :=
  match field with
  | Some v => v
  | None => default
  end.

(** The body of the first loop, on the entry [r = regions[region]]. *)
Definition add_facility (fac : Facility) (r : RegionData) : RegionData :=
  let services := get_default (fac_services fac) [] in
  let equipment := get_default (fac_equipment fac) [] in
  mkRegionData
    (region r)
    (facilities r ++ [fac_name fac])%list
    (total_beds r + get_default (fac_beds fac) 0)
    (total_staff r + get_default (fac_staff_count fac) 0)
    (fold_left (fun set s => set_add s set)
               (get_default (fac_specialties fac) []) (specialties r))
    (if str_in "Surgery" services then true else has_surgery r)
    (if str_in "ICU" services then true else has_icu r)
    (if existsb (fun e => str_in e equipment) ["CT Scanner"; "MRI"]
     then true else has_ct_mri r)
    (if str_in "Blood Bank" services then true else has_blood_bank r)
    (desert_score r) (is_desert r) (severity r).

(** [regions] is a dict: entries in insertion order, one per key. *)
Definition has_key (key : string) (regions : list (string * RegionData)) : bool :=
  existsb (fun kv => String.eqb (fst kv) key) regions.

Fixpoint update_entry (key : string) (f : RegionData -> RegionData)
    (regions : list (string * RegionData)) : list (string * RegionData) :=
  match regions with
  | [] => []
  | (k, r) :: rest =>
      if String.eqb k key then (k, f r) :: rest
      else (k, r) :: update_entry key f rest
  end.

Definition aggregate (regions : list (string * RegionData)) (fac : Facility)
    : list (string * RegionData) :=
  let region := fac_region fac in
  let regions :=
    if has_key region regions then regions
    else (regions ++ [(region, new_region region)])%list in
  update_entry region (add_facility fac) regions.

(** The running [score] of the second loop, before it is capped. *)
Definition region_score (data : RegionData) : Z :=
  let score := 0 in
  let score := if total_beds data <? 100 then score + 30
               else if total_beds data <? 200 then score + 15 else score in
  let score := if total_staff data <? 200 then score + 20
               else if total_staff data <? 500 then score + 10 else score in
  let score := if negb (has_surgery data) then score + 20 else score in
  let score := if negb (has_icu data) then score + 15 else score in
  let score := if negb (has_ct_mri data) then score + 10 else score in
  let score := if negb (has_blood_bank data) then score + 5 else score in
  let score := if (Z.of_nat (List.length (specialties data)) <? 3)
               then score + 10 else score in
  score.

Definition severity_label (score : Z) : string :=
  if 60 <=? score then "Critical"
  else if 40 <=? score then "Moderate" else "Adequate".

Definition score_region (data : RegionData) : RegionData :=
  let score := region_score data in
  mkRegionData (region data) (facilities data) (total_beds data)
               (total_staff data) (specialties data)
               (has_surgery data) (has_icu data) (has_ct_mri data)
               (has_blood_bank data)
               (Z.min score 100)
               (Some (40 <=? score))
               (Some (severity_label score)).

(** [deserts.sort(key=lambda x: x["desert_score"], reverse=True)]: the sort
    is stable, entries of equal score keep their order. *)
Fixpoint insert_by_score (x : RegionData) (sorted : list RegionData)
    : list RegionData :=
  match sorted with
  | [] => [x]
  | y :: rest =>
      if desert_score x <? desert_score y then y :: insert_by_score x rest
      else x :: sorted
  end.

Definition sort_by_score_desc (deserts : list RegionData) : list RegionData :=
  fold_right insert_by_score [] deserts.

Definition get_medical_deserts : M (list RegionData) :=
  coll <- get db_facilities ;;
  let facilities := firstn 5000 coll in
  let regions := fold_left aggregate facilities [] in
  let deserts := map (fun kv => score_region (snd kv)) regions in
  ret (sort_by_score_desc deserts).

(** *** 3. Text2SQL: natural language to a MongoDB query *)

(** [type(v).__name__] *)
Definition type_name (v : JSON) : string :=
  match v with
  | JNull => "NoneType"
  | JBool _ => "bool"
  | JInt _ => "int"
  | JFloat _ => "float"
  | JStr _ => "str"
  | JList _ => "list"
  | JDict _ => "dict"
  end.

Fixpoint dict_lookup (key : string) (entries : list (string * JSON))
    : option JSON :=
  match entries with
  | [] => None
  | (k, v) :: rest => if String.eqb k key then Some v else dict_lookup key rest
  end.

Fixpoint dict_set (key : string) (v : JSON) (entries : list (string * JSON))
    : list (string * JSON) :=
  match entries with
  | [] => [(key, v)]
  | (k, v0) :: rest =>
      if String.eqb k key then (k, v) :: rest
      else (k, v0) :: dict_set key v rest
  end.

(** [v.get(key, default)] *)
Definition py_get (v : JSON) (key : string) (default : JSON) : outcome JSON :=
  match v with
  | JDict entries =>
      Return (match dict_lookup key entries with
              | Some x => x
              | None => default
              end)
  | _ => Raise (PyExc AttributeError
                  ("'" ++ type_name v ++ "' object has no attribute 'get'"))
  end.

(** [sub in s] for strings. *)
Fixpoint contains (sub s : string) : bool :=
  prefix sub s
  || match s with
     | EmptyString => false
     | String _ rest => contains sub rest
     end.

(** [key in container] for a string [key]. *)
Definition py_in (key : string) (container : JSON) : outcome bool :=
  match container with
  | JDict entries =>
      Return (match dict_lookup key entries with Some _ => true | None => false end)
  | JList items =>
      Return (existsb (fun v => match v with
                                | JStr s => String.eqb s key
                                | _ => false
                                end) items)
  | JStr s => Return (contains key s)
  | _ => Raise (PyExc TypeError
                  ("argument of type '" ++ type_name container
                   ++ "' is not iterable"))
  end.

(** [container[key] = v] for a string [key]. *)
Definition py_setitem (container : JSON) (key : string) (v : JSON)
    : outcome JSON :=
  match container with
  | JDict entries => Return (JDict (dict_set key v entries))
  | JList _ =>
      Raise (PyExc TypeError "list indices must be integers or slices, not str")
  | _ => Raise (PyExc TypeError
                  ("'" ++ type_name container
                   ++ "' object does not support item assignment"))
  end.

(** Truth value of [v] in [if v:]. *)
Definition py_truthy (v : JSON) : bool :=
  match v with
  | JNull => false
  | JBool b => b
  | JInt z => negb (z =? 0)
  | JFloat f => negb (f =? 0)%float
  | JStr s => negb (String.eqb s "")
  | JList items => match items with [] => false | _ => true end
  | JDict entries => match entries with [] => false | _ => true end
  end.

(** [v.items()] *)
Definition py_items (v : JSON) : outcome (list (string * JSON)) :=
  match v with
  | JDict entries => Return entries
  | _ => Raise (PyExc AttributeError
                  ("'" ++ type_name v ++ "' object has no attribute 'items'"))
  end.

(** [min(v, 50)]: [50] when [50 < v], else [v]. *)
Definition min_50 (v : JSON) : outcome JSON :=
  match v with
  | JInt z => Return (if 50 <? z then JInt 50 else JInt z)
  | JBool b => Return (JBool b)
  | JFloat f => Return (if (50 <? f)%float then JInt 50 else JFloat f)
  | _ => Raise (PyExc TypeError
                  ("'<' not supported between instances of 'int' and '"
                   ++ type_name v ++ "'"))
  end.

(** [cursor.to_list(length)] of Motor on the documents the cursor yields:
    [length] must be an [int] ([bool] is one) and not negative. *)
Definition to_list (length : JSON) (docs : list JSON) : outcome (list JSON) :=
  match length with
  | JInt z =>
      if z <? 0 then Raise (PyExc ValueError "length must be non-negative")
      else Return (firstn (Z.to_nat z) docs)
  | JBool b => Return (firstn (if b then 1%nat else 0%nat) docs)
  | _ => Raise (PyExc TypeError "length must be an int")
  end.

(** [str.strip()], on the ASCII white space. *)
Definition is_space (c : ascii) : bool :=
  let n := nat_of_ascii c in
  ((9 <=? n) && (n <=? 13) || (28 <=? n) && (n <=? 32))%nat.

Fixpoint lstrip (s : string) : string :=
  match s with
  | String c rest => if is_space c then lstrip rest else s
  | EmptyString => EmptyString
  end.

Fixpoint rstrip (s : string) : string :=
  match s with
  | String c rest =>
      match rstrip rest with
      | EmptyString => if is_space c then EmptyString else String c EmptyString
      | rest' => String c rest'
      end
  | EmptyString => EmptyString
  end.

Definition strip (s : string) : string := rstrip (lstrip s).

(** [s.split(sep)] for a non-empty [sep]: [cur] is the piece being read and
    [skip] the characters of a separator still to pass. *)
Fixpoint split_from (sep : string) (skip : nat) (cur s : string) : list string :=
  match s with
  | EmptyString => [cur]
  | String c rest =>
      match skip with
      | S k => split_from sep k cur rest
      | O =>
          if prefix sep s
          then cur :: split_from sep (String.length sep - 1) "" rest
          else split_from sep 0 (cur ++ String c "") rest
      end
  end.

Definition split (sep s : string) : list string := split_from sep 0 "" s.

Definition quoted (s : string) : string := dq ++ s ++ dq.

(** [schema_info] and [prompt] of [text_to_mongo_query]. *)
Definition schema_info : string :=
  "
MongoDB Collection: facilities
Fields:
- facility_id: string (e.g. "
  ++ quoted "GH-0001"
  ++ ")
- name: string (facility name)
- region: string (e.g. "
  ++ quoted "Greater Accra" ++ ", " ++ quoted "Northern" ++ ", "
  ++ quoted "Upper West" ++ ", " ++ quoted "Ashanti" ++ ", "
  ++ quoted "Western" ++ ", " ++ quoted "Eastern" ++ ", "
  ++ quoted "Central" ++ ", " ++ quoted "Volta" ++ ", "
  ++ quoted "Brong Ahafo" ++ ", " ++ quoted "Upper East"
  ++ ")
- district: string
- town: string
- type: string (e.g. "
  ++ quoted "Teaching Hospital" ++ ", " ++ quoted "Regional Hospital"
  ++ ", " ++ quoted "District Hospital" ++ ", " ++ quoted "Health Centre"
  ++ ", " ++ quoted "Clinic" ++ ", " ++ quoted "CHPS" ++ ", "
  ++ quoted "Polyclinic" ++ ", " ++ quoted "Hospital" ++ ", "
  ++ quoted "Maternity Home" ++ ", " ++ quoted "RCH" ++ ", "
  ++ quoted "Psychiatric Hospital"
  ++ ")
- ownership: string (e.g. "
  ++ quoted "Government" ++ ", " ++ quoted "Private" ++ ", "
  ++ quoted "CHAG" ++ ", " ++ quoted "Quasi-Government"
  ++ ")
- latitude: float
- longitude: float
- beds: int
- staff_count: int
- specialties: array of strings (e.g. ["
  ++ quoted "Surgery" ++ ", " ++ quoted "Internal Medicine" ++ ", "
  ++ quoted "Pediatrics" ++ ", " ++ quoted "Obstetrics" ++ ", "
  ++ quoted "Cardiology" ++ ", " ++ quoted "Neurology"
  ++ "])
- equipment: array of strings (e.g. ["
  ++ quoted "MRI" ++ ", " ++ quoted "CT Scanner" ++ ", " ++ quoted "X-Ray"
  ++ ", " ++ quoted "Ultrasound" ++ ", " ++ quoted "Ventilators"
  ++ "])
- services: array of strings (e.g. ["
  ++ quoted "Emergency" ++ ", " ++ quoted "ICU" ++ ", " ++ quoted "Surgery"
  ++ ", " ++ quoted "Laboratory" ++ ", " ++ quoted "Pharmacy" ++ ", "
  ++ quoted "Blood Bank"
  ++ "])
- operational_status: string (e.g. "
  ++ quoted "Fully Operational" ++ ", " ++ quoted "Operational" ++ ", "
  ++ quoted "Operational - Resource Constrained" ++ ", "
  ++ quoted "Operational - Minimal Capacity"
  ++ ")
- capabilities_text: string (free-text description)
- notes: string (contains "
  ++ quoted "MEDICAL DESERT"
  ++ " for desert facilities)
- last_inspection: string (date)
".

Definition text2sql_prompt (natural_query : string) : string :=
  "Convert this natural language query into a MongoDB find() query (JSON format).

SCHEMA:
"
  ++ schema_info
  ++ "

QUERY: "
  ++ quoted natural_query
  ++ "

Return ONLY a valid JSON object with two keys:
- "
  ++ quoted "filter"
  ++ ": the MongoDB filter query
- "
  ++ quoted "projection"
  ++ ": fields to return (always exclude _id)
- "
  ++ quoted "sort"
  ++ ": optional sort criteria
- "
  ++ quoted "limit"
  ++ ": optional limit (default 20)
- "
  ++ quoted "explanation"
  ++ ": brief explanation of what the query does

Example output:
{"
  ++ quoted "filter" ++ ": {" ++ quoted "region" ++ ": "
  ++ quoted "Northern" ++ ", " ++ quoted "beds" ++ ": {" ++ quoted "$gt"
  ++ ": 100}}, " ++ quoted "projection" ++ ": {" ++ quoted "_id" ++ ": 0, "
  ++ quoted "name" ++ ": 1, " ++ quoted "region" ++ ": 1, " ++ quoted "beds"
  ++ ": 1}, " ++ quoted "sort" ++ ": {" ++ quoted "beds" ++ ": -1}, "
  ++ quoted "limit" ++ ": 20, " ++ quoted "explanation" ++ ": "
  ++ quoted "Finds facilities in the Northern region with more than 100 beds, sorted by bed count"
  ++ "}

Return ONLY the JSON, no markdown or extra text.".

(** The clean-up of the provider's answer before [json.loads]. *)
Definition strip_fence (response_text : string) : string :=
  let response_text := strip response_text in
  let response_text :=
    if prefix "```" response_text then
      let response_text := nth 1 (split "```" response_text) "" in
      if prefix "json" response_text then slice_from 4 response_text
      else response_text
    else response_text in
  strip response_text.

Definition text_to_mongo_query (natural_query : string) : M JSON :=
  h <- uuid4 ;;
  response_text <-
    lift (send_message X
            ("t2sql_" ++ slice_to 6 h)
            "You are a MongoDB query generator. Convert natural language to MongoDB queries. Return ONLY valid JSON."
            (text2sql_prompt natural_query)) ;;
  match json_loads X (strip_fence response_text) with
  | Some query_spec => ret query_spec
  | None => raise (PyExc JSONDecodeError "Expecting value")
  end.

Record Text2SQLRequest : Type := mkText2SQLRequest {
  query : string
}.

Record Text2SQLResponse : Type := mkText2SQLResponse {
  natural_query : string;
  mongo_query : list (string * JSON);
  results : list JSON;
  result_count : Z;
  explanation : string
}.

(** [min(query_spec.get("limit", 20), 50)] *)
Definition row_limit (query_spec : JSON) : outcome JSON :=
  match py_get query_spec "limit" (JInt 20) with
  | Return requested => min_50 requested
  | Raise e => Raise e
  end.

(** The body of the outer [try] of [text2sql_endpoint]. *)
Definition text2sql_try (req : Text2SQLRequest) : M Text2SQLResponse :=
  try_pass
    (h <- uuid4 ;;
     start_mlflow_run ("text2sql_" ++ slice_to 8 h) [("type", "text2sql")] ;;;
     mlflow_log_param "natural_query" (slice_to 250 (query req))) ;;;
  t0 <- time_now ;;
  query_spec <- text_to_mongo_query (query req) ;;
  t <- time_now ;;
  let llm_ms := elapsed_ms t0 t in
  mongo_filter <- lift (py_get query_spec "filter" (JDict [])) ;;
  projection <- lift (py_get query_spec "projection" (JDict [("_id", JInt 0)])) ;;
  has_id <- lift (py_in "_id" projection) ;;
  projection <- (if has_id then ret projection
                 else lift (py_setitem projection "_id" (JInt 0))) ;;
  sort_spec <- lift (py_get query_spec "sort" JNull) ;;
  limit <- lift (row_limit query_spec) ;;
  explanation <- lift (py_get query_spec "explanation" (JStr "")) ;;
  coll <- get db_facilities ;;
  cursor <- lift (mongo_find X mongo_filter projection coll) ;;
  cursor <- (if py_truthy sort_spec
             then keys <- lift (py_items sort_spec) ;;
                  lift (mongo_sort X keys cursor)
             else ret cursor) ;;
  results <- lift (to_list limit cursor) ;;
  try_except
    (mlflow_log_metric "text2sql_latency_ms" ;;;
     mlflow_log_metric "result_count" ;;;
     mlflow_log_param "mongo_filter" (slice_to 250 (json_dumps X mongo_filter)) ;;;
     mlflow_end_run)
    any_Exception
    (fun _ => try_pass mlflow_end_run) ;;;
  mongo_query <- lift (validate_dict X mongo_filter) ;;
  explanation <- lift (validate_str X explanation) ;;
  ret (mkText2SQLResponse (query req) mongo_query results
                          (Z.of_nat (List.length results)) explanation).

Definition parse_failure_detail : string :=
  "Failed to parse LLM response into MongoDB query. Try rephrasing.".

(** The [try] with its two handlers: [except json.JSONDecodeError] first,
    then [except Exception as e]. *)
Definition text2sql_endpoint (req : Text2SQLRequest) : M Text2SQLResponse :=
  try_except
    (text2sql_try req)
    any_Exception
    (fun e =>
       if is_JSONDecodeError e then
         try_pass mlflow_end_run ;;;
         raise (HTTPException 422 parse_failure_detail)
       else
         try_pass mlflow_end_run ;;;
         raise (HTTPException 500 ("Text2SQL error: " ++ str_exn e))).

(** *** Facility lookup and corpus statistics *)

(** [get_facility]: [find_one] gives the first document with the
    identifier. *)
Definition get_facility (facility_id : string) : M Facility :=
  coll <- get db_facilities ;;
  match find (fun f => String.eqb (fac_facility_id f) facility_id) coll with
  | Some facility => ret facility
  | None => raise (HTTPException 404 "Facility not found")
  end.

(** The dictionary [get_stats] returns; [st_types] holds the four counts of
    [facility_types], in the order of the source. *)
Record Stats : Type := mkStats {
  st_total_facilities : Z;
  st_total_beds : Z;
  st_total_staff : Z;
  st_total_regions : Z;
  st_total_specialties : Z;
  st_medical_deserts : Z;
  st_types : list (string * Z)
}.

(** [sum(key(f) for f in facilities)] *)
Definition sum_of (key : Facility -> Z) (facilities : list Facility) : Z :=
  fold_left (fun acc f => acc + key f) facilities 0.

(** [sum(1 for f in facilities if test(f))] *)
Definition count_if (test : Facility -> bool) (facilities : list Facility) : Z :=
  sum_of (fun f => if test f then 1 else 0) facilities.

(** [get_stats].  The record holds the notes of every document, so
    [f.get("notes", "")] is the field. *)
Definition get_stats : M Stats :=
  coll <- get db_facilities ;;
  let facilities := firstn 5000 coll in
  let total_beds := sum_of (fun f => get_default (fac_beds f) 0) facilities in
  let total_staff := sum_of (fun f => get_default (fac_staff_count f) 0) facilities in
  let all_regions :=
    fold_left (fun set f => set_add (fac_region f) set) facilities [] in
  let all_specialties :=
    fold_left (fun set f =>
                 fold_left (fun set s => set_add s set)
                           (get_default (fac_specialties f) []) set)
              facilities [] in
  let desert_count :=
    count_if (fun f => contains "MEDICAL DESERT" (fac_notes f)) facilities in
  let of_type (t : string) :=
    (t, count_if (fun f => String.eqb (fac_type f) t) facilities) in
  ret (mkStats (Z.of_nat (List.length facilities)) total_beds total_staff
               (Z.of_nat (List.length all_regions))
               (Z.of_nat (List.length all_specialties))
               desert_count
               [of_type "Teaching Hospital"; of_type "Regional Hospital";
                of_type "District Hospital"; of_type "Health Centre"]).

End Server.

(** * backend/data/enrich_dataset.py: the notes of a facility

    The script that writes [ghana_facilities.json], the file
    [build_faiss_index] loads.  Its function [generate_notes] computes the
    [notes] of a facility from its type, region, ownership and bed count;
    the server counts a facility as a medical desert by these notes. *)

(** The keys of [fac_data] that [generate_notes] reads: [type], [region]
    and [ownership] with [fac_data["k"]], [beds] with [fac_data.get]. *)
Record FacData : Type := mkFacData {
  fd_type : string;
  fd_region : string;
  fd_ownership : string;
  fd_beds : option Z
}.

Definition NORTHERN_REGIONS : list string := ["Northern"; "Upper East"; "Upper West"].

Definition generate_notes (fac_data : FacData) : string :=
  let ftype := fd_type fac_data in
  let region := fd_region fac_data in
  let is_northern := str_in region NORTHERN_REGIONS in
  let is_small :=
    str_in ftype ["CHPS"; "CPHS"; "Clinic"; "clinic"; "RCH"; "Health Centre"] in
  let notes := [] in
  let notes :=
    if is_northern && is_small then (notes ++ ["MEDICAL DESERT"])%list
    else if is_northern && (get_default (fd_beds fac_data) 0 <? 50)
         then (notes ++ ["MEDICAL DESERT"])%list
         else notes in
  let notes :=
    if get_default (fd_beds fac_data) 0 <? 20
    then (notes ++ ["Very limited capacity"])%list else notes in
  let notes :=
    if str_in ftype ["Teaching Hospital"; "Regional Hospital"]
    then (notes ++ ["Key referral facility"])%list else notes in
  let notes :=
    if str_in (fd_ownership fac_data) ["CHAG"; "Mission"]
    then (notes ++ ["Faith-based management"])%list else notes in
  let notes :=
    if String.eqb (fd_ownership fac_data) "Private"
    then (notes ++ ["Private sector facility"])%list else notes in
  match notes with
  | [] => "Standard facility."
  | _ => join ". " notes ++ "."
  end.

(** * backend/server.py: authentication

    The collections [db.users] and [db.user_sessions] are the state of the
    three handlers below; no other handler reads or writes them.  A
    datetime is held as MongoDB gives it back: without time zone and cut
    to the millisecond. *)

(** A [datetime]: its fields read as an instant, in microseconds, and its
    offset from UTC when it is aware. *)
Record DateTime : Type := mkDateTime {
  dt_wall : Z;
  dt_utcoffset : option Z
}.

(** The instant an aware datetime denotes. *)
Definition utc_instant (d : DateTime) : Z :=
  dt_wall d - get_default (dt_utcoffset d) 0.

(** [d.replace(tzinfo=timezone.utc)] when [d.tzinfo is None]. *)
Definition assume_utc (d : DateTime) : DateTime :=
  match dt_utcoffset d with
  | None => mkDateTime (dt_wall d) (Some 0)
  | Some _ => d
  end.

(** What [find_one] gives back for an aware UTC datetime that was stored. *)
Definition stored_datetime (micros : Z) : DateTime :=
  mkDateTime (micros / 1000 * 1000) None.

(** [session["expires_at"]]: a string or a datetime. *)
Inductive StoredTime : Type :=
| TimeStr (s : string)
| TimeValue (d : DateTime).

Record User : Type := mkUser {
  usr_user_id : string;
  usr_email : string;
  usr_name : string;
  usr_picture : string;
  usr_created_at : DateTime
}.

Record UserSession : Type := mkUserSession {
  ses_user_id : string;
  ses_session_token : string;
  ses_expires_at : StoredTime;
  ses_created_at : DateTime
}.

Record AuthDb : Type := mkAuthDb {
  db_users : list User;
  db_user_sessions : list UserSession
}.

(** What the handlers read of a request: [request.cookies.get("session_token")]
    and [request.headers.get("Authorization")]. *)
Record Request : Type := mkRequest {
  cookie_session_token : option string;
  header_authorization : option string
}.

(** The answer of the OAuth service, a JSON object with string values;
    [None] is a key it does not have. *)
Record UserData : Type := mkUserData {
  ud_email : option string;
  ud_name : option string;
  ud_picture : option string;
  ud_session_token : option string
}.

(** What [response.set_cookie] is given. *)
Record SetCookie : Type := mkSetCookie {
  ck_key : string;
  ck_value : string;
  ck_httponly : bool;
  ck_secure : bool;
  ck_samesite : string;
  ck_path : string;
  ck_max_age : Z
}.

(** Truth value of an optional string: [None] and [""] are falsy. *)
Definition truthy (s : option string) : bool :=
  match s with
  | Some (String _ _) => true
  | _ => false
  end.

(** The token a request presents: the cookie, or else the word after
    [Bearer] in the [Authorization] header. *)
Definition presented_token (request : Request) : option string :=
  let session_token := cookie_session_token request in
  if truthy session_token then session_token
  else
    let auth_header := header_authorization request in
    if truthy auth_header && prefix "Bearer " (get_default auth_header "")
    then Some (nth 1 (split " " (get_default auth_header "")) "")
    else session_token.

Definition seven_days : Z := 7 * 24 * 3600 * 1000000.

Section Auth.

Variable X : Collab.

(** [datetime.fromisoformat]: the datetime a string denotes, or the
    [ValueError] raised. *)
Variable fromisoformat : string -> outcome DateTime.

(** The GET request of [create_session] to the OAuth service with the
    header [X-Session-ID]: the status code and the JSON body of the answer,
    or the exception [httpx] raises. *)
Variable oauth_session_data : string -> outcome (Z * UserData).

Definition find_session_by_token (token : string) (db : AuthDb) : option UserSession :=
  find (fun s => String.eqb (ses_session_token s) token) (db_user_sessions db).

Definition find_user_by_id (user_id : string) (db : AuthDb) : option User :=
  find (fun u => String.eqb (usr_user_id u) user_id) (db_users db).

Definition find_user_by_email (email : string) (db : AuthDb) : option User :=
  find (fun u => String.eqb (usr_email u) email) (db_users db).

(** [get_current_user] *)
Definition get_current_user (request : Request) (db : AuthDb) : M User :=
  let session_token := presented_token request in
  if negb (truthy session_token) then
    raise (HTTPException 401 "Not authenticated")
  else
    match find_session_by_token (get_default session_token "") db with
    | None => raise (HTTPException 401 "Invalid session")
    | Some session =>
        expires_at <- lift (match ses_expires_at session with
                            | TimeStr s => fromisoformat s
                            | TimeValue d => Return d
                            end) ;;
        let expires_at := assume_utc expires_at in
        now <- utc_now X ;;
        if utc_instant expires_at <? now then
          raise (HTTPException 401 "Session expired")
        else
          match find_user_by_id (ses_user_id session) db with
          | None => raise (HTTPException 401 "User not found")
          | Some user => ret user
          end
    end.

(** [get_me]: the user [get_current_user] resolves. *)
Definition get_me (request : Request) (db : AuthDb) : M User :=
  get_current_user request db.

(** [db.user_sessions.delete_many({"session_token": token})] *)
Definition delete_sessions (token : string) (db : AuthDb) : AuthDb :=
  mkAuthDb (db_users db)
           (filter (fun s => negb (String.eqb (ses_session_token s) token))
                   (db_user_sessions db)).

(** [logout]: the store it leaves, the key and path given to
    [response.delete_cookie], and the message of the answer. *)
Definition logout (request : Request) (db : AuthDb)
    : AuthDb * (string * string) * string :=
  let session_token := cookie_session_token request in
  let db := if truthy session_token
            then delete_sessions (get_default session_token "") db
            else db in
  (db, ("session_token", "/"), "Logged out").

(** [db.users.update_one({"email": email}, {"$set": {name, picture}})]: the
    first user with the address is updated. *)
Fixpoint update_user (email name picture : string) (users : list User) : list User :=
  match users with
  | [] => []
  | u :: rest =>
      if String.eqb (usr_email u) email
      then mkUser (usr_user_id u) (usr_email u) name picture (usr_created_at u) :: rest
      else u :: update_user email name picture rest
  end.

(** [user_data["k"]] *)
Definition user_data_item (key : string) (field : option string) : outcome string :=
  match field with
  | Some v => Return v
  | None => Raise (PyExc KeyError ("'" ++ key ++ "'"))
  end.

(** [create_session]; [body_session_id] is [body.get("session_id")], for a
    body that is a JSON object whose [session_id], when it has one, is a
    string.  The result is the user returned, the cookie set and the store
    left.  Every statement that can raise comes before the first write to
    the store, so a request that raises leaves the store as it was. *)
Definition create_session (body_session_id : option string) (db : AuthDb)
    : M (option User * SetCookie * AuthDb) :=
  if negb (truthy body_session_id) then
    raise (HTTPException 400 "session_id required")
  else
    resp <- lift (oauth_session_data (get_default body_session_id "")) ;;
    let '(status_code, user_data) := resp in
    if negb (status_code =? 200) then
      raise (HTTPException 401 "Invalid session")
    else
      email <- lift (user_data_item "email" (ud_email user_data)) ;;
      let existing_user := find_user_by_email email db in
      created <-
        match existing_user with
        | Some existing =>
            let user_id := usr_user_id existing in
            name <- lift (user_data_item "name" (ud_name user_data)) ;;
            ret (user_id,
                 update_user email name (get_default (ud_picture user_data) "")
                             (db_users db))
        | None =>
            h <- uuid4 X ;;
            let user_id := "user_" ++ slice_to 12 h in
            name <- lift (user_data_item "name" (ud_name user_data)) ;;
            created_at <- utc_now X ;;
            ret (user_id,
                 (db_users db
                  ++ [mkUser user_id email name
                             (get_default (ud_picture user_data) "")
                             (stored_datetime created_at)])%list)
        end ;;
      let '(user_id, users) := created in
      h <- uuid4 X ;;
      let session_token := get_default (ud_session_token user_data) ("st_" ++ h) in
      expires_from <- utc_now X ;;
      created_at <- utc_now X ;;
      let sessions :=
        (db_user_sessions db
         ++ [mkUserSession user_id session_token
               (TimeValue (stored_datetime (expires_from + seven_days)))
               (stored_datetime created_at)])%list in
      let db' := mkAuthDb users sessions in
      let cookie := mkSetCookie "session_token" session_token true true "none" "/"
                                (7 * 24 * 3600) in
      ret (find_user_by_id user_id db', cookie, db').

End Auth.

(** * backend/server.py: the planning system

    [db.plans] is the state of the two handlers below, in insertion order;
    no other handler reads or writes it. *)

Record PlanRequest : Type := mkPlanRequest {
  plan_req_region : option string;
  plan_req_specialty : option string;
  plan_req_description : option string
}.

(** A plan document; [pl_created_at] is the datetime of the handler in the
    document it returns, and that datetime as stored in a document of the
    collection. *)
Record Plan : Type := mkPlan {
  pl_plan_id : string;
  pl_region : option string;
  pl_specialty : option string;
  pl_description : option string;
  pl_plan_text : string;
  pl_created_at : DateTime
}.

(** The per-region dictionary of [generate_plan]; [types] is a dict, held
    in insertion order. *)
Record RegionSummary : Type := mkRegionSummary {
  rs_count : Z;
  rs_total_beds : Z;
  rs_total_staff : Z;
  rs_types : list (string * Z);
  rs_deserts : Z;
  rs_key_facilities : list string
}.

Definition new_summary : RegionSummary := mkRegionSummary 0 0 0 [] 0 [].

(** [types[t] = types.get(t, 0) + 1] *)
Fixpoint count_type (t : string) (types : list (string * Z)) : list (string * Z) :=
  match types with
  | [] => [(t, 0 + 1)]
  | (k, n) :: rest =>
      if String.eqb k t then (k, n + 1) :: rest else (k, n) :: count_type t rest
  end.

(** Is [fac] listed among the key facilities of its region. *)
Definition is_key_facility (fac : Facility) : bool :=
  (100 <? get_default (fac_beds fac) 0)
  || contains "Critical" (fac_operational_status fac)
  || str_in (fac_type fac) ["Teaching Hospital"; "Regional Hospital"].

(** The line of a key facility; [fac['beds']] and [fac['staff_count']] raise
    on a document without the key. *)
Definition key_facility_line (fac : Facility) : outcome string :=
  match getitem "beds" (fac_beds fac) with
  | Raise e => Raise e
  | Return beds =>
  match getitem "staff_count" (fac_staff_count fac) with
  | Raise e => Raise e
  | Return staff_count =>
      Return (fac_name fac ++ " (" ++ fac_type fac ++ ", " ++ str_int beds
              ++ " beds, " ++ str_int staff_count ++ " staff, "
              ++ fac_operational_status fac ++ ")")
  end end.

(** The body of the loop over the facilities, on the entry of the region.
    The record holds the notes and the status of every document, so
    [fac.get("notes", "")] and [fac.get("operational_status", "")] are the
    fields. *)
Definition summarise_facility (fac : Facility) (rs : RegionSummary)
    : outcome RegionSummary :=
  let count := rs_count rs + 1 in
  let total_beds := rs_total_beds rs + get_default (fac_beds fac) 0 in
  let total_staff := rs_total_staff rs + get_default (fac_staff_count fac) 0 in
  let types := count_type (fac_type fac) (rs_types rs) in
  let deserts := if contains "MEDICAL DESERT" (fac_notes fac)
                 then rs_deserts rs + 1 else rs_deserts rs in
  if is_key_facility fac then
    match key_facility_line fac with
    | Return line =>
        Return (mkRegionSummary count total_beds total_staff types deserts
                                (rs_key_facilities rs ++ [line])%list)
    | Raise e => Raise e
    end
  else
    Return (mkRegionSummary count total_beds total_staff types deserts
                            (rs_key_facilities rs)).

Fixpoint summary_lookup (region : string) (summaries : list (string * RegionSummary))
    : option RegionSummary :=
  match summaries with
  | [] => None
  | (k, rs) :: rest =>
      if String.eqb k region then Some rs else summary_lookup region rest
  end.

Fixpoint summary_set (region : string) (rs : RegionSummary)
    (summaries : list (string * RegionSummary)) : list (string * RegionSummary) :=
  match summaries with
  | [] => [(region, rs)]
  | (k, rs0) :: rest =>
      if String.eqb k region then (k, rs) :: rest
      else (k, rs0) :: summary_set region rs rest
  end.

(** The loop that builds [region_summaries]. *)
Fixpoint summarise_regions (facilities : list Facility)
    (summaries : list (string * RegionSummary))
    : outcome (list (string * RegionSummary)) :=
  match facilities with
  | [] => Return summaries
  | fac :: rest =>
      let region := fac_region fac in
      let rs := match summary_lookup region summaries with
                | Some rs => rs
                | None => new_summary
                end in
      match summarise_facility fac rs with
      | Return rs' => summarise_regions rest (summary_set region rs' summaries)
      | Raise e => Raise e
      end
  end.

Section Plans.

Variable X : Collab.

(** [db.facilities.find({"region": {"$regex": r, "$options": "i"}})]: the
    documents the cursor yields, or the exception of the server. *)
Variable find_region_regex : string -> list Facility -> outcome (list Facility).

(** [str(d)] for a dict from strings to integers, and [str.lower]. *)
Variable repr_types : list (string * Z) -> string.
Variable lower : string -> string.

(** [cursor.sort("created_at", direction)] on [db.plans]. *)
Variable sort_plans : Z -> list Plan -> list Plan.

(** The loop that builds [facility_context]. *)
Definition facility_context (summaries : list (string * RegionSummary)) : string :=
  fold_left
    (fun ctx kv =>
       let '(region, rs) := kv in
       let ctx :=
         ctx ++ nl ++ region ++ ": " ++ str_int (rs_count rs) ++ " facilities, "
         ++ str_int (rs_total_beds rs) ++ " beds, "
         ++ str_int (rs_total_staff rs) ++ " staff, "
         ++ str_int (rs_deserts rs) ++ " deserts" ++ nl in
       let ctx := ctx ++ "  Types: " ++ repr_types (rs_types rs) ++ nl in
       match rs_key_facilities rs with
       | [] => ctx
       | _ => ctx ++ "  Key facilities: "
                  ++ join "; " (firstn 10 (rs_key_facilities rs)) ++ nl
       end)
    summaries "".

(** [x or default] for an optional string. *)
Definition or_default (x : option string) (default : string) : string :=
  if truthy x then get_default x "" else default.

Definition plan_prompt (req : PlanRequest) (context : string) : string :=
  "Based on Ghana healthcare data, generate a resource allocation plan.

REGIONAL SUMMARY:
" ++ context ++ "

USER REQUEST:
Region focus: " ++ or_default (plan_req_region req) "All regions" ++ "
Specialty focus: " ++ or_default (plan_req_specialty req) "General" ++ "
Additional context: " ++ or_default (plan_req_description req) "None provided" ++ "

Generate a concise plan that:
1. Identifies the most critical gaps
2. Prioritizes actions by urgency (P0, P1, P2)
3. Suggests specific resource deployments
4. Estimates impact
5. Recommends partnerships

Format clearly with sections and bullet points.".

Definition plan_system_message : string :=
  "You are a healthcare resource planning expert for the Virtue Foundation, focused on Ghana. Generate concise, actionable plans.".

(** [generate_plan]; the result is the document returned and the
    collection left.  The insertion is the last statement that can fail, so
    a request that raises leaves [db.plans] as it was. *)
Definition generate_plan (req : PlanRequest) (plans : list Plan)
    : M (Plan * list Plan) :=
  coll <- get db_facilities ;;
  found <- (if truthy (plan_req_region req)
            then lift (find_region_regex (get_default (plan_req_region req) "") coll)
            else ret coll) ;;
  let facilities := firstn 5000 found in
  region_summaries <- lift (summarise_regions facilities []) ;;
  let prompt := plan_prompt req (facility_context region_summaries) in
  try_except
    (h <- uuid4 X ;;
     plan_text <- lift (send_message X ("plan_" ++ slice_to 8 h)
                                     plan_system_message prompt) ;;
     h' <- uuid4 X ;;
     let plan_id := "plan_" ++ slice_to 8 h' in
     created_at <- utc_now X ;;
     let plan_doc := mkPlan plan_id (plan_req_region req) (plan_req_specialty req)
                            (plan_req_description req) plan_text in
     ret (plan_doc (mkDateTime created_at (Some 0)),
          (plans ++ [plan_doc (stored_datetime created_at)])%list))
    any_Exception
    (fun e =>
       let error_msg := str_exn e in
       if contains "budget" (lower error_msg)
       then raise (HTTPException 429 "LLM budget limit reached.")
       else raise (HTTPException 500 ("Plan generation error: " ++ error_msg))).

(** [get_plan_history] *)
Definition get_plan_history (plans : list Plan) : list Plan :=
  firstn 20 (sort_plans (-1) plans).

End Plans.

(** ** A concrete set of collaborators

    A small instance of [Collab], to run the handlers on concrete requests:
    an exact inner-product index, a clock that advances by one microsecond
    per reading, a tracking store that accepts every call, a provider that
    echoes the question. *)
Module Sample.

Fixpoint dot (a b : list float) : float :=
  match a, b with
  | x :: a', y :: b' => (x * y + dot a' b')%float
  | _, _ => 0%float
  end.

Fixpoint insert_hit (h : float * Z) (hits : list (float * Z)) : list (float * Z) :=
  match hits with
  | [] => [h]
  | h' :: rest =>
      if (fst h <? fst h')%float then h' :: insert_hit h rest else h :: hits
  end.

(** The score FAISS reports with the label [-1] when the index holds fewer
    than [k] vectors. *)
Definition no_hit : float := (-0x1.fffffep+127)%float.

Definition index_flat_ip (ix : list (list float)) (q : list float) (k : nat)
    : outcome (list float * list Z) :=
  match k with
  | O => Raise (PyExc AssertionError "")
  | _ =>
      let scored := combine (map (dot q) ix)
                            (map Z.of_nat (seq 0 (List.length ix))) in
      let top := firstn k (fold_right insert_hit [] scored) in
      let pad := (k - List.length top)%nat in
      Return ((map fst top ++ repeat no_hit pad)%list,
              (map snd top ++ repeat (-1) pad)%list)
  end.

(** Queries are encoded on two axes: does the text mention surgery, does it
    mention a clinic. *)
Definition encode (text : string) : list float :=
  [if contains "surgery" text then 1%float else 0%float;
   if contains "clinic" text then 1%float else 0%float].

Fixpoint float_of_nat (n : nat) : float :=
  match n with
  | O => 0%float
  | S m => (float_of_nat m + 1)%float
  end.

Definition clock_seconds (k : nat) : float :=
  (1700000000 + float_of_nat k * 0x1.0c6f7a0b5ed8dp-20)%float.

Definition clock_micros (k : nat) : Z := 1700000000000000 + Z.of_nat k.

Definition zeros : string := "00000000000000000000000000000000".

Definition uuid_hex (k : nat) : string := slice_to 32 (str_nat k ++ zeros).

Definition echo (session system text : string) : outcome string :=
  Return ("Answer to: " ++ text).

Definition unavailable (session system text : string) : outcome string :=
  Raise (PyExc ProviderError "provider unavailable").

(** Every elapsed time met with this clock is below half a millisecond. *)
Definition format_ms (x : float) : string := "0".

Definition repr_list (xs : list string) : string :=
  "[" ++ join ", " (map (fun s => "'" ++ s ++ "'") xs) ++ "]".

Fixpoint insert_turn (descending : bool) (t : Turn) (sorted : list Turn)
    : list Turn :=
  match sorted with
  | [] => [t]
  | t' :: rest =>
      if (if descending then turn_created_at t <? turn_created_at t'
          else turn_created_at t' <? turn_created_at t)
      then t' :: insert_turn descending t rest
      else t :: sorted
  end.

Definition sort_turns (direction : Z) (turns : list Turn) : list Turn :=
  fold_right (insert_turn (direction <? 0)) [] turns.

Definition tracking_up (k : nat) : option string := Some ("run" ++ str_nat k).

Definition tracking_down (k : nat) : option string := None.

(** [json.loads] on the three documents used below. *)
Definition loads (s : string) : option JSON :=
  if String.eqb s "[]" then Some (JList [])
  else if String.eqb s "{}" then Some (JDict [])
  else if String.eqb s ("{" ++ quoted "limit" ++ ": 1000}")
  then Some (JDict [("limit", JInt 1000)])
  else None.

Definition dumps (v : JSON) : string :=
  match v with
  | JList [] => "[]"
  | JDict [] => "{}"
  | _ => "..."
  end.

Definition project (fac : Facility) : JSON :=
  JDict [("facility_id", JStr (fac_facility_id fac));
         ("name", JStr (fac_name fac));
         ("region", JStr (fac_region fac))].

(** [find] for the empty filter, which matches every document. *)
Definition find_all (filter projection : JSON) (coll : list Facility)
    : outcome (list JSON) :=
  match filter with
  | JDict [] => Return (map project coll)
  | JDict _ => Raise (PyExc ProviderError "operator not supported")
  | _ => Raise (PyExc TypeError "filter must be an instance of dict")
  end.

Definition sort_none (keys : list (string * JSON)) (docs : list JSON)
    : outcome (list JSON) :=
  match keys with
  | [] => Return docs
  | _ => Raise (PyExc ProviderError "sort not supported")
  end.

Definition as_dict (v : JSON) : outcome (list (string * JSON)) :=
  match v with
  | JDict entries => Return entries
  | _ => Raise (PyExc ValueError "Input should be a valid dictionary")
  end.

Definition as_str (v : JSON) : outcome string :=
  match v with
  | JStr s => Return s
  | _ => Raise (PyExc ValueError "Input should be a valid string")
  end.

Definition collab (llm : string -> string -> string -> outcome string)
    (tracking : nat -> option string) : Collab :=
  mkCollab (map encode) encode index_flat_ip clock_seconds clock_micros uuid_hex llm
           format_ms repr_list sort_turns tracking loads dumps
           find_all sort_none as_dict as_str.

Definition clinic : Facility :=
  mkFacility "GH-0001" "Test Clinic" "Northern" "Savelugu" "Clinic"
             (Some 10) (Some 4) (Some []) (Some []) (Some ["Laboratory"])
             "Operational - Minimal Capacity" "Outpatient clinic" "".

Definition hospital : Facility :=
  mkFacility "GH-0002" "Tamale Teaching Hospital" "Northern" "Tamale"
             "Teaching Hospital" (Some 400) (Some 900)
             (Some ["Surgery"; "Pediatrics"; "Obstetrics"])
             (Some ["CT Scanner"]) (Some ["Surgery"; "ICU"; "Blood Bank"])
             "Fully Operational" "Referral hospital with surgery" "".

(** The state of a fresh process on an empty store. *)
Definition boot : World := mkWorld None [] [] [] [] 0 0 0.

(** The state after start-up on the two facilities above. *)
Definition world : World :=
  snd (build_faiss_index (collab echo tracking_up) [clinic; hospital] boot).

(** The state before the index is built, the store already loaded. *)
Definition cold_world : World :=
  mkWorld None [] [] [clinic; hospital] [] 0 0 0.

(** A second region, with one health centre that offers surgery. *)
Definition health_centre : Facility :=
  mkFacility "GH-0003" "Wa Health Centre" "Upper West" "Wa" "Health Centre"
             (Some 40) (Some 25) (Some ["Surgery"]) None
             (Some ["Surgery"; "Laboratory"])
             "Operational" "Health centre with a theatre" "".

Definition two_regions : World :=
  mkWorld None [] [] [clinic; health_centre] [] 0 0 0.

(** A corpus of one facility, without and with surgery among its services. *)
Definition lone_clinic : World :=
  mkWorld None [] [] [clinic] [] 0 0 0.

Definition clinic_with_surgery : Facility :=
  mkFacility "GH-0001" "Test Clinic" "Northern" "Savelugu" "Clinic"
             (Some 10) (Some 4) (Some []) (Some [])
             (Some ["Laboratory"; "Surgery"])
             "Operational - Minimal Capacity" "Outpatient clinic" "".

Definition lone_surgical_clinic : World :=
  mkWorld None [] [] [clinic_with_surgery] [] 0 0 0.

(** Sixty facilities in the collection. *)
Definition sixty_clinics : World :=
  mkWorld None [] [] (repeat clinic 60) [] 0 0 0.

Definition turn (session message : string) (created_at : Z) : Turn :=
  mkTurn session message ("Answer to: " ++ message) [] [] None created_at.

(** A collection with seven turns of session [s1], stored out of order, and
    one turn of another session. *)
Definition seven_turns : World :=
  mkWorld None [] [] []
          [turn "s1" "q3" 30; turn "s1" "q1" 10; turn "s2" "other" 15;
           turn "s1" "q2" 20; turn "s1" "q7" 70; turn "s1" "q5" 50;
           turn "s1" "q4" 40; turn "s1" "q6" 60]
          0 0 0.

(** Providers with a fixed answer to every prompt. *)
Definition answers (text : string) (session system prompt : string)
    : outcome string :=
  Return text.


(** [str.lower] on ASCII text. *)
Definition lower_ascii (c : ascii) : ascii :=
  let n := nat_of_ascii c in
  if ((65 <=? n) && (n <=? 90))%nat then ascii_of_nat (n + 32) else c.

Fixpoint lower (s : string) : string :=
  match s with
  | EmptyString => EmptyString
  | String c rest => String (lower_ascii c) (lower rest)
  end.

(** A [$regex] without operators: the documents whose region contains the
    pattern, letter case apart. *)
Definition find_region (pattern : string) (coll : list Facility)
    : outcome (list Facility) :=
  Return (filter (fun f => contains (lower pattern) (lower (fac_region f))) coll).

Definition repr_types (types : list (string * Z)) : string :=
  "{" ++ join ", " (map (fun kv => "'" ++ fst kv ++ "': " ++ str_int (snd kv)) types)
  ++ "}".

Fixpoint insert_plan (p : Plan) (sorted : list Plan) : list Plan :=
  match sorted with
  | [] => [p]
  | q :: rest =>
      if dt_wall (pl_created_at p) <? dt_wall (pl_created_at q)
      then q :: insert_plan p rest
      else p :: sorted
  end.

(** [sort("created_at", -1)] on plans. *)
Definition sort_plans (direction : Z) (plans : list Plan) : list Plan :=
  fold_right insert_plan [] plans.

(** A provider that refuses for lack of budget. *)
Definition over_budget (session system text : string) : outcome string :=
  Raise (PyExc ProviderError "Budget has been exceeded").

Definition old_plan : Plan :=
  mkPlan "plan_old" None None None "An older plan." (stored_datetime 1600000000000000).

(** An OAuth service that knows one user, and a parser of ISO dates that
    refuses every string. *)
Definition oauth (session_id : string) : outcome (Z * UserData) :=
  Return (200, mkUserData (Some "ama@example.org") (Some "Ama") None None).

Definition no_iso (s : string) : outcome DateTime :=
  Raise (PyExc ValueError ("Invalid isoformat string: '" ++ s ++ "'")).

Definition ama : User :=
  mkUser "user_1" "ama@example.org" "Ama" "" (stored_datetime 1690000000000000).

(** A store with one user and one session of hers, live for a week after
    the first reading of the clock. *)
Definition auth_db : AuthDb :=
  mkAuthDb [ama]
           [mkUserSession "user_1" "tok"
              (TimeValue (stored_datetime (clock_micros 0 + seven_days)))
              (stored_datetime (clock_micros 0))].

(** [fac] with the notes the data script gives it under [ownership]. *)
Definition with_notes (ownership : string) (fac : Facility) : Facility :=
  mkFacility (fac_facility_id fac) (fac_name fac) (fac_region fac)
             (fac_district fac) (fac_type fac) (fac_beds fac)
             (fac_staff_count fac) (fac_specialties fac) (fac_equipment fac)
             (fac_services fac) (fac_operational_status fac)
             (fac_capabilities_text fac)
             (generate_notes (mkFacData (fac_type fac) (fac_region fac)
                                        ownership (fac_beds fac))).

Definition noted_world : World :=
  mkWorld None [] []
          [with_notes "Government" clinic; with_notes "Government" hospital;
           with_notes "CHAG" health_centre]
          [] 0 0 0.

End Sample.

(** * Properties *)

(** ** Reading a run backwards *)

Lemma bind_inv {A B} (m : M A) (k : A -> M B) (w w' : World) (b : B) :
  bind m k w = (Return b, w') ->
  exists a w1, m w = (Return a, w1) /\ k a w1 = (Return b, w').
Proof.
  unfold bind. destruct (m w) as [[a|e] w1]; intros H; [eauto | discriminate].
Qed.

Lemma lift_inv {A} (o : outcome A) (w w' : World) (a : A) :
  lift o w = (Return a, w') -> o = Return a /\ w' = w.
Proof. unfold lift. intros H. inversion H. auto. Qed.

Section Properties.

Variable X : Collab.

(** ** Retrieval *)

(** The parallel arrays built at start-up have one position per facility. *)
Definition index_aligned (w : World) : Prop :=
  List.length (facility_ids w) = List.length (facility_texts w).

(** Scores in descending order: each one is at least every later one. *)
Definition descending (scores : list float) : Prop :=
  StronglySorted (fun a b => (b <=? a)%float = true) scores.

(** What FAISS promises of [search(query_vec, k)]: [k] scores and [k]
    labels, best first. *)
Definition search_contract (k : nat) (out : list float * list Z) : Prop :=
  List.length (fst out) = k /\ List.length (snd out) = k /\ descending (fst out).

Definition positive (r : SearchResult) : Prop := (0 <? sr_score r)%float = true.

Definition by_score_desc (results : list SearchResult) : Prop :=
  StronglySorted (fun a b => (sr_score b <=? sr_score a)%float = true) results.

Lemma skipn_nth_error {A} (l : list A) (i : nat) (x : A) :
  nth_error l i = Some x -> skipn i l = x :: skipn (S i) l.
Proof.
  revert i. induction l as [|y l IH]; intros [|i] H; simpl in *; try discriminate.
  - now inversion H.
  - now apply IH.
Qed.

Lemma search_loop_spec (texts ids : list string) (scores : list float) :
  List.length ids = List.length texts ->
  forall (indices : list Z) (i : nat) (acc : list SearchResult),
    List.length scores = (i + List.length indices)%nat ->
    descending (skipn i scores) ->
    exists found,
      search_loop texts ids scores i indices acc = Return (acc ++ found)%list
      /\ (List.length found <= List.length indices)%nat
      /\ Forall positive found
      /\ Forall (fun r => In (sr_score r) (skipn i scores)) found
      /\ by_score_desc found.
Proof.
  intros Hlen. induction indices as [|idx rest IH]; intros i acc Hscores Hdesc.
  - exists []. simpl. rewrite app_nil_r. repeat split; constructor.
  - simpl in Hscores.
    destruct (nth_error scores i) as [s|] eqn:Hs.
    2:{ apply nth_error_None in Hs. lia. }
    pose proof (skipn_nth_error _ _ _ Hs) as Hskip.
    rewrite Hskip in Hdesc. inversion Hdesc as [|? ? Htail Hhead]; subst.
    assert (Hnext : List.length scores = (S i + List.length rest)%nat) by lia.
    assert (Hskipped : forall acc',
      exists found,
        search_loop texts ids scores (S i) rest acc' = Return (acc' ++ found)%list
        /\ (List.length found <= List.length (idx :: rest))%nat
        /\ Forall positive found
        /\ Forall (fun r => In (sr_score r) (skipn i scores)) found
        /\ by_score_desc found).
    { intros acc'. destruct (IH (S i) acc' Hnext Htail)
        as (found & Hrun & Hn & Hpos & Hin & Hsorted).
      exists found. repeat split; auto.
      - simpl. lia.
      - rewrite Hskip. eapply Forall_impl; [|exact Hin]. intros r Hr. now right. }
    simpl. destruct ((0 <=? idx) && (idx <? Z.of_nat (List.length texts))) eqn:Hrange.
    2:{ apply Hskipped. }
    rewrite Hs. destruct (0 <? s)%float eqn:Hpos_s.
    2:{ apply Hskipped. }
    apply andb_true_iff in Hrange as [Hlo Hhi].
    apply Z.leb_le in Hlo. apply Z.ltb_lt in Hhi.
    assert (Hnat : (Z.to_nat idx < List.length texts)%nat) by lia.
    destruct (nth_error ids (Z.to_nat idx)) as [fid|] eqn:Hfid.
    2:{ apply nth_error_None in Hfid. lia. }
    destruct (nth_error texts (Z.to_nat idx)) as [txt|] eqn:Htxt.
    2:{ apply nth_error_None in Htxt. lia. }
    destruct (IH (S i) (acc ++ [mkSearchResult fid txt s])%list Hnext Htail)
      as (found & Hrun & Hn & Hpos & Hin & Hsorted).
    exists (mkSearchResult fid txt s :: found). repeat split.
    + rewrite Hrun, <- app_assoc. reflexivity.
    + simpl. lia.
    + constructor; [exact Hpos_s | exact Hpos].
    + constructor; [rewrite Hskip; now left|].
      rewrite Hskip. eapply Forall_impl; [|exact Hin]. intros r Hr. now right.
    + constructor; [exact Hsorted|].
      rewrite Forall_forall in Hin, Hhead. apply Forall_forall.
      intros r Hr. simpl. apply Hhead, Hin, Hr.
Qed.

(** C1. Given the alignment of the start-up arrays, and that FAISS answers
    the query at hand as its contract says, [search_similar] returns (it
    does not raise), leaves the state as it was, and its result has at most
    [k] entries, every one with a score strictly above zero, in descending
    order of score. *)
Theorem search_similar_at_most_k_positive_descending
    (query : string) (k : nat) (w : World)
    (Haligned : index_aligned w)
    (Hfaiss : forall ix, faiss_index w = Some ix ->
       exists out,
         index_search X ix (encode_query X query) k = Return out
         /\ search_contract k out) :
  exists results,
    search_similar X query k w = (Return results, w)
    /\ (List.length results <= k)%nat
    /\ Forall positive results
    /\ by_score_desc results.
Proof.
  unfold search_similar, bind, get, ret, lift.
  destruct (faiss_index w) as [ix|] eqn:Hix.
  - destruct (Hfaiss ix eq_refl) as ([scores indices] & -> & Hs & Hi & Hdesc).
    simpl in Hs, Hi, Hdesc.
    destruct (search_loop_spec (facility_texts w) (facility_ids w) scores
                Haligned indices 0 [] ltac:(simpl; lia) Hdesc)
      as (found & Hrun & Hn & Hpos & _ & Hsorted).
    exists found. rewrite Hrun. simpl. repeat split; auto. lia.
  - exists []. repeat split; try constructor. simpl. lia.
Qed.

Lemma build_chunks_spec (facilities : list Facility) :
  forall texts ids texts' ids',
    build_chunks facilities texts ids = Return (texts', ids') ->
    List.length ids = List.length texts ->
    List.length ids' = List.length texts'
    /\ ids' = (ids ++ map fac_facility_id facilities)%list.
Proof.
  induction facilities as [|fac rest IH]; simpl; intros texts ids texts' ids' H Hlen.
  - injection H as <- <-. now rewrite app_nil_r.
  - destruct (facility_text fac) as [text|e]; [|discriminate].
    apply IH in H as [Hlen' ->]; [|rewrite !length_app; simpl; lia].
    split; [exact Hlen'|]. now rewrite <- app_assoc.
Qed.

(** The invariant of the parallel arrays: when [build_faiss_index] returns,
    the index is built from the encoded chunks, and there is one chunk and
    one identifier per facility of the file, in the order of the file. *)
Lemma build_faiss_index_aligned (facilities : list Facility) (w w' : World) :
  build_faiss_index X facilities w = (Return tt, w') ->
  index_aligned w'
  /\ faiss_index w' = Some (encode_texts X (facility_texts w'))
  /\ facility_ids w' = map fac_facility_id facilities.
Proof.
  unfold build_faiss_index. intros H.
  apply bind_inv in H as (coll & w1 & _ & H).
  apply bind_inv in H as (_ & w2 & _ & H).
  apply bind_inv in H as ([texts ids] & w3 & Hchunks & H).
  apply bind_inv in H as (t0 & w4 & _ & H).
  apply bind_inv in H as (t & w5 & _ & H).
  apply bind_inv in H as (dim & w6 & _ & H).
  apply lift_inv in Hchunks as [Hchunks _].
  apply build_chunks_spec in Hchunks as [Hlen Hids]; [|reflexivity].
  unfold set_index in H. injection H as <-. unfold index_aligned. simpl.
  repeat split; assumption.
Qed.

(** C2. When the index has not been built, [search_similar] returns the
    empty list: it does not raise and does not touch the state. *)
Theorem search_similar_without_index (query : string) (k : nat) (w : World)
    (Hnone : faiss_index w = None) :
  search_similar X query k w = (Return [], w).
Proof.
  unfold search_similar, bind, get, ret. now rewrite Hnone.
Qed.

(** ** Conversation memory *)

Definition older_first (a b : Turn) : Prop := turn_created_at a <= turn_created_at b.
Definition newer_first (a b : Turn) : Prop := turn_created_at b <= turn_created_at a.

(** Chronological order: each turn is at most as recent as every later one. *)
Definition chronological (turns : list Turn) : Prop := StronglySorted older_first turns.

(** What MongoDB promises of [sort("created_at", direction)]: the same
    documents, newest first for [-1] and oldest first for [1]. *)
Definition sort_contract : Prop :=
  (forall direction turns, Permutation (sort_created_at X direction turns) turns)
  /\ (forall turns, Sorted newer_first (sort_created_at X (-1) turns))
  /\ (forall turns, Sorted older_first (sort_created_at X 1 turns)).

Lemma older_first_trans : Relations_1.Transitive older_first.
Proof. intros a b c. unfold older_first. lia. Qed.

Lemma newer_first_trans : Relations_1.Transitive newer_first.
Proof. intros a b c. unfold newer_first. lia. Qed.

Lemma StronglySorted_app_inv {A} (R : A -> A -> Prop) (l1 l2 : list A) :
  StronglySorted R (l1 ++ l2) ->
  StronglySorted R l1 /\ StronglySorted R l2
  /\ Forall (fun a => Forall (R a) l2) l1.
Proof.
  induction l1 as [|x l1 IH]; simpl; intros H.
  - repeat split; [constructor | exact H | constructor].
  - inversion H as [|? ? Hs Hall]; subst.
    destruct (IH Hs) as (H1 & H2 & H12).
    apply Forall_app in Hall as [Hx1 Hx2].
    repeat split; auto; constructor; auto.
Qed.

Lemma StronglySorted_snoc {A} (R : A -> A -> Prop) (l : list A) (x : A) :
  StronglySorted R l -> Forall (fun y => R y x) l -> StronglySorted R (l ++ [x]).
Proof.
  induction l as [|y l IH]; simpl; intros Hs Hall.
  - repeat constructor.
  - inversion Hs; subst. inversion Hall; subst.
    constructor; [now apply IH|].
    apply Forall_app. split; [assumption | now constructor].
Qed.

Lemma StronglySorted_rev {A} (R : A -> A -> Prop) (l : list A) :
  StronglySorted R l -> StronglySorted (fun a b => R b a) (rev l).
Proof.
  induction 1 as [|x l Hs IH Hall]; simpl; [constructor|].
  apply StronglySorted_snoc; [exact IH|].
  apply Forall_rev. exact Hall.
Qed.

(** The turns [load_history] reads, as a function of the collection. *)
Definition history_window (session_id : string) (coll : list Turn) : list Turn :=
  rev (firstn 5 (sort_created_at X (-1) (find_session session_id coll))).

Lemma load_history_eq (session_id : string) (w : World) :
  load_history X session_id w
  = (Return (history_window session_id (db_chat_history w)), w).
Proof. reflexivity. Qed.

Lemma history_window_spec (Hsort : sort_contract) (session_id : string)
    (coll : list Turn) :
  let stored := find_session session_id coll in
  let history := history_window session_id coll in
  let older := skipn 5 (sort_created_at X (-1) stored) in
  List.length history = Nat.min (List.length stored) 5
  /\ chronological history
  /\ Permutation (older ++ history) stored
  /\ Forall (fun o => Forall (older_first o) history) older.
Proof.
  intros stored history older.
  destruct Hsort as (Hperm & Hdesc & _).
  specialize (Hperm (-1) stored). specialize (Hdesc stored).
  apply (Sorted_StronglySorted newer_first_trans) in Hdesc.
  subst history older. unfold history_window. fold stored.
  set (sorted := sort_created_at X (-1) stored) in *.
  rewrite <- (firstn_skipn 5 sorted) in Hdesc.
  apply StronglySorted_app_inv in Hdesc as (Hfirst & _ & Hcross).
  repeat split.
  - rewrite length_rev, length_firstn, (Permutation_length Hperm). lia.
  - apply (StronglySorted_rev _ _ Hfirst).
  - transitivity sorted; [|exact Hperm].
    transitivity (firstn 5 sorted ++ skipn 5 sorted)%list;
      [|now rewrite firstn_skipn].
    rewrite Permutation_app_comm. apply Permutation_app_tail.
    symmetry. apply Permutation_rev.
  - rewrite Forall_forall in Hcross. apply Forall_forall. intros o Ho.
    apply Forall_forall. intros h Hh. apply in_rev in Hh.
    specialize (Hcross h Hh). rewrite Forall_forall in Hcross.
    apply (Hcross o Ho).
Qed.

(** ** Running a handler: what stays, what is returned *)

(** [w'] holds the data of [w]: the index, its arrays and both collections;
    only the counters may have advanced. *)
Definition same_data (w w' : World) : Prop :=
  faiss_index w' = faiss_index w
  /\ facility_texts w' = facility_texts w
  /\ facility_ids w' = facility_ids w
  /\ db_facilities w' = db_facilities w
  /\ db_chat_history w' = db_chat_history w
  /\ (clock_reads w <= clock_reads w')%nat.

Lemma same_data_refl (w : World) : same_data w w.
Proof. repeat split; auto. Qed.

Lemma same_data_trans (w1 w2 w3 : World) :
  same_data w1 w2 -> same_data w2 w3 -> same_data w1 w3.
Proof.
  intros (a1 & a2 & a3 & a4 & a5 & a6) (b1 & b2 & b3 & b4 & b5 & b6).
  repeat split; try congruence; lia.
Qed.

(** A computation that may raise but leaves the data alone. *)
Definition benign {A} (m : M A) : Prop :=
  forall w, exists o w', m w = (o, w') /\ same_data w w'.

(** A computation that returns and leaves the data alone. *)
Definition calm {A} (m : M A) : Prop :=
  forall w, exists a w', m w = (Return a, w') /\ same_data w w'.

(** [m] returns from [w], with a result and a state that satisfy [Q]. *)
Definition wp {A} (m : M A) (w : World) (Q : A -> World -> Prop) : Prop :=
  exists a w', m w = (Return a, w') /\ Q a w'.

Lemma calm_benign {A} (m : M A) : calm m -> benign m.
Proof. intros H w. destruct (H w) as (a & w' & E & D). eauto. Qed.

Lemma benign_ret {A} (a : A) : benign (ret a).
Proof. intros w. exists (Return a), w. split; [reflexivity | apply same_data_refl]. Qed.

Lemma benign_lift {A} (o : outcome A) : benign (lift o).
Proof. intros w. exists o, w. split; [reflexivity | apply same_data_refl]. Qed.

Lemma benign_bind {A B} (m : M A) (k : A -> M B) :
  benign m -> (forall a, benign (k a)) -> benign (bind m k).
Proof.
  intros Hm Hk w. destruct (Hm w) as (o & w1 & E & D). unfold bind. rewrite E.
  destruct o as [a|e].
  - destruct (Hk a w1) as (o2 & w2 & E2 & D2). exists o2, w2.
    split; [exact E2 | eapply same_data_trans; eauto].
  - eauto.
Qed.

Lemma benign_try_except {A} (m : M A) (c : exn -> bool) (h : exn -> M A) :
  benign m -> (forall e, benign (h e)) -> benign (try_except m c h).
Proof.
  intros Hm Hh w. destruct (Hm w) as (o & w1 & E & D). unfold try_except.
  rewrite E. destruct o as [a|e]; [eauto|].
  destruct (c e); [|eauto].
  destruct (Hh e w1) as (o2 & w2 & E2 & D2). exists o2, w2.
  split; [exact E2 | eapply same_data_trans; eauto].
Qed.

Lemma benign_mlflow_call : benign (mlflow_call X).
Proof.
  intros w. unfold mlflow_call. destruct (mlflow_outcome X (mlflow_calls w));
    eexists; eexists; (split; [reflexivity|]); repeat split; auto.
Qed.

Lemma calm_time_now : calm (time_now X).
Proof.
  intros w. eexists; eexists. split; [reflexivity|].
  repeat split; simpl; auto.
Qed.

Lemma calm_uuid4 : calm (uuid4 X).
Proof.
  intros w. eexists; eexists. split; [reflexivity|].
  repeat split; simpl; auto.
Qed.

Lemma calm_ret {A} (a : A) : calm (ret a).
Proof. intros w. exists a, w. split; [reflexivity | apply same_data_refl]. Qed.

Lemma calm_bind {A B} (m : M A) (k : A -> M B) :
  calm m -> (forall a, calm (k a)) -> calm (bind m k).
Proof.
  intros Hm Hk w. destruct (Hm w) as (a & w1 & E & D). unfold bind. rewrite E.
  destruct (Hk a w1) as (b & w2 & E2 & D2). exists b, w2.
  split; [exact E2 | eapply same_data_trans; eauto].
Qed.

Lemma calm_try_except {A} (m : M A) (h : exn -> M A) :
  benign m -> (forall e, calm (h e)) -> calm (try_except m any_Exception h).
Proof.
  intros Hm Hh w. destruct (Hm w) as (o & w1 & E & D). unfold try_except.
  rewrite E. destruct o as [a|e]; [eauto|]. simpl.
  destruct (Hh e w1) as (a & w2 & E2 & D2). exists a, w2.
  split; [exact E2 | eapply same_data_trans; eauto].
Qed.

Lemma calm_try_pass (m : M unit) : benign m -> calm (try_pass m).
Proof. intros H. apply calm_try_except; [exact H | intros; apply calm_ret]. Qed.

Create HintDb tracking.

#[local] Hint Resolve benign_ret benign_lift benign_mlflow_call calm_time_now
  calm_uuid4 calm_ret calm_benign : tracking.
#[local] Hint Extern 2 (benign (bind _ _)) =>
  apply benign_bind; [|intros] : tracking.
#[local] Hint Extern 2 (calm (bind _ _)) =>
  apply calm_bind; [|intros] : tracking.
#[local] Hint Extern 2 (calm (try_pass _)) => apply calm_try_pass : tracking.
#[local] Hint Extern 2 (calm (try_except _ any_Exception _)) =>
  apply calm_try_except; [|intros] : tracking.
#[local] Hint Extern 3 (benign (try_except _ _ _)) =>
  apply benign_try_except; [|intros] : tracking.
#[local] Hint Unfold mlflow_log_param mlflow_log_params mlflow_log_metric
  mlflow_log_metrics mlflow_log_artifact mlflow_end_run write_text
  start_mlflow_run log_agent_step : tracking.

Ltac tracking := repeat autounfold with tracking; auto 20 with tracking.

Lemma calm_start_tracking (req : ChatRequest) (sid : string) :
  calm (start_tracking X req sid).
Proof. unfold start_tracking. tracking. Qed.

Lemma calm_log_memory_retrieval (sid : string) (t0 : float) (h : list Turn) :
  calm (log_memory_retrieval X sid t0 h).
Proof. unfold log_memory_retrieval. destruct h; tracking. Qed.

Lemma calm_finish_tracking (t0 : float) : calm (finish_tracking X t0).
Proof. unfold finish_tracking. tracking. Qed.

Lemma wp_bind {A B} (m : M A) (k : A -> M B) (w : World) (Q : B -> World -> Prop) :
  wp m w (fun a w' => wp (k a) w' Q) -> wp (bind m k) w Q.
Proof.
  intros (a & w1 & E & b & w2 & E2 & HQ). exists b, w2.
  split; [|exact HQ]. unfold bind. now rewrite E.
Qed.

Lemma wp_ret {A} (a : A) (w : World) (Q : A -> World -> Prop) :
  Q a w -> wp (ret a) w Q.
Proof. intros H. exists a, w. now split. Qed.

Lemma wp_conseq {A} (m : M A) (w : World) (P Q : A -> World -> Prop) :
  wp m w P -> (forall a w', P a w' -> Q a w') -> wp m w Q.
Proof. intros (a & w' & E & H) HPQ. exists a, w'. auto. Qed.

Lemma wp_calm {A} (m : M A) (w : World) :
  calm m -> wp m w (fun _ w' => same_data w w').
Proof. intros H. destruct (H w) as (a & w' & E & D). now exists a, w'. Qed.

Lemma wp_get {A} (f : World -> A) (w : World) :
  wp (get f) w (fun a w' => a = f w /\ w' = w).
Proof. exists (f w), w. repeat split. Qed.

(** One statement of a handler: run it with [lemma], name what it leaves. *)
Tactic Notation "step" uconstr(lemma) :=
  apply wp_bind; eapply wp_conseq; [eapply lemma | cbv beta].

(** ** The chat endpoint *)

(** The retrieval step can run on [query]: the start-up arrays are aligned
    and FAISS answers with as many scores as labels. *)
Definition retrieval_ready (w : World) (query : string) : Prop :=
  index_aligned w
  /\ forall ix, faiss_index w = Some ix ->
       exists scores indices,
         index_search X ix (encode_query X query) 5 = Return (scores, indices)
         /\ List.length scores = List.length indices.

Lemma search_loop_returns (texts ids : list string) (scores : list float) :
  List.length ids = List.length texts ->
  forall (indices : list Z) (i : nat) (acc : list SearchResult),
    List.length scores = (i + List.length indices)%nat ->
    exists results, search_loop texts ids scores i indices acc = Return results.
Proof.
  intros Hlen. induction indices as [|idx rest IH]; intros i acc Hscores.
  - now exists acc.
  - simpl in Hscores. simpl.
    assert (Hnext : List.length scores = (S i + List.length rest)%nat) by lia.
    destruct ((0 <=? idx) && (idx <? Z.of_nat (List.length texts))) eqn:Hrange;
      [|now apply IH].
    destruct (nth_error scores i) as [s|] eqn:Hs.
    2:{ apply nth_error_None in Hs. lia. }
    destruct (0 <? s)%float; [|now apply IH].
    apply andb_true_iff in Hrange as [Hlo Hhi].
    apply Z.leb_le in Hlo. apply Z.ltb_lt in Hhi.
    destruct (nth_error ids (Z.to_nat idx)) as [fid|] eqn:Hfid.
    2:{ apply nth_error_None in Hfid. lia. }
    destruct (nth_error texts (Z.to_nat idx)) as [txt|] eqn:Htxt.
    2:{ apply nth_error_None in Htxt. lia. }
    now apply IH.
Qed.

Lemma search_similar_returns (w : World) (query : string) :
  retrieval_ready w query ->
  exists results, search_similar X query 5 w = (Return results, w).
Proof.
  intros [Haligned Hfaiss]. unfold search_similar, bind, get, ret, lift.
  destruct (faiss_index w) as [ix|]; [|now exists []].
  destruct (Hfaiss ix eq_refl) as (scores & indices & -> & Hlen).
  destruct (search_loop_returns (facility_texts w) (facility_ids w) scores
              Haligned indices 0 [] Hlen) as [results Hrun].
  exists results. now rewrite Hrun.
Qed.

Lemma search_similar_same_index (w w' : World) (query : string) (k : nat)
    (o : outcome (list SearchResult)) :
  faiss_index w' = faiss_index w ->
  facility_texts w' = facility_texts w ->
  facility_ids w' = facility_ids w ->
  search_similar X query k w = (o, w) ->
  search_similar X query k w' = (o, w').
Proof.
  intros Hix Htexts Hids H.
  unfold search_similar, bind, get, ret, lift in *. cbv beta iota in *.
  rewrite Hix.
  destruct (faiss_index w) as [ix|].
  - destruct (index_search X ix (encode_query X query) k) as [[scores indices]|e].
    + rewrite Htexts, Hids. inversion H as [Ho]. reflexivity.
    + inversion H. reflexivity.
  - inversion H. reflexivity.
Qed.

Lemma wp_search_similar (w w' : World) (query : string) (k : nat)
    (results : list SearchResult) :
  same_data w w' ->
  search_similar X query k w = (Return results, w) ->
  wp (search_similar X query k) w' (fun r w'' => r = results /\ w'' = w').
Proof.
  intros (Hix & Htexts & Hids & _) H. exists results, w'. split; [|now split].
  eapply search_similar_same_index; eauto.
Qed.

Lemma wp_load_history (session_id : string) (w : World) :
  wp (load_history X session_id) w
     (fun h w' => h = history_window session_id (db_chat_history w) /\ w' = w).
Proof. eexists; eexists. split; [apply load_history_eq | now split]. Qed.

(** [session_id] as the first statement of [chat_endpoint] computes it. *)
Definition resolved_session_id (req : ChatRequest) (w : World) : string :=
  match req_session_id req with
  | Some (String c s) => String c s
  | _ => "chat_" ++ slice_to 8 (uuid4_hex X (uuid_draws w))
  end.

Lemma wp_resolve_session_id (req : ChatRequest) (w : World) :
  wp (resolve_session_id X req) w
     (fun sid w' => sid = resolved_session_id req w /\ same_data w w').
Proof.
  unfold resolve_session_id, resolved_session_id.
  destruct (req_session_id req) as [[|c s]|].
  2:{ apply wp_ret. split; [reflexivity | apply same_data_refl]. }
  all: eexists; eexists; (split; [reflexivity|]);
    split; [reflexivity | repeat split; auto].
Qed.

(** What step 5 leaves: the provider's text, or the fallback text when the
    provider raised; one more step in the trace either way. *)
Definition generated (req : ChatRequest) (results : list SearchResult)
    (steps : list ReasoningStep) (out : string * list ReasoningStep) : Prop :=
  exists label prompt step5,
    snd out = (steps ++ [step5])%list
    /\ match send_message X label prompt (req_message req) with
       | Return text => fst out = text
       | Raise e => fst out = fallback_response e results
       end.

Lemma wp_generate (req : ChatRequest) (sid prompt : string)
    (results : list SearchResult) (parts : list string) (history : list Turn)
    (steps : list ReasoningStep) (w : World) :
  wp (generate X req sid prompt results parts history steps) w
     (fun out w' => generated req results steps out /\ same_data w w').
Proof.
  unfold generate. step wp_calm; [apply calm_time_now|].
  intros t2 w1 D1. unfold try_except, bind at 1. unfold wp. cbv beta.
  destruct (calm_uuid4 w1) as (h & w2 & Eh & D2). rewrite Eh.
  unfold bind at 1, lift at 1.
  destruct (send_message X ("rag_" ++ sid ++ "_" ++ slice_to 6 h) prompt
              (req_message req)) as [text|e] eqn:Hsend.
  - unfold bind at 1. destruct (calm_time_now w2) as (t & w3 & Et & D3).
    rewrite Et. cbv zeta.
    match goal with
    | |- context [bind (try_pass ?m) _] =>
        destruct (calm_try_pass m ltac:(tracking) w3) as (u & w4 & Ep & D4)
    end.
    unfold bind at 1. rewrite Ep. unfold ret.
    eexists; eexists. split; [reflexivity|]. split.
    + eexists; eexists; eexists. split; [reflexivity|]. rewrite Hsend. reflexivity.
    + eauto using same_data_trans.
  - simpl. unfold ret. eexists; eexists. split; [reflexivity|]. split.
    + eexists; eexists; eexists. split; [reflexivity|]. rewrite Hsend. reflexivity.
    + eauto using same_data_trans.
Qed.

(** What a request to [chat_endpoint] leaves when it returns [resp]:
    [results] is what retrieval returns on the message. *)
Definition chat_post (req : ChatRequest) (w : World)
    (results : list SearchResult) (resp : ChatResponse) (w' : World) : Prop :=
  let history := history_window (session_id resp) (db_chat_history w) in
  session_id resp = resolved_session_id req w
  /\ citations resp = snd (build_context 0 results)
  /\ (exists step3,
        generated req results
          [query_analysis_step req; memory_retrieval_step history; step3;
           context_assembly_step results history]
          (response resp, reasoning_steps resp))
  /\ (exists c,
        (clock_reads w <= c < clock_reads w')%nat
        /\ db_chat_history w'
           = (db_chat_history w
              ++ [mkTurn (session_id resp) (req_message req) (response resp)
                         (citations resp) (reasoning_steps resp)
                         (mlflow_run_id resp) (datetime_now X c)])%list)
  /\ faiss_index w' = faiss_index w
  /\ facility_texts w' = facility_texts w
  /\ facility_ids w' = facility_ids w
  /\ db_facilities w' = db_facilities w.

Lemma chat_endpoint_runs (req : ChatRequest) (w : World)
    (results : list SearchResult) :
  search_similar X (req_message req) 5 w = (Return results, w) ->
  wp (chat_endpoint X req) w (chat_post req w results).
Proof.
  intros Hsearch. unfold chat_endpoint.
  step wp_resolve_session_id. intros sid w1 [Hsid D1].
  step wp_calm; [apply calm_start_tracking|]. intros run_id w2 D2.
  step wp_calm; [apply calm_time_now|]. intros t0 w3 D3.
  cbv zeta.
  step wp_calm; [apply calm_try_pass; tracking|]. intros _ w4 D4.
  step wp_load_history. intros history w4' [-> ->].
  step wp_calm; [apply calm_log_memory_retrieval|]. intros _ w5 D5.
  step wp_calm; [apply calm_time_now|]. intros t1 w6 D6.
  assert (D06 : same_data w w6) by eauto 10 using same_data_trans.
  step (wp_search_similar _ _ _ _ _ D06 Hsearch). intros results' w6' [-> ->].
  step wp_calm; [apply calm_time_now|]. intros t1' w7 D7.
  step wp_calm; [apply calm_try_pass; tracking|]. intros _ w8 D8.
  destruct (build_context 0 results) as [context_parts cites] eqn:Hctx.
  step wp_get. intros all_facilities w9 [_ ->].
  step wp_generate. intros [text steps5] w10 [Hgen D10].
  apply wp_bind. eexists; eexists. split; [reflexivity|].
  apply wp_bind. eexists; eexists. split; [reflexivity|].
  step wp_calm; [apply calm_finish_tracking|]. intros _ w11 D11.
  apply wp_ret.
  assert (D04 : same_data w w4) by eauto 10 using same_data_trans.
  assert (D0 : same_data w w10) by eauto 10 using same_data_trans.
  destruct D04 as (_ & _ & _ & _ & Hh4 & _).
  destruct D0 as (Hix & Htx & Hid & Hfac & Hhist & Hclock).
  destruct D11 as (Hix' & Htx' & Hid' & Hfac' & Hhist' & Hclock').
  simpl in Hix', Htx', Hid', Hfac', Hhist', Hclock'.
  unfold chat_post. simpl. rewrite Hh4 in Hgen.
  split; [exact Hsid|]. split; [now rewrite Hctx|].
  split; [eexists; exact Hgen|].
  split; [|repeat split; congruence].
  exists (clock_reads w10). split; [lia|]. rewrite Hhist', Hhist. reflexivity.
Qed.

(** C3. [chat_endpoint] returns on every request whose retrieval step can
    run.  [stored] are the turns of the request's session in the collection
    and [m] their number.  The memory step loads [min m 5] of them, in
    chronological order, and every stored turn it leaves out is at most as
    recent as every turn it loads; so it loads nothing for a new session,
    all [m] turns when [m <= 5], and the five most recent ones otherwise.
    The second step of the response's trace reports that number, or that
    there is no previous history when it is zero. *)
Theorem memory_retrieval_loads_recent_window
    (Hsort : sort_contract) (req : ChatRequest) (w : World)
    (Hready : retrieval_ready w (req_message req)) :
  exists resp w' history_docs older,
    chat_endpoint X req w = (Return resp, w')
    /\ load_history X (session_id resp) w = (Return history_docs, w)
    /\ nth_error (reasoning_steps resp) 1
       = Some (memory_retrieval_step history_docs)
    /\ let stored := find_session (session_id resp) (db_chat_history w) in
       let m := List.length stored in
       List.length history_docs = Nat.min m 5
       /\ chronological history_docs
       /\ Permutation (older ++ history_docs) stored
       /\ Forall (fun o => Forall (older_first o) history_docs) older
       /\ (m = 0%nat -> history_docs = [])
       /\ ((m <= 5)%nat -> older = [] /\ List.length history_docs = m)
       /\ ((5 < m)%nat -> List.length history_docs = 5%nat)
       /\ detail (memory_retrieval_step history_docs)
          = (if (m =? 0)%nat
             then "No previous conversation history (new session)"
             else "Loaded " ++ str_nat (Nat.min m 5)
                  ++ " previous conversation turns for context").
Proof.
  destruct (search_similar_returns w (req_message req) Hready) as [results Hs].
  destruct (chat_endpoint_runs req w results Hs)
    as (resp & w' & Hrun & _ & _ & (step3 & Hgen) & _).
  destruct Hgen as (label & prompt & step5 & Hsteps & _). simpl in Hsteps.
  destruct (history_window_spec Hsort (session_id resp) (db_chat_history w))
    as (Hlen & Hchron & Hperm & Hcross).
  exists resp, w', (history_window (session_id resp) (db_chat_history w)),
    (skipn 5 (sort_created_at X (-1)
                (find_session (session_id resp) (db_chat_history w)))).
  split; [exact Hrun|]. split; [apply load_history_eq|].
  split; [now rewrite Hsteps|]. cbv zeta.
  set (stored := find_session (session_id resp) (db_chat_history w)) in *.
  set (history := history_window (session_id resp) (db_chat_history w)) in *.
  set (older := skipn 5 (sort_created_at X (-1) stored)) in *.
  pose proof (Permutation_length Hperm) as Hcount. rewrite length_app in Hcount.
  clearbody history older. revert Hlen Hcount.
  generalize (List.length stored). intros m Hlen Hcount.
  repeat split; auto.
  - intros Hm. destruct history; [reflexivity | simpl in *; lia].
  - destruct older; [reflexivity | simpl in Hcount; lia].
  - lia.
  - lia.
  - destruct (Nat.eqb_spec m 0) as [Hm|Hm].
    + destruct history; [reflexivity | simpl in *; lia].
    + destruct history as [|t rest] eqn:Hh; [simpl in *; lia|].
      simpl memory_retrieval_step. cbv [detail]. now rewrite <- Hlen.
Qed.

(** C5. When the provider raises [e] on the request's message, and the
    retrieval step can run, [chat_endpoint] returns a response (it raises
    nothing) whose text is the fallback message: it quotes [e] and reports
    the number of records retrieval returned. *)
Theorem chat_endpoint_falls_back_when_provider_raises
    (req : ChatRequest) (w : World) (e : exn)
    (Hready : retrieval_ready w (req_message req))
    (Hraises : forall label prompt,
       send_message X label prompt (req_message req) = Raise e) :
  exists results resp w',
    search_similar X (req_message req) 5 w = (Return results, w)
    /\ chat_endpoint X req w = (Return resp, w')
    /\ response resp
       = "Error processing query: " ++ str_exn e ++ ". Found "
         ++ str_nat (List.length results) ++ " relevant records.".
Proof.
  destruct (search_similar_returns w (req_message req) Hready) as [results Hs].
  destruct (chat_endpoint_runs req w results Hs) as (resp & w' & Hrun & Hpost).
  exists results, resp, w'. repeat split; auto.
  destruct Hpost as (_ & _ & (step3 & label & prompt & step5 & _ & Htext) & _).
  rewrite Hraises in Htext. exact Htext.
Qed.

Lemma find_session_app (session_id : string) (coll more : list Turn) :
  find_session session_id (coll ++ more)
  = (find_session session_id coll ++ find_session session_id more)%list.
Proof. apply filter_app. Qed.






End Properties.

(** ** Tracking and the primary response *)

(** [X] with another behaviour of the tracking store. *)
Definition with_tracking (outcomes : nat -> option string) (X : Collab) : Collab :=
  mkCollab (encode_texts X) (encode_query X) (index_search X) (time_time X)
           (datetime_now X)
           (uuid4_hex X) (send_message X) (format_0f X) (str_list X)
           (sort_created_at X) outcomes (json_loads X) (json_dumps X)
           (mongo_find X) (mongo_sort X) (validate_dict X) (validate_str X).

(** Two states that differ at most in the number of tracking calls made. *)
Definition same_but_calls (w1 w2 : World) : Prop :=
  faiss_index w1 = faiss_index w2
  /\ facility_texts w1 = facility_texts w2
  /\ facility_ids w1 = facility_ids w2
  /\ db_facilities w1 = db_facilities w2
  /\ db_chat_history w1 = db_chat_history w2
  /\ clock_reads w1 = clock_reads w2
  /\ uuid_draws w1 = uuid_draws w2.

(** Two stored turns that differ at most in the run id they record. *)
Definition same_but_run (t1 t2 : Turn) : Prop :=
  turn_session_id t1 = turn_session_id t2
  /\ turn_message t1 = turn_message t2
  /\ turn_response t1 = turn_response t2
  /\ turn_citations t1 = turn_citations t2
  /\ turn_reasoning_steps t1 = turn_reasoning_steps t2
  /\ turn_created_at t1 = turn_created_at t2.

(** Two states that differ at most in the tracking calls made and in the
    run ids written in the stored turns. *)
Definition same_but_tracking (w1 w2 : World) : Prop :=
  faiss_index w1 = faiss_index w2
  /\ facility_texts w1 = facility_texts w2
  /\ facility_ids w1 = facility_ids w2
  /\ db_facilities w1 = db_facilities w2
  /\ Forall2 same_but_run (db_chat_history w1) (db_chat_history w2)
  /\ clock_reads w1 = clock_reads w2
  /\ uuid_draws w1 = uuid_draws w2.

(** The part of a response the caller reads, the run id left out. *)
Definition same_primary (r1 r2 : ChatResponse) : Prop :=
  response r1 = response r2
  /\ citations r1 = citations r2
  /\ reasoning_steps r1 = reasoning_steps r2
  /\ session_id r1 = session_id r2.

Lemma same_but_calls_refl (w : World) : same_but_calls w w.
Proof. repeat split. Qed.

Lemma same_but_calls_sym (w1 w2 : World) :
  same_but_calls w1 w2 -> same_but_calls w2 w1.
Proof. intros (a & b & c & d & e & f & g). repeat split; congruence. Qed.

Lemma same_but_calls_trans (w1 w2 w3 : World) :
  same_but_calls w1 w2 -> same_but_calls w2 w3 -> same_but_calls w1 w3.
Proof.
  intros (a & b & c & d & e & f & g) (a' & b' & c' & d' & e' & f' & g').
  repeat split; congruence.
Qed.

Lemma same_but_run_refl (t : Turn) : same_but_run t t.
Proof. repeat split. Qed.

Lemma Forall2_same_but_run_refl (l : list Turn) : Forall2 same_but_run l l.
Proof. induction l; constructor; auto using same_but_run_refl. Qed.

Lemma same_but_calls_tracking (w1 w2 : World) :
  same_but_calls w1 w2 -> same_but_tracking w1 w2.
Proof.
  intros (a & b & c & d & e & f & g). repeat split; auto.
  rewrite e. apply Forall2_same_but_run_refl.
Qed.

(** [m] may raise; apart from the count of tracking calls it leaves the
    state [f w]. *)
Definition tracked (f : World -> World) {A} (m : M A) : Prop :=
  forall w, exists o w', m w = (o, w') /\ same_but_calls (f w) w'.

(** As [tracked], and [m] returns. *)
Definition tracked_total (f : World -> World) {A} (m : M A) : Prop :=
  forall w, exists a w', m w = (Return a, w') /\ same_but_calls (f w) w'.

Definition keep (w : World) : World := w.

Lemma tracked_ret {A} (a : A) : tracked keep (ret a).
Proof. intros w. exists (Return a), w. split; [reflexivity | apply same_but_calls_refl]. Qed.

Lemma tracked_mlflow_call (X : Collab) : tracked keep (mlflow_call X).
Proof.
  intros w. unfold mlflow_call. destruct (mlflow_outcome X (mlflow_calls w));
    eexists; eexists; (split; [reflexivity | repeat split]).
Qed.

Lemma tracked_time_now (X : Collab) : tracked tick_clock (time_now X).
Proof.
  intros w. eexists; eexists. split; [reflexivity | apply same_but_calls_refl].
Qed.

Lemma tracked_bind {A B} (f : World -> World) (m : M A) (k : A -> M B) :
  tracked f m -> (forall a, tracked keep (k a)) -> tracked f (bind m k).
Proof.
  intros Hm Hk w. destruct (Hm w) as (o & w1 & E & D). unfold bind. rewrite E.
  destruct o as [a|e]; [|eauto].
  destruct (Hk a w1) as (o2 & w2 & E2 & D2). exists o2, w2.
  split; [exact E2 | eapply same_but_calls_trans; eauto].
Qed.

Lemma tracked_total_try_except {A} (f : World -> World) (m : M A)
    (h : exn -> M A) :
  tracked f m -> (forall e, tracked_total keep (h e)) ->
  tracked_total f (try_except m any_Exception h).
Proof.
  intros Hm Hh w. destruct (Hm w) as (o & w1 & E & D). unfold try_except.
  rewrite E. destruct o as [a|e]; [eauto|]. simpl.
  destruct (Hh e w1) as (a & w2 & E2 & D2). exists a, w2.
  split; [exact E2 | eapply same_but_calls_trans; eauto].
Qed.

Lemma tracked_total_ret {A} (a : A) : tracked_total keep (ret a).
Proof. intros w. exists a, w. split; [reflexivity | apply same_but_calls_refl]. Qed.

Lemma tracked_total_try_pass (f : World -> World) (m : M unit) :
  tracked f m -> tracked_total f (try_pass m).
Proof.
  intros H. apply tracked_total_try_except; [exact H|].
  intros e. apply tracked_total_ret.
Qed.

Lemma tracked_call_unit (X : Collab) : tracked keep (mlflow_call X ;;; ret tt).
Proof. apply tracked_bind; [apply tracked_mlflow_call | intros; apply tracked_ret]. Qed.

Lemma tracked_log_agent_step (X : Collab) (n : Z) (a d u : string) (ms : float) :
  tracked keep (log_agent_step X n a d u ms).
Proof.
  unfold log_agent_step, mlflow_log_params, mlflow_log_metrics, write_text,
    mlflow_log_artifact.
  repeat (apply tracked_bind; [apply tracked_call_unit | intros _]).
  apply tracked_call_unit.
Qed.

Lemma tracked_total_start_tracking (X : Collab) (req : ChatRequest) (sid : string) :
  tracked_total keep (start_tracking X req sid).
Proof.
  unfold start_tracking. apply tracked_total_try_except.
  - apply tracked_bind; [apply tracked_mlflow_call | intros run_id].
    apply tracked_bind; [|intros; apply tracked_ret].
    intros w. destruct (tracked_total_try_pass keep
      (mlflow_log_param X "user_query" (slice_to 250 (req_message req)) ;;;
       mlflow_log_param X "session_id" sid)
      ltac:(apply tracked_bind; [apply tracked_call_unit
                                | intros; apply tracked_call_unit]) w)
      as (u & w' & E & D).
    eauto.
  - intros e. apply tracked_total_ret.
Qed.

Lemma tracked_total_finish_tracking (X : Collab) (t0 : float) :
  tracked_total tick_clock (finish_tracking X t0).
Proof.
  unfold finish_tracking. apply tracked_total_try_except.
  - apply tracked_bind; [apply tracked_time_now | intros t].
    unfold mlflow_log_metric, mlflow_end_run.
    repeat (apply tracked_bind; [apply tracked_call_unit | intros _]).
    apply tracked_call_unit.
  - intros e. apply tracked_total_try_pass. apply tracked_call_unit.
Qed.

(** Two runs from states that differ at most in the number of tracking calls
    end alike: both return, with results related by [R], or both raise the
    same exception; the final states are related by [Post]. *)
Definition sim (Post : World -> World -> Prop) {A} (R : A -> A -> Prop)
    (m1 m2 : M A) : Prop :=
  forall w1 w2, same_but_calls w1 w2 ->
    match m1 w1, m2 w2 with
    | (Return a1, w1'), (Return a2, w2') => R a1 a2 /\ Post w1' w2'
    | (Raise e1, w1'), (Raise e2, w2') => e1 = e2 /\ Post w1' w2'
    | _, _ => False
    end.

(** [f] does not read the number of tracking calls. *)
Definition respects (f : World -> World) : Prop :=
  forall w1 w2, same_but_calls w1 w2 -> same_but_calls (f w1) (f w2).

Lemma respects_keep : respects keep.
Proof. intros w1 w2 H. exact H. Qed.

Lemma respects_tick_clock : respects tick_clock.
Proof.
  intros w1 w2 (a & b & c & d & e & f & g). repeat split; simpl; congruence.
Qed.

Section Simulation.

Variable Post : World -> World -> Prop.
Hypothesis Post_incl : forall w1 w2, same_but_calls w1 w2 -> Post w1 w2.

Lemma sim_ret {A} (R : A -> A -> Prop) (a1 a2 : A) :
  R a1 a2 -> sim Post R (ret a1) (ret a2).
Proof. intros H w1 w2 Hw. simpl. auto. Qed.

Lemma sim_bind {A B} (R : A -> A -> Prop) (S : B -> B -> Prop)
    (m1 m2 : M A) (k1 k2 : A -> M B) :
  sim same_but_calls R m1 m2 ->
  (forall a1 a2, R a1 a2 -> sim Post S (k1 a1) (k2 a2)) ->
  sim Post S (bind m1 k1) (bind m2 k2).
Proof.
  intros Hm Hk w1 w2 Hw. specialize (Hm w1 w2 Hw). unfold bind.
  destruct (m1 w1) as [[a1|e1] w1'], (m2 w2) as [[a2|e2] w2']; try contradiction.
  - destruct Hm as [HR Hw']. apply (Hk a1 a2 HR w1' w2' Hw').
  - destruct Hm as [He Hw']. auto.
Qed.

Lemma sim_try_except {A} (R : A -> A -> Prop) (m1 m2 : M A)
    (c : exn -> bool) (h1 h2 : exn -> M A) :
  sim same_but_calls R m1 m2 ->
  (forall e, sim Post R (h1 e) (h2 e)) ->
  sim Post R (try_except m1 c h1) (try_except m2 c h2).
Proof.
  intros Hm Hh w1 w2 Hw. specialize (Hm w1 w2 Hw). unfold try_except.
  destruct (m1 w1) as [[a1|e1] w1'], (m2 w2) as [[a2|e2] w2']; try contradiction.
  - destruct Hm. auto.
  - destruct Hm as [<- Hw']. destruct (c e1); [apply (Hh e1 _ _ Hw') | auto].
Qed.

End Simulation.

Lemma calls_incl (w1 w2 : World) : same_but_calls w1 w2 -> same_but_calls w1 w2.
Proof. auto. Qed.

Lemma sim_total {A} (f : World -> World) (m1 m2 : M A) :
  respects f -> tracked_total f m1 -> tracked_total f m2 ->
  sim same_but_calls (fun _ _ => True) m1 m2.
Proof.
  intros Hf H1 H2 w1 w2 Hw.
  destruct (H1 w1) as (a1 & w1' & E1 & D1), (H2 w2) as (a2 & w2' & E2 & D2).
  rewrite E1, E2. split; [exact I|].
  eapply same_but_calls_trans; [apply same_but_calls_sym, D1|].
  eapply same_but_calls_trans; [apply Hf, Hw | exact D2].
Qed.

Lemma sim_lift {A} (o : outcome A) : sim same_but_calls eq (lift o) (lift o).
Proof. intros w1 w2 Hw. unfold lift. destruct o; auto. Qed.

Section Tracking.

Variable X : Collab.
Variables outcomes1 outcomes2 : nat -> option string.

Let X1 : Collab := with_tracking outcomes1 X.
Let X2 : Collab := with_tracking outcomes2 X.

Lemma sim_time_now : sim same_but_calls eq (time_now X1) (time_now X2).
Proof.
  intros w1 w2 Hw. pose proof Hw as (a & b & c & d & e & f & g). simpl.
  split; [now rewrite f | now apply respects_tick_clock].
Qed.

Lemma sim_utc_now : sim same_but_calls eq (utc_now X1) (utc_now X2).
Proof.
  intros w1 w2 Hw. pose proof Hw as (a & b & c & d & e & f & g). simpl.
  split; [now rewrite f | now apply respects_tick_clock].
Qed.

Lemma sim_uuid4 : sim same_but_calls eq (uuid4 X1) (uuid4 X2).
Proof.
  intros w1 w2 (a & b & c & d & e & f & g). simpl.
  split; [now rewrite g | repeat split; simpl; congruence].
Qed.

Lemma sim_resolve_session_id (req : ChatRequest) :
  sim same_but_calls eq (resolve_session_id X1 req) (resolve_session_id X2 req).
Proof.
  unfold resolve_session_id. destruct (req_session_id req) as [[|c s]|].
  2:{ now apply (sim_ret _ calls_incl). }
  all: apply (sim_bind _ calls_incl) with (R := eq);
    [apply sim_uuid4 | intros h ? <-; now apply (sim_ret _ calls_incl)].
Qed.

Lemma sim_load_history (sid : string) :
  sim same_but_calls eq (load_history X1 sid) (load_history X2 sid).
Proof.
  intros w1 w2 Hw. pose proof Hw as (a & b & c & d & e & f & g).
  unfold load_history, bind, get, ret. simpl. now rewrite e.
Qed.

Lemma sim_search_similar (query : string) (k : nat) :
  sim same_but_calls eq (search_similar X1 query k) (search_similar X2 query k).
Proof.
  intros w1 w2 Hw. pose proof Hw as (a & b & c & d & e & f & g).
  unfold search_similar, bind, get, ret, lift. simpl. rewrite a.
  destruct (faiss_index w2) as [ix|]; [|auto].
  destruct (index_search X ix (encode_query X query) k)
    as [[scores indices]|err]; [|auto].
  rewrite b, c.
  destruct (search_loop (facility_texts w2) (facility_ids w2) scores 0 indices []);
    auto.
Qed.

Lemma sim_get_facilities :
  sim same_but_calls eq (get db_facilities) (get db_facilities).
Proof.
  intros w1 w2 Hw. pose proof Hw as (a & b & c & d & e & f & g).
  unfold get. auto.
Qed.

Lemma sim_log_memory_retrieval (sid : string) (t0 : float) (h : list Turn) :
  sim same_but_calls (fun _ _ => True)
      (log_memory_retrieval X1 sid t0 h) (log_memory_retrieval X2 sid t0 h).
Proof.
  unfold log_memory_retrieval. destruct h as [|t rest].
  - now apply (sim_ret _ calls_incl).
  - apply (sim_total tick_clock); [apply respects_tick_clock | |];
      apply tracked_total_try_pass;
      (apply tracked_bind; [apply tracked_time_now | intros];
       apply tracked_log_agent_step).
Qed.

Lemma tracked_search_log (Y : Collab) (results : list SearchResult) (ms : float) :
  tracked keep
    (log_agent_step Y 3 "Semantic Search"
       (str_nat (List.length results) ++ " docs, " ++ format_0f Y ms ++ "ms")
       (str_list Y (map sr_facility_id results)) ms ;;;
     mlflow_log_metric Y "faiss_search_ms" ;;;
     mlflow_log_metric Y "docs_retrieved").
Proof.
  apply tracked_bind; [apply tracked_log_agent_step | intros _].
  apply tracked_bind; [apply tracked_call_unit | intros _].
  apply tracked_call_unit.
Qed.

Lemma tracked_generation_log (Y : Collab) (parts : list string) (ms : float) :
  tracked keep
    (log_agent_step Y 5 "LLM Generation"
       ("Generated in " ++ format_0f Y ms ++ "ms")
       (str_nat (List.length parts) ++ " docs") ms ;;;
     mlflow_log_metric Y "llm_latency_ms" ;;;
     mlflow_log_metric Y "response_length").
Proof.
  apply tracked_bind; [apply tracked_log_agent_step | intros _].
  apply tracked_bind; [apply tracked_call_unit | intros _].
  apply tracked_call_unit.
Qed.

Lemma sim_generate (req : ChatRequest) (sid prompt : string)
    (results : list SearchResult) (parts : list string) (history : list Turn)
    (steps : list ReasoningStep) :
  sim same_but_calls eq
      (generate X1 req sid prompt results parts history steps)
      (generate X2 req sid prompt results parts history steps).
Proof.
  unfold generate.
  apply (sim_bind _ calls_incl) with (R := eq); [apply sim_time_now|].
  intros t2 ? <-. apply (sim_try_except _ calls_incl); [|intros e; now apply (sim_ret _ calls_incl)].
  apply (sim_bind _ calls_incl) with (R := eq); [apply sim_uuid4|].
  intros h ? <-.
  apply (sim_bind _ calls_incl) with (R := eq); [apply sim_lift|].
  intros text ? <-.
  apply (sim_bind _ calls_incl) with (R := eq); [apply sim_time_now|].
  intros t ? <-. cbv zeta.
  apply (sim_bind _ calls_incl) with (R := fun _ _ => True).
  - apply (sim_total keep); [apply respects_keep | |];
      apply tracked_total_try_pass, tracked_generation_log.
  - intros _ _ _. now apply (sim_ret _ calls_incl).
Qed.

Lemma sim_store_and_finish (t0 : float) (turn1 turn2 : Turn)
    (resp1 resp2 : ChatResponse) :
  same_but_run turn1 turn2 -> same_primary resp1 resp2 ->
  sim same_but_tracking same_primary
      (store_turn turn1 ;;; finish_tracking X1 t0 ;;; ret resp1)
      (store_turn turn2 ;;; finish_tracking X2 t0 ;;; ret resp2).
Proof.
  intros Hturn Hresp w1 w2 (a & b & c & d & e & f & g).
  unfold bind at 1 3. unfold store_turn.
  destruct (tracked_total_finish_tracking X1 t0
              (set_chat_history (db_chat_history w1 ++ [turn1]) w1))
    as (u1 & w1' & E1 & (a1 & b1 & c1 & d1 & e1 & f1 & g1)).
  destruct (tracked_total_finish_tracking X2 t0
              (set_chat_history (db_chat_history w2 ++ [turn2]) w2))
    as (u2 & w2' & E2 & (a2 & b2 & c2 & d2 & e2 & f2 & g2)).
  unfold bind. rewrite E1, E2. unfold ret. split; [exact Hresp|].
  simpl in *. repeat split; try congruence.
  rewrite <- e1, <- e2, e. apply Forall2_app.
  - apply Forall2_same_but_run_refl.
  - constructor; [exact Hturn | constructor].
Qed.

Lemma sim_chat_endpoint (req : ChatRequest) :
  sim same_but_tracking same_primary (chat_endpoint X1 req) (chat_endpoint X2 req).
Proof.
  pose proof same_but_calls_tracking as Hincl.
  unfold chat_endpoint.
  apply (sim_bind _ Hincl) with (R := eq); [apply sim_resolve_session_id|].
  intros sid ? <-.
  apply (sim_bind _ Hincl) with (R := fun _ _ => True).
  { apply (sim_total keep); [apply respects_keep | |];
      apply tracked_total_start_tracking. }
  intros run1 run2 _.
  apply (sim_bind _ Hincl) with (R := eq); [apply sim_time_now|].
  intros t0 ? <-. cbv zeta.
  apply (sim_bind _ Hincl) with (R := fun _ _ => True).
  { apply (sim_total keep); [apply respects_keep | |];
      apply tracked_total_try_pass, tracked_log_agent_step. }
  intros _ _ _.
  apply (sim_bind _ Hincl) with (R := eq); [apply sim_load_history|].
  intros history ? <-.
  apply (sim_bind _ Hincl) with (R := fun _ _ => True);
    [apply sim_log_memory_retrieval|].
  intros _ _ _.
  apply (sim_bind _ Hincl) with (R := eq); [apply sim_time_now|].
  intros t1 ? <-.
  apply (sim_bind _ Hincl) with (R := eq); [apply sim_search_similar|].
  intros results ? <-.
  apply (sim_bind _ Hincl) with (R := eq); [apply sim_time_now|].
  intros t1' ? <-.
  apply (sim_bind _ Hincl) with (R := fun _ _ => True).
  { apply (sim_total keep); [apply respects_keep | |];
      apply tracked_total_try_pass, tracked_search_log. }
  intros _ _ _.
  destruct (build_context 0 results) as [context_parts cites].
  apply (sim_bind _ Hincl) with (R := eq); [apply sim_get_facilities|].
  intros all_facilities ? <-.
  apply (sim_bind _ Hincl) with (R := eq); [apply sim_generate|].
  intros [text steps5] ? <-.
  apply (sim_bind _ Hincl) with (R := eq); [apply sim_utc_now|].
  intros created_at ? <-.
  apply sim_store_and_finish; repeat split.
Qed.

(** C6. Two behaviours of the tracking store, any two: each call to MLflow
    or to the step file may raise or not in either.  On a request whose
    retrieval step can run, [chat_endpoint] returns under both, with the
    same text, citations, reasoning steps and session id, and it stores the
    same turn, the recorded run id apart.  Clock readings are taken as
    given, reading by reading.  With [outcomes2] the store that accepts
    every call, this is the response the endpoint gives when all logging
    succeeds. *)
Theorem tracking_failures_never_change_the_response
    (req : ChatRequest) (w : World)
    (Hready : retrieval_ready X w (req_message req)) :
  exists r1 w1 r2 w2,
    chat_endpoint (with_tracking outcomes1 X) req w = (Return r1, w1)
    /\ chat_endpoint (with_tracking outcomes2 X) req w = (Return r2, w2)
    /\ response r1 = response r2
    /\ citations r1 = citations r2
    /\ reasoning_steps r1 = reasoning_steps r2
    /\ session_id r1 = session_id r2
    /\ same_but_tracking w1 w2.
Proof.
  destruct (search_similar_returns X1 w (req_message req) Hready) as [res Hs].
  destruct (chat_endpoint_runs X1 req w res Hs) as (r1 & w1 & Hrun1 & _).
  pose proof (sim_chat_endpoint req w w (same_but_calls_refl w)) as Hsim.
  fold X1 X2. rewrite Hrun1 in Hsim.
  destruct (chat_endpoint X2 req w) as [[r2|e2] w2]; [|contradiction].
  destruct Hsim as [(Ha & Hb & Hc & Hd) Hw].
  exists r1, w1, r2, w2. split; [exact Hrun1|]. split; [reflexivity|].
  repeat (split; [assumption|]). exact Hw.
Qed.

End Tracking.

(** ** Region-level desert analysis *)

Lemma region_score_bounds (data : RegionData) : 0 <= region_score data <= 110.
Proof.
  unfold region_score.
  repeat match goal with
         | |- context [if ?c then _ else _] => destruct c
         end; lia.
Qed.

Lemma severity_label_capped (score : Z) :
  severity_label (Z.min score 100) = severity_label score.
Proof.
  unfold severity_label.
  destruct (Z.leb_spec 60 score), (Z.leb_spec 60 (Z.min score 100)); try lia;
    destruct (Z.leb_spec 40 score), (Z.leb_spec 40 (Z.min score 100)); try lia;
    reflexivity.
Qed.

Lemma insert_by_score_perm (x : RegionData) (l : list RegionData) :
  Permutation (insert_by_score x l) (x :: l).
Proof.
  induction l as [|y l IH]; simpl; [reflexivity|].
  destruct (desert_score x <? desert_score y); [|reflexivity].
  rewrite IH. apply perm_swap.
Qed.

Lemma sort_by_score_desc_perm (l : list RegionData) :
  Permutation (sort_by_score_desc l) l.
Proof.
  induction l as [|x l IH]; simpl; [reflexivity|].
  rewrite insert_by_score_perm. now constructor.
Qed.

(** The entries [get_medical_deserts] returns, before they are sorted. *)
Definition scored_regions (coll : list Facility) : list RegionData :=
  map (fun kv => score_region (snd kv)) (fold_left aggregate (firstn 5000 coll) []).

(** What the scoring loop guarantees of every entry. *)
Definition well_scored (d : RegionData) : Prop :=
  0 <= desert_score d <= 100
  /\ severity d = Some (if 60 <=? desert_score d then "Critical"
                        else if 40 <=? desert_score d then "Moderate"
                        else "Adequate").

Lemma score_region_well_scored (data : RegionData) : well_scored (score_region data).
Proof.
  pose proof (region_score_bounds data) as Hb. split; simpl.
  - lia.
  - f_equal. symmetry. apply (severity_label_capped (region_score data)).
Qed.

(** C4. [get_medical_deserts] returns, from any state and without changing
    it; called twice in a row it returns the same list both times; and for
    every region of the list [desert_score] is between 0 and 100, with
    severity "Critical" from 60 up, "Moderate" from 40 to 59 and "Adequate"
    below. *)
Theorem desert_analysis_is_repeatable_and_bounded (w : World) :
  exists deserts,
    get_medical_deserts w = (Return deserts, w)
    /\ (first <- get_medical_deserts ;;
        second <- get_medical_deserts ;;
        ret (first, second)) w = (Return (deserts, deserts), w)
    /\ Forall well_scored deserts.
Proof.
  exists (sort_by_score_desc (scored_regions (db_facilities w))).
  split; [reflexivity|]. split; [reflexivity|].
  apply Forall_forall. intros d Hd.
  apply (Permutation_in _ (sort_by_score_desc_perm _)) in Hd.
  unfold scored_regions in Hd. apply in_map_iff in Hd as ([k data] & <- & _).
  apply score_region_well_scored.
Qed.

(** Does [fac] offer surgery, as the first loop tests it. *)
Definition offers_surgery (fac : Facility) : bool :=
  str_in "Surgery" (get_default (fac_services fac) []).

(** [data] with the surgery flag set. *)
Definition with_surgery (data : RegionData) : RegionData :=
  mkRegionData (region data) (facilities data) (total_beds data)
               (total_staff data) (specialties data) true (has_icu data)
               (has_ct_mri data) (has_blood_bank data) (desert_score data)
               (is_desert data) (severity data).

(** The state of [regions] after the first loop has read [seen]: one entry
    per region read, whose surgery flag tells whether a facility of the
    region read so far offers surgery. *)
Definition aggregated (seen : list Facility) (regions : list (string * RegionData))
    : Prop :=
  NoDup (map fst regions)
  /\ (forall k r, In (k, r) regions ->
        region r = k
        /\ has_surgery r
           = existsb (fun f => String.eqb (fac_region f) k && offers_surgery f) seen)
  /\ (forall f, In f seen -> In (fac_region f) (map fst regions)).

Lemma has_key_In (key : string) (regions : list (string * RegionData)) :
  has_key key regions = true <-> In key (map fst regions).
Proof.
  unfold has_key. rewrite existsb_exists, in_map_iff. split.
  - intros (kv & Hin & Heq). apply String.eqb_eq in Heq. eauto.
  - intros (kv & Heq & Hin). exists kv. split; [exact Hin|].
    now apply String.eqb_eq.
Qed.

Lemma update_entry_keys (key : string) (f : RegionData -> RegionData)
    (regions : list (string * RegionData)) :
  map fst (update_entry key f regions) = map fst regions.
Proof.
  induction regions as [|[k r] rest IH]; simpl; [reflexivity|].
  destruct (String.eqb k key); simpl; [reflexivity | now rewrite IH].
Qed.

Lemma update_entry_In (key : string) (f : RegionData -> RegionData)
    (regions : list (string * RegionData)) (k : string) (r : RegionData) :
  NoDup (map fst regions) ->
  In (k, r) (update_entry key f regions) ->
  (k <> key /\ In (k, r) regions)
  \/ (k = key /\ exists r0, In (key, r0) regions /\ r = f r0).
Proof.
  induction regions as [|[k0 r0] rest IH]; simpl; intros Hnd Hin; [contradiction|].
  inversion Hnd as [|? ? Hnotin Hnd']; subst.
  destruct (String.eqb_spec k0 key) as [->|Hne].
  - destruct Hin as [Heq|Hin].
    + inversion Heq; subst. right. eauto.
    + left. split; [|now right]. intros ->. apply Hnotin.
      apply in_map_iff. now exists (key, r).
  - destruct Hin as [Heq|Hin].
    + inversion Heq; subst. left. split; [exact Hne | now left].
    + destruct (IH Hnd' Hin) as [[Hk Hr]|(Hk & r1 & Hr1 & Hf)].
      * left. split; [exact Hk | now right].
      * right. split; [exact Hk|]. exists r1. split; [now right | exact Hf].
Qed.

Lemma add_facility_surgery (fac : Facility) (r : RegionData) :
  region (add_facility fac r) = region r
  /\ has_surgery (add_facility fac r) = (has_surgery r || offers_surgery fac)%bool.
Proof.
  unfold add_facility, offers_surgery. simpl. split; [reflexivity|].
  destruct (str_in "Surgery" (get_default (fac_services fac) []));
    destruct (has_surgery r); reflexivity.
Qed.

Lemma existsb_snoc {A} (p : A -> bool) (l : list A) (x : A) :
  existsb p (l ++ [x]) = (existsb p l || p x)%bool.
Proof. rewrite existsb_app. simpl. now rewrite orb_false_r. Qed.

Lemma aggregated_step (seen : list Facility) (regions : list (string * RegionData))
    (fac : Facility) :
  aggregated seen regions -> aggregated (seen ++ [fac]) (aggregate regions fac).
Proof.
  intros (Hnd & Hflags & Hkeys). unfold aggregate.
  set (key := fac_region fac).
  set (regions' := if has_key key regions then regions
                   else (regions ++ [(key, new_region key)])%list).
  assert (Hnd' : NoDup (map fst regions')).
  { subst regions'. destruct (has_key key regions) eqn:Hk; [exact Hnd|].
    rewrite map_app. simpl. apply NoDup_app; [exact Hnd | repeat constructor; auto |].
    intros k Hin [<-|[]]. apply has_key_In in Hin. congruence. }
  assert (Hflags' : forall k r, In (k, r) regions' ->
            region r = k
            /\ has_surgery r
               = existsb (fun f => String.eqb (fac_region f) k && offers_surgery f) seen).
  { subst regions'. destruct (has_key key regions) eqn:Hk; [exact Hflags|].
    intros k r Hin. apply in_app_iff in Hin as [Hin|[Heq|[]]]; [now apply Hflags|].
    inversion Heq; subst. split; [reflexivity|]. simpl. symmetry.
    apply not_true_is_false. intros Hex. apply existsb_exists in Hex as (f & Hf & Hp).
    apply andb_true_iff in Hp as [Hreg _]. apply String.eqb_eq in Hreg.
    apply Hkeys, has_key_In in Hf. fold key in Hreg. congruence. }
  assert (Hkey' : In key (map fst regions')).
  { subst regions'. destruct (has_key key regions) eqn:Hk.
    - now apply has_key_In.
    - rewrite map_app. apply in_app_iff. right. now left. }
  assert (Hkeys' : forall f, In f seen -> In (fac_region f) (map fst regions')).
  { subst regions'. intros f Hf. destruct (has_key key regions); [now apply Hkeys|].
    rewrite map_app. apply in_app_iff. left. now apply Hkeys. }
  repeat split.
  - now rewrite update_entry_keys.
  - apply (update_entry_In _ _ _ _ _ Hnd') in H
      as [[Hne Hin]|(-> & r0 & Hin & ->)].
    + now apply Hflags'.
    + destruct (add_facility_surgery fac r0) as [-> _]. now apply Hflags'.
  - apply (update_entry_In _ _ _ _ _ Hnd') in H
      as [[Hne Hin]|(-> & r0 & Hin & ->)].
    + rewrite existsb_snoc. destruct (Hflags' _ _ Hin) as [_ ->].
      fold key. apply String.eqb_neq in Hne. rewrite String.eqb_sym in Hne.
      now rewrite Hne, orb_false_r.
    + destruct (add_facility_surgery fac r0) as [_ ->].
      rewrite existsb_snoc. destruct (Hflags' _ _ Hin) as [_ ->].
      fold key. now rewrite String.eqb_refl.
  - intros f Hf. rewrite update_entry_keys. apply in_app_iff in Hf as [Hf|[<-|[]]].
    + now apply Hkeys'.
    + exact Hkey'.
Qed.

Lemma aggregated_fold (coll seen : list Facility)
    (regions : list (string * RegionData)) :
  aggregated seen regions ->
  aggregated (seen ++ coll) (fold_left aggregate coll regions).
Proof.
  revert seen regions. induction coll as [|fac coll IH]; intros seen regions H.
  - now rewrite app_nil_r.
  - simpl. replace (seen ++ fac :: coll)%list with ((seen ++ [fac]) ++ coll)%list
      by now rewrite <- app_assoc.
    apply IH. now apply aggregated_step.
Qed.

Lemma aggregated_all (coll : list Facility) :
  aggregated coll (fold_left aggregate coll []).
Proof.
  apply (aggregated_fold coll [] []). repeat split; simpl; try contradiction.
  constructor.
Qed.

Lemma region_score_surgery (data : RegionData) :
  has_surgery data = false ->
  region_score data = 20 + region_score (with_surgery data).
Proof.
  intros H. unfold region_score, with_surgery.
  cbn [has_surgery has_icu has_ct_mri has_blood_bank total_beds total_staff
       specialties].
  rewrite H. cbn [negb].
  repeat match goal with
         | |- context [if ?c then _ else _] => destruct c
         end; lia.
Qed.

Lemma NoDup_keys_functional {A B} (l : list (A * B)) (k : A) (v v' : B) :
  NoDup (map fst l) -> In (k, v) l -> In (k, v') l -> v = v'.
Proof.
  induction l as [|[k0 v0] l IH]; simpl; intros Hnd H1 H2; [contradiction|].
  inversion Hnd as [|? ? Hnotin Hnd']; subst.
  destruct H1 as [E1|H1], H2 as [E2|H2].
  - congruence.
  - inversion E1; subst. exfalso. apply Hnotin. apply in_map_iff. now exists (k, v').
  - inversion E2; subst. exfalso. apply Hnotin. apply in_map_iff. now exists (k, v).
  - now apply IH.
Qed.

(** C9, as the code has it.  [fac] is among the 5000 records the analysis
    reads and no record read in its region offers surgery.  Then the list
    returned has exactly one entry for the region; its [has_surgery] is
    false; the running score of the entry is 20 more than it is with the
    flag set, all else equal; and [desert_score] is that running score
    capped at 100. *)
Theorem region_without_surgery_scores_twenty_more (w : World) (fac : Facility)
    (Hread : In fac (firstn 5000 (db_facilities w)))
    (Hnone : forall f, In f (firstn 5000 (db_facilities w)) ->
               fac_region f = fac_region fac -> offers_surgery f = false) :
  exists deserts d,
    get_medical_deserts w = (Return deserts, w)
    /\ In d deserts
    /\ region d = fac_region fac
    /\ (forall d', In d' deserts -> region d' = fac_region fac -> d' = d)
    /\ has_surgery d = false
    /\ region_score d = 20 + region_score (with_surgery d)
    /\ desert_score d = Z.min (region_score d) 100.
Proof.
  set (read := firstn 5000 (db_facilities w)) in *.
  destruct (aggregated_all read) as (Hnd & Hflags & Hkeys).
  specialize (Hkeys fac Hread). apply in_map_iff in Hkeys as ([k r] & Hk & Hin).
  simpl in Hk. subst k. destruct (Hflags _ _ Hin) as [Hregion Hsurgery].
  assert (Hfalse : has_surgery r = false).
  { rewrite Hsurgery. apply not_true_is_false. intros Hex.
    apply existsb_exists in Hex as (f & Hf & Hp).
    apply andb_true_iff in Hp as [Hreg Hoff]. apply String.eqb_eq in Hreg.
    rewrite (Hnone f Hf Hreg) in Hoff. discriminate. }
  exists (sort_by_score_desc (scored_regions (db_facilities w))), (score_region r).
  split; [reflexivity|]. split.
  { apply (Permutation_in _ (Permutation_sym (sort_by_score_desc_perm _))).
    unfold scored_regions. fold read. apply in_map_iff.
    exists (fac_region fac, r). now split. }
  split; [exact Hregion|]. split.
  { intros d' Hd' Hregion'.
    apply (Permutation_in _ (sort_by_score_desc_perm _)) in Hd'.
    unfold scored_regions in Hd'. fold read in Hd'.
    apply in_map_iff in Hd' as ([k' r'] & <- & Hin'). simpl in *.
    destruct (Hflags _ _ Hin') as [Hr' _]. rewrite Hr' in Hregion'. subst k'.
    now rewrite (NoDup_keys_functional _ _ _ _ Hnd Hin Hin'). }
  split; [exact Hfalse|]. split; [|reflexivity].
  apply (region_score_surgery (score_region r)). exact Hfalse.
Qed.

(** ** Text2SQL *)





Section Text2SQL.

Variable X : Collab.



Lemma benign_call_unit : benign (mlflow_call X ;;; ret tt).
Proof.
  apply benign_bind; [apply benign_mlflow_call | intros; apply benign_ret].
Qed.

Lemma calm_end_run : calm (try_pass (mlflow_end_run X)).
Proof. apply calm_try_pass, benign_call_unit. Qed.

Lemma calm_text2sql_start (req : Text2SQLRequest) :
  calm (try_pass
          (h <- uuid4 X ;;
           start_mlflow_run X ("text2sql_" ++ slice_to 8 h) [("type", "text2sql")] ;;;
           mlflow_log_param X "natural_query" (slice_to 250 (query req)))).
Proof.
  apply calm_try_pass. apply benign_bind; [apply calm_benign, calm_uuid4|].
  intros h. apply benign_bind; [apply benign_mlflow_call|].
  intros _. apply benign_call_unit.
Qed.

(** [text_to_mongo_query] when the provider answers [text]. *)
Lemma text_to_mongo_query_answer (natural_query text : string) (w : World)
    (Hsend : forall label system,
       send_message X label system (text2sql_prompt natural_query) = Return text) :
  text_to_mongo_query X natural_query w
  = (match json_loads X (strip_fence text) with
     | Some query_spec => Return query_spec
     | None => Raise (PyExc JSONDecodeError "Expecting value")
     end, tick_uuid w).
Proof.
  unfold text_to_mongo_query, bind, uuid4, lift. rewrite Hsend.
  destruct (json_loads X (strip_fence text)); reflexivity.
Qed.

(** The outcome of the outer [try] body when the provider answers [text]
    and [text] does not parse, or parses to something that is not an
    object. *)
Lemma text2sql_try_rejects (req : Text2SQLRequest) (w : World) (text : string)
    (Hsend : forall label system,
       send_message X label system (text2sql_prompt (query req)) = Return text) :
  exists w',
    same_data w w'
    /\ match json_loads X (strip_fence text) with
       | None =>
           text2sql_try X req w
           = (Raise (PyExc JSONDecodeError "Expecting value"), w')
       | Some (JDict _) => True
       | Some v =>
           text2sql_try X req w
           = (Raise (PyExc AttributeError
                       ("'" ++ type_name v ++ "' object has no attribute 'get'")),
              tick_clock w')
       end.
Proof.
  destruct (calm_text2sql_start req w) as (u & w1 & E1 & D1).
  exists (tick_uuid (tick_clock w1)). split.
  { eapply same_data_trans; [exact D1|]. repeat split; simpl; auto. }
  destruct (json_loads X (strip_fence text)) as [v|] eqn:Hparse;
    [destruct v; try exact I|];
    unfold text2sql_try; unfold bind at 1; rewrite E1;
    unfold bind at 1; unfold time_now at 1; unfold bind at 1;
    rewrite (text_to_mongo_query_answer _ _ _ Hsend), Hparse; reflexivity.
Qed.

(** C7, as the code has it.  When the provider's answer to the translation
    prompt, once its code fence is stripped, is not valid JSON
    ([json.loads] raises [JSONDecodeError]), [text2sql_endpoint] raises the
    HTTP error 422 whose detail ends with the suggestion to rephrase; no
    query has been run and the data is as it was. *)
Theorem unparsable_translation_gives_422
    (req : Text2SQLRequest) (w : World) (text : string)
    (Hsend : forall label system,
       send_message X label system (text2sql_prompt (query req)) = Return text)
    (Hbad : json_loads X (strip_fence text) = None) :
  exists w',
    text2sql_endpoint X req w
    = (Raise (HTTPException 422
                "Failed to parse LLM response into MongoDB query. Try rephrasing."),
       w')
    /\ same_data w w'.
Proof.
  destruct (text2sql_try_rejects req w text Hsend) as (w1 & D1 & Htry).
  rewrite Hbad in Htry.
  destruct (calm_end_run w1) as (u & w2 & E2 & D2).
  exists w2. split; [|eapply same_data_trans; eauto].
  unfold text2sql_endpoint, try_except. rewrite Htry.
  cbn [any_Exception is_JSONDecodeError]. unfold bind. rewrite E2. reflexivity.
Qed.

(** An answer that is valid JSON but not an object is not reported as 422:
    the first [query_spec.get] raises [AttributeError] and the endpoint
    raises the HTTP error 500. *)
Lemma non_object_translation_gives_500
    (req : Text2SQLRequest) (w : World) (text : string) (v : JSON)
    (Hsend : forall label system,
       send_message X label system (text2sql_prompt (query req)) = Return text)
    (Hparsed : json_loads X (strip_fence text) = Some v)
    (Hshape : match v with JDict _ => False | _ => True end) :
  exists w',
    text2sql_endpoint X req w
    = (Raise (HTTPException 500
                ("Text2SQL error: '" ++ type_name v
                 ++ "' object has no attribute 'get'")),
       w').
Proof.
  destruct (text2sql_try_rejects req w text Hsend) as (w1 & D1 & Htry).
  rewrite Hparsed in Htry.
  destruct (calm_end_run (tick_clock w1)) as (u & w2 & E2 & D2).
  exists w2. unfold text2sql_endpoint, try_except.
  destruct v; try contradiction; rewrite Htry;
    cbn [any_Exception is_JSONDecodeError]; unfold bind; rewrite E2; reflexivity.
Qed.

End Text2SQL.

(** * The properties on concrete runs *)

(** ** The sample store sorts as MongoDB promises *)

Definition turn_order (descending : bool) : Turn -> Turn -> Prop :=
  if descending then newer_first else older_first.

Lemma insert_turn_perm (d : bool) (t : Turn) (l : list Turn) :
  Permutation (Sample.insert_turn d t l) (t :: l).
Proof.
  induction l as [|t' l IH]; simpl; [reflexivity|].
  destruct (if d then _ else _); [|reflexivity].
  rewrite IH. apply perm_swap.
Qed.

Lemma insert_turn_HdRel (d : bool) (a t : Turn) (l : list Turn) :
  turn_order d a t -> HdRel (turn_order d) a l ->
  HdRel (turn_order d) a (Sample.insert_turn d t l).
Proof.
  intros Hat Hal. destruct l as [|t' l]; simpl; [now constructor|].
  inversion Hal; subst. destruct (if d then _ else _); now constructor.
Qed.

Lemma insert_turn_sorted (d : bool) (t : Turn) (l : list Turn) :
  Sorted (turn_order d) l -> Sorted (turn_order d) (Sample.insert_turn d t l).
Proof.
  induction l as [|t' l IH]; simpl; intros Hs; [repeat constructor|].
  inversion Hs as [|? ? Hs' Hhd]; subst.
  destruct d; simpl.
  - destruct (Z.ltb_spec (turn_created_at t) (turn_created_at t')).
    + constructor; [now apply IH|].
      apply (insert_turn_HdRel true); [|exact Hhd].
      unfold turn_order, newer_first. lia.
    + constructor; [exact Hs|]. constructor. unfold turn_order, newer_first. lia.
  - destruct (Z.ltb_spec (turn_created_at t') (turn_created_at t)).
    + constructor; [now apply IH|].
      apply (insert_turn_HdRel false); [|exact Hhd].
      unfold turn_order, older_first. lia.
    + constructor; [exact Hs|]. constructor. unfold turn_order, older_first. lia.
Qed.

Lemma sort_turns_sorted (direction : Z) (l : list Turn) :
  Sorted (turn_order (direction <? 0)) (Sample.sort_turns direction l).
Proof.
  unfold Sample.sort_turns. induction l as [|t l IH]; simpl; [constructor|].
  now apply insert_turn_sorted.
Qed.

Lemma sample_sort_contract (llm : string -> string -> string -> outcome string)
    (tracking : nat -> option string) :
  sort_contract (Sample.collab llm tracking).
Proof.
  repeat split; simpl.
  - intros direction turns. unfold Sample.sort_turns.
    induction turns as [|t l IH]; simpl; [reflexivity|].
    rewrite insert_turn_perm. now constructor.
  - intros turns. apply (sort_turns_sorted (-1)).
  - intros turns. apply (sort_turns_sorted 1).
Qed.

Lemma sample_retrieval_ready (llm : string -> string -> string -> outcome string)
    (tracking : nat -> option string) (w : World) (query : string) :
  index_aligned w -> retrieval_ready (Sample.collab llm tracking) w query.
Proof.
  intros Haligned. split; [exact Haligned|]. intros ix _.
  eexists. eexists. split; [reflexivity|].
  now rewrite !length_app, !length_map, !repeat_length.
Qed.

(** ** Witnesses and counterexamples *)

Definition sample : Collab := Sample.collab Sample.echo Sample.tracking_up.

(** C1 on the sample index: three results asked, two facilities indexed,
    one answer padded by FAISS. *)
Lemma search_similar_at_most_k_positive_descending_witness :
  exists results,
    search_similar sample "surgery at a clinic" 3 Sample.world
    = (Return results, Sample.world)
    /\ (List.length results <= 3)%nat
    /\ Forall positive results
    /\ by_score_desc results.
Proof.
  apply (search_similar_at_most_k_positive_descending
           sample "surgery at a clinic" 3 Sample.world).
  - reflexivity.
  - intros ix Hix. vm_compute in Hix. injection Hix as <-.
    eexists. split; [vm_compute; reflexivity|].
    split; [reflexivity|]. split; [reflexivity|].
    repeat constructor.
Defined.

(** C2 on the state before start-up. *)
Lemma search_similar_without_index_witness :
  search_similar sample "surgery at a clinic" 5 Sample.cold_world
  = (Return [], Sample.cold_world).
Proof.
  apply (search_similar_without_index sample "surgery at a clinic" 5
           Sample.cold_world).
  reflexivity.
Defined.

(** C3 on a session of seven stored turns. *)
Lemma memory_retrieval_loads_recent_window_witness :
  exists resp w' history_docs older,
    chat_endpoint sample (mkChatRequest "and then?" (Some "s1")) Sample.seven_turns
    = (Return resp, w')
    /\ load_history sample (session_id resp) Sample.seven_turns
       = (Return history_docs, Sample.seven_turns)
    /\ nth_error (reasoning_steps resp) 1
       = Some (memory_retrieval_step history_docs)
    /\ let stored :=
         find_session (session_id resp) (db_chat_history Sample.seven_turns) in
       let m := List.length stored in
       List.length history_docs = Nat.min m 5
       /\ chronological history_docs
       /\ Permutation (older ++ history_docs) stored
       /\ Forall (fun o => Forall (older_first o) history_docs) older
       /\ (m = 0%nat -> history_docs = [])
       /\ ((m <= 5)%nat -> older = [] /\ List.length history_docs = m)
       /\ ((5 < m)%nat -> List.length history_docs = 5%nat)
       /\ detail (memory_retrieval_step history_docs)
          = (if (m =? 0)%nat
             then "No previous conversation history (new session)"
             else "Loaded " ++ str_nat (Nat.min m 5)
                  ++ " previous conversation turns for context").
Proof.
  apply (memory_retrieval_loads_recent_window sample
           (sample_sort_contract Sample.echo Sample.tracking_up)
           (mkChatRequest "and then?" (Some "s1")) Sample.seven_turns).
  apply sample_retrieval_ready. reflexivity.
Defined.

(** C5 with a provider that is down, and a tracking store that is down. *)
Lemma chat_endpoint_falls_back_when_provider_raises_witness :
  exists results resp w',
    search_similar (Sample.collab Sample.unavailable Sample.tracking_down)
                   "surgery please" 5 Sample.world
    = (Return results, Sample.world)
    /\ chat_endpoint (Sample.collab Sample.unavailable Sample.tracking_down)
                     (mkChatRequest "surgery please" None) Sample.world
       = (Return resp, w')
    /\ response resp
       = "Error processing query: "
         ++ str_exn (PyExc ProviderError "provider unavailable") ++ ". Found "
         ++ str_nat (List.length results) ++ " relevant records.".
Proof.
  apply (chat_endpoint_falls_back_when_provider_raises
           (Sample.collab Sample.unavailable Sample.tracking_down)
           (mkChatRequest "surgery please" None) Sample.world
           (PyExc ProviderError "provider unavailable")).
  - apply sample_retrieval_ready. reflexivity.
  - intros label prompt. reflexivity.
Defined.

(** C6: a tracking store that refuses every call against one that accepts
    every call. *)
Lemma tracking_failures_never_change_the_response_witness :
  exists r1 w1 r2 w2,
    chat_endpoint (with_tracking Sample.tracking_down sample)
                  (mkChatRequest "surgery please" (Some "s1")) Sample.world
    = (Return r1, w1)
    /\ chat_endpoint (with_tracking Sample.tracking_up sample)
                     (mkChatRequest "surgery please" (Some "s1")) Sample.world
       = (Return r2, w2)
    /\ response r1 = response r2
    /\ citations r1 = citations r2
    /\ reasoning_steps r1 = reasoning_steps r2
    /\ session_id r1 = session_id r2
    /\ same_but_tracking w1 w2.
Proof.
  apply (tracking_failures_never_change_the_response
           sample Sample.tracking_down Sample.tracking_up
           (mkChatRequest "surgery please" (Some "s1")) Sample.world).
  apply sample_retrieval_ready. reflexivity.
Defined.

(** C7 on an answer that is not JSON. *)
Lemma unparsable_translation_gives_422_witness :
  exists w',
    text2sql_endpoint
      (Sample.collab (Sample.answers "Sorry, I cannot help.") Sample.tracking_up)
      (mkText2SQLRequest "all clinics") Sample.world
    = (Raise (HTTPException 422
                "Failed to parse LLM response into MongoDB query. Try rephrasing."),
       w')
    /\ same_data Sample.world w'.
Proof.
  apply (unparsable_translation_gives_422
           (Sample.collab (Sample.answers "Sorry, I cannot help.") Sample.tracking_up)
           (mkText2SQLRequest "all clinics") Sample.world "Sorry, I cannot help.").
  - intros label system. reflexivity.
  - reflexivity.
Defined.

(** C7 as stated fails: the provider answers [[]], which is valid JSON and
    no query specification; the endpoint raises the server error 500. *)
Lemma json_array_translation_gives_500 :
  fst (text2sql_endpoint
         (Sample.collab (Sample.answers "[]") Sample.tracking_up)
         (mkText2SQLRequest "all clinics") Sample.world)
  = Raise (HTTPException 500
             "Text2SQL error: 'list' object has no attribute 'get'").
Proof. vm_compute. reflexivity. Qed.



(** C9 on two regions: the clinic's region has no surgery, the other has. *)
Lemma region_without_surgery_scores_twenty_more_witness :
  exists deserts d,
    get_medical_deserts Sample.two_regions = (Return deserts, Sample.two_regions)
    /\ In d deserts
    /\ region d = fac_region Sample.clinic
    /\ (forall d', In d' deserts -> region d' = fac_region Sample.clinic -> d' = d)
    /\ has_surgery d = false
    /\ region_score d = 20 + region_score (with_surgery d)
    /\ desert_score d = Z.min (region_score d) 100.
Proof.
  apply (region_without_surgery_scores_twenty_more Sample.two_regions Sample.clinic).
  - vm_compute. now left.
  - intros f Hf Hregion. vm_compute in Hf.
    destruct Hf as [<-|[<-|[]]]; [reflexivity | discriminate Hregion].
Defined.

(** C9 as stated fails: for the corpus of one clinic, every factor adds up
    to 110 and [desert_score] is capped at 100; with surgery among the
    clinic's services, all else equal, it is 90.  On [desert_score] the
    surgery factor weighs 10 here, not 20. *)
Lemma surgery_factor_under_the_cap :
  exists without with_it,
    get_medical_deserts Sample.lone_clinic = (Return without, Sample.lone_clinic)
    /\ get_medical_deserts Sample.lone_surgical_clinic
       = (Return with_it, Sample.lone_surgical_clinic)
    /\ map has_surgery without = [false]
    /\ map has_surgery with_it = [true]
    /\ map desert_score without = [100]
    /\ map desert_score with_it = [90].
Proof.
  eexists. eexists.
  split; [vm_compute; reflexivity|].
  split; [vm_compute; reflexivity|].
  repeat split.
Qed.


(** * Further properties of the handlers *)

Section StartUp.

Variable X : Collab.

(** ** Building the index *)

(** Every key [build_faiss_index] reads with [fac["k"]] is present. *)
Definition complete (fac : Facility) : Prop :=
  fac_beds fac <> None /\ fac_staff_count fac <> None
  /\ fac_specialties fac <> None /\ fac_equipment fac <> None
  /\ fac_services fac <> None.

Lemma facility_text_complete (fac : Facility) :
  complete fac -> exists text, facility_text fac = Return text.
Proof.
  intros (Hb & Hs & Hsp & He & Hsv). unfold facility_text.
  destruct (fac_beds fac); [|contradiction].
  destruct (fac_staff_count fac); [|contradiction].
  destruct (fac_specialties fac); [|contradiction].
  destruct (fac_equipment fac); [|contradiction].
  destruct (fac_services fac); [|contradiction].
  simpl. eauto.
Qed.

Lemma facility_text_incomplete (fac : Facility) :
  ~ complete fac -> exists key, facility_text fac = Raise (PyExc KeyError key).
Proof.
  intros Hno. unfold facility_text, complete in *.
  destruct (fac_beds fac); [|simpl; eauto].
  destruct (fac_staff_count fac); [|simpl; eauto].
  destruct (fac_specialties fac); [|simpl; eauto].
  destruct (fac_equipment fac); [|simpl; eauto].
  destruct (fac_services fac); [|simpl; eauto].
  exfalso. apply Hno. repeat split; discriminate.
Qed.

Lemma complete_dec (fac : Facility) : {complete fac} + {~ complete fac}.
Proof.
  unfold complete.
  destruct (fac_beds fac); [|right; intros (H & _); now apply H].
  destruct (fac_staff_count fac); [|right; intros (_ & H & _); now apply H].
  destruct (fac_specialties fac); [|right; intros (_ & _ & H & _); now apply H].
  destruct (fac_equipment fac); [|right; intros (_ & _ & _ & H & _); now apply H].
  destruct (fac_services fac); [|right; intros (_ & _ & _ & _ & H); now apply H].
  left. repeat split; discriminate.
Qed.

Lemma build_chunks_incomplete (facilities : list Facility) :
  (exists fac, In fac facilities /\ ~ complete fac) ->
  forall texts ids,
    exists key, build_chunks facilities texts ids = Raise (PyExc KeyError key).
Proof.
  induction facilities as [|fac rest IH]; intros (bad & Hin & Hbad) texts ids.
  - contradiction.
  - simpl. destruct (complete_dec fac) as [Hc|Hc].
    + destruct (facility_text_complete fac Hc) as [text ->].
      apply IH. exists bad. split; [|exact Hbad].
      destruct Hin as [<-|Hin]; [contradiction | exact Hin].
    + destruct (facility_text_incomplete fac Hc) as [key ->]. eauto.
Qed.


Lemma insert_many_nonempty (docs : list Facility) (w : World) :
  docs <> [] ->
  exists w', insert_many docs w = (Return tt, w')
             /\ faiss_index w' = faiss_index w
             /\ facility_texts w' = facility_texts w
             /\ facility_ids w' = facility_ids w
             /\ db_facilities w' = (db_facilities w ++ docs)%list
             /\ db_chat_history w' = db_chat_history w.
Proof.
  intros Hne. destruct docs as [|d docs]; [contradiction|].
  eexists. split; [reflexivity|]. repeat split.
Qed.

(** What [build_faiss_index] does to the store before it builds anything. *)
Lemma load_store (facilities : list Facility) (w : World) :
  facilities <> [] ->
  exists w1,
    (if (List.length (db_facilities w) =? 0)%nat
     then insert_many facilities else ret tt) w = (Return tt, w1)
    /\ faiss_index w1 = faiss_index w
    /\ facility_texts w1 = facility_texts w
    /\ facility_ids w1 = facility_ids w
    /\ db_chat_history w1 = db_chat_history w
    /\ db_facilities w1
       = match db_facilities w with [] => facilities | _ => db_facilities w end.
Proof.
  intros Hne. destruct (db_facilities w) as [|f0 coll] eqn:Hdb; simpl.
  - destruct (insert_many_nonempty facilities w Hne)
      as (w1 & E & a & b & c & d & e).
    exists w1. rewrite E. rewrite Hdb in d. repeat split; auto.
  - exists w. unfold ret. repeat split; auto.
Qed.

Lemma build_chunks_texts (facilities : list Facility) :
  forall texts ids texts' ids',
    build_chunks facilities texts ids = Return (texts', ids') ->
    exists chunks,
      texts' = (texts ++ chunks)%list
      /\ Forall2 (fun fac text => facility_text fac = Return text) facilities chunks.
Proof.
  induction facilities as [|fac rest IH]; simpl; intros texts ids texts' ids' H.
  - injection H as <- _. exists []. rewrite app_nil_r. split; constructor.
  - destruct (facility_text fac) as [text|e] eqn:Htext; [|discriminate].
    apply IH in H as (chunks & -> & Hall).
    exists (text :: chunks). rewrite <- app_assoc. split; [reflexivity|].
    now constructor.
Qed.

(** The arrays are aligned after start-up.  When [build_faiss_index]
    returns, [facility_texts] holds the chunk of each facility of the file
    and [facility_ids] its identifier, both in the order of the file, and
    the index holds the encoding of the chunks. *)
Theorem build_faiss_index_aligns_the_arrays
    (facilities : list Facility) (w w' : World)
    (Hrun : build_faiss_index X facilities w = (Return tt, w')) :
  Forall2 (fun fac text => facility_text fac = Return text)
          facilities (facility_texts w')
  /\ facility_ids w' = map fac_facility_id facilities
  /\ List.length (facility_ids w') = List.length (facility_texts w')
  /\ faiss_index w' = Some (encode_texts X (facility_texts w')).
Proof.
  destruct (build_faiss_index_aligned X facilities w w' Hrun) as (Ha & Hix & Hids).
  unfold index_aligned in Ha. repeat split; auto.
  unfold build_faiss_index in Hrun.
  apply bind_inv in Hrun as (coll & w0 & _ & Hrun).
  apply bind_inv in Hrun as (u & w1 & _ & Hrun).
  apply bind_inv in Hrun as ([texts ids] & w2 & Hchunks & Hrun).
  apply lift_inv in Hchunks as [Hchunks _].
  apply bind_inv in Hrun as (t0 & w3 & _ & Hrun).
  apply bind_inv in Hrun as (t & w4 & _ & Hrun).
  apply bind_inv in Hrun as (dim & w5 & _ & Hrun).
  unfold set_index in Hrun. injection Hrun as <-. simpl.
  apply build_chunks_texts in Hchunks as (chunks & -> & Hall). exact Hall.
Qed.

(** The store is loaded once.  When [build_faiss_index] returns, the
    facility collection holds the file's facilities if it was empty, and
    is left as it was otherwise: a restart does not load the corpus a
    second time.  The chat history is not touched. *)
Theorem build_faiss_index_loads_an_empty_store_only
    (facilities : list Facility) (w w' : World)
    (Hrun : build_faiss_index X facilities w = (Return tt, w')) :
  db_facilities w'
  = match db_facilities w with [] => facilities | _ => db_facilities w end
  /\ db_chat_history w' = db_chat_history w.
Proof.
  unfold build_faiss_index in Hrun.
  apply bind_inv in Hrun as (coll & w0 & Hget & Hrun).
  injection Hget as <- <-.
  apply bind_inv in Hrun as (u & w1 & Hload & Hrun).
  apply bind_inv in Hrun as ([texts ids] & w2 & Hchunks & Hrun).
  apply lift_inv in Hchunks as [_ ->].
  apply bind_inv in Hrun as (t0 & w3 & Ht0 & Hrun). injection Ht0 as _ <-.
  apply bind_inv in Hrun as (t & w4 & Ht & Hrun). injection Ht as _ <-.
  apply bind_inv in Hrun as (dim & w5 & Hdim & Hrun).
  apply lift_inv in Hdim as [_ ->].
  unfold set_index in Hrun. injection Hrun as <-. simpl.
  destruct (db_facilities w) as [|f0 rest] eqn:Hdb; simpl in Hload.
  - destruct facilities as [|f fs]; [discriminate|].
    injection Hload as Hw1. subst w1. simpl. now rewrite Hdb.
  - injection Hload as Hw1. subst w1. split; [exact Hdb | reflexivity].
Qed.

(** A facility of the file without one of the keys [beds], [staff_count],
    [specialties], [equipment], [services] stops start-up: the build raises
    [KeyError] and leaves [faiss_index], [facility_texts] and
    [facility_ids] as they were, so retrieval stays on the unbuilt path. *)
Theorem build_faiss_index_stops_on_a_missing_key
    (facilities : list Facility) (w : World)
    (Hbad : exists fac, In fac facilities /\ ~ complete fac) :
  exists key w',
    build_faiss_index X facilities w = (Raise (PyExc KeyError key), w')
    /\ faiss_index w' = faiss_index w
    /\ facility_texts w' = facility_texts w
    /\ facility_ids w' = facility_ids w.
Proof.
  assert (Hne : facilities <> []).
  { destruct Hbad as (fac & Hin & _). now destruct facilities. }
  destruct (load_store facilities w Hne) as (w1 & Hload & a & b & c & _).
  destruct (build_chunks_incomplete facilities Hbad [] []) as [key Hchunks].
  exists key, w1. split; [|auto].
  unfold build_faiss_index. unfold bind at 1. unfold get. cbv beta iota.
  unfold bind at 1. rewrite Hload. unfold bind at 1. unfold lift.
  rewrite Hchunks. reflexivity.
Qed.

End StartUp.

Section Indexing.

Variable X : Collab.


(** ** Where a search result comes from *)

(** [r] was built from position [i] of FAISS's answer. *)
Definition from_hit (texts ids : list string) (scores : list float)
    (indices : list Z) (r : SearchResult) : Prop :=
  exists i idx,
    nth_error indices i = Some idx
    /\ nth_error scores i = Some (sr_score r)
    /\ 0 <= idx < Z.of_nat (List.length texts)
    /\ nth_error ids (Z.to_nat idx) = Some (sr_facility_id r)
    /\ nth_error texts (Z.to_nat idx) = Some (sr_text r).

Lemma search_loop_from_hits (texts ids : list string) (scores : list float) :
  forall (rest : list Z) (seen : list Z) (acc results : list SearchResult),
    search_loop texts ids scores (List.length seen) rest acc = Return results ->
    Forall (from_hit texts ids scores (seen ++ rest)) acc ->
    Forall (from_hit texts ids scores (seen ++ rest)) results.
Proof.
  induction rest as [|idx rest IH]; intros seen acc results Hrun Hacc.
  - simpl in Hrun. now injection Hrun as <-.
  - simpl in Hrun.
    assert (Hshift : (seen ++ idx :: rest = (seen ++ [idx]) ++ rest)%list)
      by now rewrite <- app_assoc.
    assert (Hlen : S (List.length seen) = List.length (seen ++ [idx]))
      by (rewrite length_app; simpl; lia).
    rewrite Hlen in Hrun. rewrite Hshift in *.
    destruct ((0 <=? idx) && (idx <? Z.of_nat (List.length texts))) eqn:Hrange;
      [|now apply (IH _ _ _ Hrun)].
    destruct (nth_error scores (List.length seen)) as [s|] eqn:Hs;
      [|discriminate].
    destruct (0 <? s)%float; [|now apply (IH _ _ _ Hrun)].
    destruct (nth_error ids (Z.to_nat idx)) as [fid|] eqn:Hfid; [|discriminate].
    destruct (nth_error texts (Z.to_nat idx)) as [txt|] eqn:Htxt; [|discriminate].
    apply (IH _ _ _ Hrun). apply Forall_app. split; [exact Hacc|].
    constructor; [|constructor].
    exists (List.length seen), idx. simpl.
    apply andb_true_iff in Hrange as [Hlo Hhi].
    apply Z.leb_le in Hlo. apply Z.ltb_lt in Hhi.
    repeat split; auto.
    rewrite <- app_assoc. rewrite nth_error_app2 by lia.
    now rewrite Nat.sub_diag.
Qed.

(** Every result of [search_similar] pairs the identifier and the chunk of
    one and the same position of the start-up arrays, the position FAISS
    labelled, with the score FAISS gave it; a label outside the arrays,
    such as the [-1] of padding, gives no result. *)
Theorem search_results_come_from_the_labelled_positions
    (query : string) (k : nat) (w w' : World) (ix : list (list float))
    (scores : list float) (indices : list Z) (results : list SearchResult)
    (Hix : faiss_index w = Some ix)
    (Hfaiss : index_search X ix (encode_query X query) k = Return (scores, indices))
    (Hrun : search_similar X query k w = (Return results, w')) :
  Forall (from_hit (facility_texts w) (facility_ids w) scores indices) results.
Proof.
  unfold search_similar, bind, get, lift in Hrun. cbv beta iota in Hrun.
  rewrite Hix, Hfaiss in Hrun.
  destruct (search_loop (facility_texts w) (facility_ids w) scores 0 indices [])
    as [found|e] eqn:Hloop; [|discriminate].
  injection Hrun as <- _.
  apply (search_loop_from_hits _ _ _ indices [] [] found Hloop). constructor.
Qed.

End Indexing.


(** ** Retrieval after start-up, and the lookup of a facility *)

Section Lookup.

Variable X : Collab.

(** [search_similar] reads the state and leaves it as it is, whatever it
    returns or raises. *)
Lemma search_similar_reads_only (query : string) (k : nat) (w w' : World)
    (o : outcome (list SearchResult)) :
  search_similar X query k w = (o, w') -> w' = w.
Proof.
  unfold search_similar, bind, get, ret, lift. cbv beta iota.
  destruct (faiss_index w) as [ix|]; [|now intros [= _ <-]].
  destruct (index_search X ix (encode_query X query) k) as [[scores indices]|e];
    now intros [= _ <-].
Qed.

Lemma search_similar_inv (query : string) (k : nat) (w w' : World)
    (results : list SearchResult) :
  search_similar X query k w = (Return results, w') ->
  (faiss_index w = None /\ results = [])
  \/ exists ix scores indices,
       faiss_index w = Some ix
       /\ index_search X ix (encode_query X query) k = Return (scores, indices)
       /\ search_loop (facility_texts w) (facility_ids w) scores 0 indices []
          = Return results.
Proof.
  unfold search_similar, bind, get, ret, lift. cbv beta iota.
  destruct (faiss_index w) as [ix|].
  - destruct (index_search X ix (encode_query X query) k)
      as [[scores indices]|e] eqn:Hfaiss; [|discriminate].
    intros [= H _]. right. exists ix, scores, indices. auto.
  - intros [= <- _]. now left.
Qed.

(** [r] is the identifier of a facility of [facilities] with the chunk of
    that position of the file. *)
Definition from_file (facilities : list Facility) (r : SearchResult) : Prop :=
  exists n fac,
    nth_error facilities n = Some fac
    /\ sr_facility_id r = fac_facility_id fac
    /\ facility_text fac = Return (sr_text r).

Lemma Forall2_nth_error {A B} (R : A -> B -> Prop) (l : list A) (l' : list B) :
  Forall2 R l l' ->
  forall n b, nth_error l' n = Some b ->
    exists a, nth_error l n = Some a /\ R a b.
Proof.
  induction 1 as [|a b0 l l' Hab _ IH]; intros [|n] b Hn; simpl in *;
    try discriminate.
  - injection Hn as <-. eauto.
  - now apply IH.
Qed.

(** What start-up leaves in the two arrays. *)
Lemma start_up_arrays (facilities : list Facility) (w0 w : World) :
  build_faiss_index X facilities w0 = (Return tt, w) ->
  Forall2 (fun fac text => facility_text fac = Return text)
          facilities (facility_texts w)
  /\ facility_ids w = map fac_facility_id facilities.
Proof.
  intros Hbuilt.
  destruct (build_faiss_index_aligned X facilities w0 w Hbuilt) as (_ & _ & Hids).
  split; [|exact Hids]. unfold build_faiss_index in Hbuilt.
  apply bind_inv in Hbuilt as (coll & wa & _ & Hbuilt).
  apply bind_inv in Hbuilt as (u & wb & _ & Hbuilt).
  apply bind_inv in Hbuilt as ([texts ids] & wc & Hc & Hbuilt).
  apply lift_inv in Hc as [Hc _].
  apply bind_inv in Hbuilt as (t0 & wd & _ & Hbuilt).
  apply bind_inv in Hbuilt as (t & we & _ & Hbuilt).
  apply bind_inv in Hbuilt as (dim & wf & _ & Hbuilt).
  unfold set_index in Hbuilt. injection Hbuilt as <-. simpl.
  apply build_chunks_texts in Hc as (chunks & -> & Hall). exact Hall.
Qed.

(** Retrieval after start-up answers with facilities of the file.  Once
    [build_faiss_index] has returned, every result of [search_similar]
    carries the identifier of a facility of the file together with the
    chunk built from that same facility. *)
Theorem search_after_start_up_returns_facilities_of_the_file
    (facilities : list Facility) (w0 w w' : World) (query : string) (k : nat)
    (results : list SearchResult)
    (Hbuilt : build_faiss_index X facilities w0 = (Return tt, w))
    (Hrun : search_similar X query k w = (Return results, w')) :
  Forall (from_file facilities) results.
Proof.
  destruct (start_up_arrays facilities w0 w Hbuilt) as [Hall Hids].
  apply search_similar_inv in Hrun as [[_ ->]|(ix & scores & indices & _ & _ & Hloop)];
    [constructor|].
  pose proof (search_loop_from_hits _ _ _ indices [] [] results Hloop
                (Forall_nil _)) as Hhits.
  eapply Forall_impl; [|exact Hhits].
  intros r (i & idx & _ & _ & _ & Hid & Htext).
  destruct (Forall2_nth_error _ _ _ Hall _ _ Htext) as (fac & Hfac & Hchunk).
  exists (Z.to_nat idx), fac. repeat split; auto.
  rewrite Hids, nth_error_map, Hfac in Hid. simpl in Hid. now injection Hid as <-.
Qed.

Lemma find_first (facility_id : string) (coll : list Facility) :
  match find (fun f => String.eqb (fac_facility_id f) facility_id) coll with
  | Some fac =>
      exists before after,
        coll = (before ++ fac :: after)%list
        /\ fac_facility_id fac = facility_id
        /\ Forall (fun f => fac_facility_id f <> facility_id) before
  | None => Forall (fun f => fac_facility_id f <> facility_id) coll
  end.
Proof.
  induction coll as [|f coll IH]; simpl; [constructor|].
  destruct (String.eqb_spec (fac_facility_id f) facility_id) as [Heq|Hne].
  - exists [], coll. repeat split; [exact Heq | constructor].
  - destruct (find _ coll) as [fac|].
    + destruct IH as (before & after & -> & Hid & Hbefore).
      exists (f :: before), after. repeat split; [exact Hid | now constructor].
    + now constructor.
Qed.

(** [get_facility] answers with the first document of the collection that
    carries the identifier, and with the HTTP error 404 exactly when no
    document carries it; it leaves the state as it is. *)
Theorem get_facility_finds_the_first_or_404 (facility_id : string) (w : World) :
  (exists before fac after,
      get_facility facility_id w = (Return fac, w)
      /\ db_facilities w = (before ++ fac :: after)%list
      /\ fac_facility_id fac = facility_id
      /\ Forall (fun f => fac_facility_id f <> facility_id) before)
  \/ (get_facility facility_id w
      = (Raise (HTTPException 404 "Facility not found"), w)
      /\ Forall (fun f => fac_facility_id f <> facility_id) (db_facilities w)).
Proof.
  pose proof (find_first facility_id (db_facilities w)) as Hfind.
  unfold get_facility, bind, get, ret, raise. cbv beta iota.
  destruct (find _ (db_facilities w)) as [fac|].
  - destruct Hfind as (before & after & Hsplit & Hid & Hbefore).
    left. exists before, fac, after. auto.
  - right. auto.
Qed.

Lemma find_by_id (facility_id : string) (coll : list Facility) (fac : Facility) :
  In fac coll -> fac_facility_id fac = facility_id ->
  exists found,
    find (fun f => String.eqb (fac_facility_id f) facility_id) coll = Some found
    /\ In found coll /\ fac_facility_id found = facility_id.
Proof.
  intros Hin Hid.
  destruct (find (fun f => String.eqb (fac_facility_id f) facility_id) coll)
    as [found|] eqn:Hfind.
  - apply find_some in Hfind as [Hf Heq]. apply String.eqb_eq in Heq. eauto.
  - apply (find_none _ _ Hfind) in Hin. apply String.eqb_neq in Hin. contradiction.
Qed.

(** A retrieved identifier can be looked up.  When start-up ran on an empty
    store, the identifier of every result of [search_similar] is found by
    [get_facility]: the lookup returns a facility of the file with that
    identifier, never the error 404. *)
Theorem retrieved_facilities_can_be_looked_up
    (facilities : list Facility) (w0 w w' : World) (query : string) (k : nat)
    (results : list SearchResult)
    (Hempty : db_facilities w0 = [])
    (Hbuilt : build_faiss_index X facilities w0 = (Return tt, w))
    (Hrun : search_similar X query k w = (Return results, w')) :
  Forall (fun r =>
            exists fac,
              get_facility (sr_facility_id r) w = (Return fac, w)
              /\ In fac facilities
              /\ fac_facility_id fac = sr_facility_id r) results.
Proof.
  assert (Hstore : db_facilities w = facilities).
  { unfold build_faiss_index in Hbuilt.
    apply bind_inv in Hbuilt as (coll & wa & Hget & Hbuilt).
    injection Hget as <- <-. rewrite Hempty in Hbuilt. simpl in Hbuilt.
    apply bind_inv in Hbuilt as (u & wb & Hload & Hbuilt).
    apply bind_inv in Hbuilt as ([texts ids] & wc & Hc & Hbuilt).
    apply lift_inv in Hc as [_ ->].
    apply bind_inv in Hbuilt as (t0 & wd & Ht0 & Hbuilt). injection Ht0 as _ <-.
    apply bind_inv in Hbuilt as (t & we & Ht & Hbuilt). injection Ht as _ <-.
    apply bind_inv in Hbuilt as (dim & wf & Hdim & Hbuilt).
    apply lift_inv in Hdim as [_ ->].
    unfold set_index in Hbuilt. injection Hbuilt as <-. simpl.
    destruct facilities as [|f fs]; [discriminate|].
    injection Hload as Hwb. subst wb. simpl. now rewrite Hempty. }
  destruct (start_up_arrays facilities w0 w Hbuilt) as [_ Hids].
  apply search_similar_inv in Hrun as [[_ ->]|(ix & scores & indices & _ & _ & Hloop)];
    [constructor|].
  pose proof (search_loop_from_hits _ _ _ indices [] [] results Hloop
                (Forall_nil _)) as Hhits.
  eapply Forall_impl; [|exact Hhits].
  intros r (i & idx & _ & _ & _ & Hid & _).
  apply nth_error_In in Hid. rewrite Hids in Hid.
  apply in_map_iff in Hid as (fac & Hfid & Hin).
  destruct (find_by_id (sr_facility_id r) facilities fac Hin Hfid)
    as (found & Hfind & Hfound & Hfound_id).
  exists found. unfold get_facility, bind, get, ret. cbv beta iota.
  rewrite Hstore, Hfind. auto.
Qed.

End Lookup.


(** ** The chat endpoint: failure, isolation, trace and citations *)

Section Chat.

Variable X : Collab.

(** [m] raises from [w], with an exception and a state that satisfy [Q]. *)
Definition stops {A} (m : M A) (w : World) (Q : exn -> World -> Prop) : Prop :=
  exists e w', m w = (Raise e, w') /\ Q e w'.

Lemma stops_bind {A B} (m : M A) (k : A -> M B) (w : World)
    (Q : exn -> World -> Prop) :
  wp m w (fun a w' => stops (k a) w' Q) -> stops (bind m k) w Q.
Proof.
  intros (a & w1 & E & e & w2 & E2 & HQ). exists e, w2.
  split; [|exact HQ]. unfold bind. now rewrite E.
Qed.

Lemma stops_here {A B} (m : M A) (k : A -> M B) (w : World)
    (Q : exn -> World -> Prop) :
  stops m w Q -> stops (bind m k) w Q.
Proof.
  intros (e & w1 & E & HQ). exists e, w1. split; [|exact HQ].
  unfold bind. now rewrite E.
Qed.

Lemma wp_inv {A} (m : M A) (w w' : World) (Q : A -> World -> Prop) (a : A) :
  wp m w Q -> m w = (Return a, w') -> Q a w'.
Proof.
  intros (a0 & w0 & E & HQ) H. rewrite E in H. injection H as <- <-. exact HQ.
Qed.

Lemma benign_log_agent_step (n : Z) (a d u : string) (ms : float) :
  benign (log_agent_step X n a d u ms).
Proof.
  unfold log_agent_step, mlflow_log_params, mlflow_log_metrics, write_text,
    mlflow_log_artifact.
  repeat (apply benign_bind; [apply benign_call_unit | intros _]).
  apply benign_call_unit.
Qed.

Lemma calm_query_analysis_log (req : ChatRequest) :
  calm (try_pass (log_agent_step X 1 "Query Analysis"
                    ("Query: " ++ req_message req) "User input" 0%float)).
Proof. apply calm_try_pass, benign_log_agent_step. Qed.

Lemma calm_search_log (results : list SearchResult) (ms : float) :
  calm (try_pass
          (log_agent_step X 3 "Semantic Search"
             (str_nat (List.length results) ++ " docs, " ++ format_0f X ms ++ "ms")
             (str_list X (map sr_facility_id results)) ms ;;;
           mlflow_log_metric X "faiss_search_ms" ;;;
           mlflow_log_metric X "docs_retrieved")).
Proof.
  apply calm_try_pass.
  apply benign_bind; [apply benign_log_agent_step | intros _].
  apply benign_bind; [apply benign_call_unit | intros _].
  apply benign_call_unit.
Qed.

(** One statement of a handler that is bound to raise later on. *)
Tactic Notation "pass" uconstr(lemma) :=
  apply stops_bind; eapply wp_conseq; [eapply lemma | cbv beta].

(** The retrieval step is the one statement of [chat_endpoint] outside
    every [try]: what it raises, the endpoint raises, and nothing has been
    stored by then. *)
Lemma chat_endpoint_stops (req : ChatRequest) (w : World) (e : exn) :
  search_similar X (req_message req) 5 w = (Raise e, w) ->
  stops (chat_endpoint X req) w (fun e' w' => e' = e /\ same_data w w').
Proof.
  intros Hsearch. unfold chat_endpoint.
  pass wp_resolve_session_id. intros sid w1 [Hsid D1].
  pass wp_calm; [apply calm_start_tracking|]. intros run_id w2 D2.
  pass wp_calm; [apply calm_time_now|]. intros t0 w3 D3.
  cbv zeta.
  pass wp_calm; [apply calm_query_analysis_log|]. intros _ w4 D4.
  pass wp_load_history. intros history w4' [-> ->].
  pass wp_calm; [apply calm_log_memory_retrieval|]. intros _ w5 D5.
  pass wp_calm; [apply calm_time_now|]. intros t1 w6 D6.
  assert (D06 : same_data w w6) by eauto 10 using same_data_trans.
  apply stops_here. exists e, w6. split; [|now split].
  destruct D06 as (Hix & Htexts & Hids & _).
  eapply search_similar_same_index; eauto.
Qed.

Lemma search_similar_outcome (query : string) (k : nat) (w : World) :
  exists o, search_similar X query k w = (o, w).
Proof.
  destruct (search_similar X query k w) as [o w'] eqn:H.
  apply search_similar_reads_only in H as Hw. subst w'. now exists o.
Qed.

(** [chat_endpoint] raises exactly when its retrieval step does.  If
    [search_similar] returns on the message, the endpoint returns a
    response; if it raises, the endpoint raises the same exception, and
    the index, the facilities and the chat history are as they were: no
    turn is stored for the failed request. *)
Theorem chat_endpoint_fails_exactly_when_retrieval_fails
    (req : ChatRequest) (w : World) :
  (exists results resp w',
      search_similar X (req_message req) 5 w = (Return results, w)
      /\ chat_endpoint X req w = (Return resp, w'))
  \/ (exists e w',
        search_similar X (req_message req) 5 w = (Raise e, w)
        /\ chat_endpoint X req w = (Raise e, w')
        /\ same_data w w').
Proof.
  destruct (search_similar_outcome (req_message req) 5 w) as [[results|e] Hs].
  - left. destruct (chat_endpoint_runs X req w results Hs) as (resp & w' & Hrun & _).
    exists results, resp, w'. auto.
  - right. destruct (chat_endpoint_stops req w e Hs) as (e' & w' & Hrun & -> & D).
    exists e, w'. auto.
Qed.

(** What a returned request tells of its retrieval step. *)
Lemma chat_endpoint_returned (req : ChatRequest) (w w' : World)
    (resp : ChatResponse) :
  chat_endpoint X req w = (Return resp, w') ->
  exists results,
    search_similar X (req_message req) 5 w = (Return results, w)
    /\ chat_post X req w results resp w'.
Proof.
  intros Hrun.
  destruct (search_similar_outcome (req_message req) 5 w) as [[results|e] Hs].
  - exists results. split; [exact Hs|].
    destruct (chat_endpoint_runs X req w results Hs) as (resp0 & w0 & Hrun0 & Hpost).
    rewrite Hrun0 in Hrun. injection Hrun as <- <-. exact Hpost.
  - destruct (chat_endpoint_stops req w e Hs) as (e' & w0 & Hrun0 & _).
    rewrite Hrun0 in Hrun. discriminate.
Qed.

Lemma find_session_other (sid other : string) (t : Turn) :
  turn_session_id t = sid -> other <> sid -> find_session other [t] = [].
Proof.
  intros <- Hne. unfold find_session. simpl.
  destruct (String.eqb_spec (turn_session_id t) other); [congruence | reflexivity].
Qed.

(** A request touches its own session only.  When [chat_endpoint] returns,
    the chat history is the one before with one turn appended, the turn of
    this request: it carries the session id, text, citations, trace and run
    id of the response.  The turns stored for any other session are the
    same as before, and the facilities, the index and its arrays are not
    changed.  The session id is the one of the request when that is not
    empty, and otherwise [chat_] followed by the first eight characters of
    a fresh [uuid4]; it is never empty. *)
Theorem chat_endpoint_appends_one_turn_to_its_session
    (req : ChatRequest) (w w' : World) (resp : ChatResponse)
    (Hrun : chat_endpoint X req w = (Return resp, w')) :
  (exists t,
      db_chat_history w' = (db_chat_history w ++ [t])%list
      /\ turn_session_id t = session_id resp
      /\ turn_message t = req_message req
      /\ turn_response t = response resp
      /\ turn_citations t = citations resp
      /\ turn_reasoning_steps t = reasoning_steps resp
      /\ turn_mlflow_run_id t = mlflow_run_id resp)
  /\ (forall other, other <> session_id resp ->
        find_session other (db_chat_history w')
        = find_session other (db_chat_history w))
  /\ db_facilities w' = db_facilities w
  /\ faiss_index w' = faiss_index w
  /\ facility_texts w' = facility_texts w
  /\ facility_ids w' = facility_ids w
  /\ session_id resp <> ""
  /\ (forall sid, req_session_id req = Some sid -> sid <> "" ->
        session_id resp = sid)
  /\ (req_session_id req = None \/ req_session_id req = Some "" ->
        session_id resp = "chat_" ++ slice_to 8 (uuid4_hex X (uuid_draws w))).
Proof.
  destruct (chat_endpoint_returned req w w' resp Hrun)
    as (results & _ & Hsid & _ & _ & (c & _ & Hdb) & Hix & Htx & Hid & Hfac).
  split; [|split; [|repeat (split; [assumption|])]].
  - eexists. split; [exact Hdb|]. repeat split.
  - intros other Hne. rewrite Hdb, find_session_app.
    rewrite (find_session_other (session_id resp)); auto using app_nil_r.
  - rewrite Hsid. unfold resolved_session_id.
    destruct (req_session_id req) as [[|c0 s0]|]; repeat split;
      try discriminate; try (intros sid [= <-]; congruence);
      try (intros [H|H]; discriminate); auto.
Qed.

End Chat.


Section ChatTrace.

Variable X : Collab.

Lemma try_except_inv {A} (body : M A) (c : exn -> bool) (h : exn -> M A)
    (w w' : World) (a : A) :
  try_except body c h w = (Return a, w') ->
  body w = (Return a, w')
  \/ exists e w1, body w = (Raise e, w1) /\ h e w1 = (Return a, w').
Proof.
  unfold try_except. destruct (body w) as [[a0|e] w1]; [now left|].
  destruct (c e); [|discriminate]. intros H. right. eauto.
Qed.

Lemma calm_generation_log (parts : list string) (ms : float) :
  calm (try_pass
          (log_agent_step X 5 "LLM Generation"
             ("Generated in " ++ format_0f X ms ++ "ms")
             (str_nat (List.length parts) ++ " docs") ms ;;;
           mlflow_log_metric X "llm_latency_ms" ;;;
           mlflow_log_metric X "response_length")).
Proof.
  apply calm_try_pass.
  apply benign_bind; [apply benign_log_agent_step | intros _].
  apply benign_bind; [apply benign_call_unit | intros _].
  apply benign_call_unit.
Qed.

(** What step 5 has done when it returns [text] and the trace [steps5]. *)
Definition generation_outcome (req : ChatRequest) (results : list SearchResult)
    (parts : list string) (history : list Turn) (steps : list ReasoningStep)
    (text : string) (steps5 : list ReasoningStep) : Prop :=
  exists label prompt,
    match send_message X label prompt (req_message req) with
    | Return answer =>
        text = answer
        /\ exists ms,
             steps5 = (steps ++ [generation_step X ms (List.length parts)
                                                 (List.length history)])%list
    | Raise e =>
        text = fallback_response e results
        /\ steps5 = (steps ++ [generation_error_step e])%list
    end.

Lemma generate_inv (req : ChatRequest) (sid prompt : string)
    (results : list SearchResult) (parts : list string) (history : list Turn)
    (steps : list ReasoningStep) (w w' : World) (text : string)
    (steps5 : list ReasoningStep) :
  generate X req sid prompt results parts history steps w
  = (Return (text, steps5), w') ->
  generation_outcome req results parts history steps text steps5.
Proof.
  unfold generate. intros H.
  apply bind_inv in H as (t2 & w1 & _ & H).
  set (label := fun h : string => "rag_" ++ sid ++ "_" ++ slice_to 6 h) in *.
  exists (label (uuid4_hex X (uuid_draws w1))), prompt.
  apply try_except_inv in H as [H|(e & w2 & H & Hh)].
  - apply bind_inv in H as (h & wa & Hu & H). injection Hu as <- <-.
    apply bind_inv in H as (answer & wb & Hsend & H).
    apply lift_inv in Hsend as [Hsend _]. subst label. cbv beta in *.
    rewrite Hsend.
    apply bind_inv in H as (t & wc & _ & H). cbv zeta in H.
    apply bind_inv in H as (u & wd & _ & H).
    injection H as <- <- _. split; [reflexivity|]. eauto.
  - unfold bind at 1 in H. unfold uuid4 at 1 in H.
    unfold bind at 1 in H. unfold lift at 1 in H. subst label. cbv beta in *.
    destruct (send_message X _ prompt (req_message req)) as [answer|e0].
    + exfalso. unfold bind at 1 in H. unfold time_now at 1 in H. cbv zeta in H.
      match type of H with
      | context [bind (try_pass ?m) _] =>
          destruct (calm_generation_log parts
                      (elapsed_ms t2 (time_time X (clock_reads (tick_uuid w1))))
                      (tick_clock (tick_uuid w1))) as (u & wd & E & _)
      end.
      unfold bind in H. unfold bind in E. rewrite E in H. discriminate.
    + injection H as <- _. injection Hh as <- <- _. split; reflexivity.
Qed.

Lemma build_context_citations (results : list SearchResult) :
  forall i,
    snd (build_context i results)
    = map (fun r => mkCitation (sr_facility_id r)
                               (slice_to 200 (sr_text r) ++ "...") (sr_score r))
          results.
Proof.
  induction results as [|r rest IH]; intros i; simpl; [reflexivity|].
  specialize (IH (S i)). destruct (build_context (S i) rest) as [parts cites].
  simpl in *. now rewrite IH.
Qed.

(** The trace of a returned request. *)
Lemma chat_endpoint_trace (req : ChatRequest) (w w' : World) (resp : ChatResponse) :
  chat_endpoint X req w = (Return resp, w') ->
  exists results history search_ms,
    citations resp = snd (build_context 0 results)
    /\ generation_outcome req results (fst (build_context 0 results)) history
         [query_analysis_step req; memory_retrieval_step history;
          semantic_search_step X results search_ms;
          context_assembly_step results history]
         (response resp) (reasoning_steps resp).
Proof.
  unfold chat_endpoint. intros H.
  apply bind_inv in H as (sid & w1 & _ & H).
  apply bind_inv in H as (run_id & w2 & _ & H).
  apply bind_inv in H as (t0 & w3 & _ & H). cbv zeta in H.
  apply bind_inv in H as (u4 & w4 & _ & H).
  apply bind_inv in H as (history & w5 & _ & H).
  apply bind_inv in H as (u6 & w6 & _ & H).
  apply bind_inv in H as (t1 & w7 & _ & H).
  apply bind_inv in H as (results & w8 & _ & H).
  apply bind_inv in H as (t1' & w9 & _ & H).
  apply bind_inv in H as (u10 & w10 & _ & H).
  exists results, history, (elapsed_ms t1 t1').
  destruct (build_context 0 results) as [context_parts cites] eqn:Hctx.
  apply bind_inv in H as (all_facilities & w11 & _ & H).
  apply bind_inv in H as ([text steps5] & w12 & Hgen & H).
  apply bind_inv in H as (created_at & w13 & _ & H).
  apply bind_inv in H as (u14 & w14 & _ & H).
  apply bind_inv in H as (u15 & w15 & _ & H).
  injection H as <- _. cbn [citations response reasoning_steps fst snd].
  split; [reflexivity|]. apply generate_inv in Hgen. exact Hgen.
Qed.

(** The trace of a response has five steps, numbered 1 to 5: query
    analysis, memory retrieval, semantic search, context assembly and
    generation.  The third lists the identifiers of the cited sources, in
    the order of the citations.  The fifth is the generation step when the
    provider answered, and then the text of the response is the provider's
    answer; it is the error step when the provider raised, and then it
    quotes the exception, and the text is the fallback message, which
    counts as many records as there are citations. *)
Theorem chat_trace_has_five_numbered_steps
    (req : ChatRequest) (w w' : World) (resp : ChatResponse)
    (Hrun : chat_endpoint X req w = (Return resp, w')) :
  map step (reasoning_steps resp) = [1; 2; 3; 4; 5]
  /\ map action (firstn 4 (reasoning_steps resp))
     = ["Query Analysis"; "Memory Retrieval";
        "Semantic Search (FAISS + sentence-transformers)"; "Context Assembly"]
  /\ (exists s3,
        nth_error (reasoning_steps resp) 2 = Some s3
        /\ data_used s3 = DataIds (map source_id (citations resp)))
  /\ (exists s5,
        nth_error (reasoning_steps resp) 4 = Some s5
        /\ (action s5 = "LLM Generation (Gemini 2.5 Flash)"
            /\ (exists label prompt,
                  send_message X label prompt (req_message req)
                  = Return (response resp))
            \/ action s5 = "LLM Generation - Error"
               /\ exists label prompt e,
                    send_message X label prompt (req_message req) = Raise e
                    /\ detail s5 = "Error: " ++ str_exn e
                    /\ response resp
                       = "Error processing query: " ++ str_exn e ++ ". Found "
                         ++ str_nat (List.length (citations resp))
                         ++ " relevant records.")).
Proof.
  destruct (chat_endpoint_trace req w w' resp Hrun)
    as (results & history & ms & Hcites & label & prompt & Hgen).
  assert (Hids : map source_id (citations resp) = map sr_facility_id results).
  { rewrite Hcites, build_context_citations, map_map. reflexivity. }
  assert (Hcount : List.length (citations resp) = List.length results).
  { rewrite Hcites, build_context_citations. apply length_map. }
  assert (Hmem : step (memory_retrieval_step history) = 2
                 /\ action (memory_retrieval_step history) = "Memory Retrieval").
  { destruct history; split; reflexivity. }
  destruct Hmem as [Hmem_step Hmem_action].
  destruct (send_message X label prompt (req_message req)) as [answer|e] eqn:Hsend.
  - destruct Hgen as (Htext & llm_ms & Hsteps). rewrite Hsteps.
    cbn [app map firstn nth_error]. rewrite Hmem_step, Hmem_action.
    split; [reflexivity|]. split; [reflexivity|]. split.
    + eexists. split; [reflexivity|]. cbn [semantic_search_step data_used].
      now rewrite Hids.
    + eexists. split; [reflexivity|]. left. split; [reflexivity|].
      exists label, prompt. now rewrite Htext.
  - destruct Hgen as (Htext & Hsteps). rewrite Hsteps.
    cbn [app map firstn nth_error]. rewrite Hmem_step, Hmem_action.
    split; [reflexivity|]. split; [reflexivity|]. split.
    + eexists. split; [reflexivity|]. cbn [semantic_search_step data_used].
      now rewrite Hids.
    + eexists. split; [reflexivity|]. right. split; [reflexivity|].
      exists label, prompt, e. split; [exact Hsend|]. split; [reflexivity|].
      rewrite Htext, Hcount. reflexivity.
Qed.

Lemma length_append (s1 s2 : string) :
  String.length (s1 ++ s2) = (String.length s1 + String.length s2)%nat.
Proof. induction s1 as [|c s1 IH]; simpl; [reflexivity | now rewrite IH]. Qed.

Lemma length_substring_le (s : string) :
  forall n m, (String.length (substring n m s) <= m)%nat.
Proof.
  induction s as [|c s IH]; intros [|n] [|m]; simpl; try lia.
  - specialize (IH 0%nat m). lia.
  - apply (IH n 0%nat).
  - apply (IH n (S m)).
Qed.

(** A citation of [r]: its identifier and score, and the first 200
    characters of its chunk followed by an ellipsis. *)
Definition cites (c : Citation) (r : SearchResult) : Prop :=
  source_id c = sr_facility_id r
  /\ relevance_score c = sr_score r
  /\ text_excerpt c = slice_to 200 (sr_text r) ++ "..."
  /\ (String.length (text_excerpt c) <= 203)%nat.

(** The citations of a response mirror the results of retrieval on the
    message: one citation per result, in rank order, with the identifier
    and the score of the result, and an excerpt of at most 203 characters,
    the first 200 of the chunk and an ellipsis. *)
Theorem citations_mirror_the_search_results
    (req : ChatRequest) (w w' : World) (resp : ChatResponse)
    (Hrun : chat_endpoint X req w = (Return resp, w')) :
  exists results,
    search_similar X (req_message req) 5 w = (Return results, w)
    /\ Forall2 cites (citations resp) results.
Proof.
  destruct (chat_endpoint_returned X req w w' resp Hrun)
    as (results & Hs & _ & Hcites & _).
  exists results. split; [exact Hs|].
  rewrite Hcites, build_context_citations.
  clear. induction results as [|r rest IH]; simpl; constructor; [|exact IH].
  repeat split. cbn [text_excerpt]. rewrite length_append.
  pose proof (length_substring_le (sr_text r) 0 200). unfold slice_to.
  simpl String.length. lia.
Qed.

End ChatTrace.


(** ** The history of a session *)

Lemma firstn_subset {A} (n : nat) (l : list A) (x : A) :
  In x (firstn n l) -> In x l.
Proof.
  intros H. rewrite <- (firstn_skipn n l). apply in_or_app. now left.
Qed.

Section History.

Variable X : Collab.

(** [get_chat_history] returns turns of the session asked for and of no
    other, oldest first, at most a hundred of them: all the stored turns of
    the session when there are no more than a hundred, and otherwise the
    hundred oldest, every turn left out being at least as recent as every
    turn returned.  The state is not changed. *)
Theorem get_chat_history_returns_the_oldest_hundred
    (Hsort : sort_contract X) (sid : string) (w : World) :
  exists turns later,
    get_chat_history X sid w = (Return turns, w)
    /\ Forall (fun t => turn_session_id t = sid /\ In t (db_chat_history w)) turns
    /\ chronological turns
    /\ Permutation (turns ++ later) (find_session sid (db_chat_history w))
    /\ List.length turns
       = Nat.min (List.length (find_session sid (db_chat_history w))) 100
    /\ Forall (fun t => Forall (older_first t) later) turns.
Proof.
  set (stored := find_session sid (db_chat_history w)).
  set (sorted := sort_created_at X 1 stored).
  exists (firstn 100 sorted), (skipn 100 sorted).
  destruct Hsort as (Hperm & _ & Hasc).
  specialize (Hperm 1 stored). specialize (Hasc stored). fold sorted in Hperm, Hasc.
  apply (Sorted_StronglySorted older_first_trans) in Hasc.
  rewrite <- (firstn_skipn 100 sorted) in Hasc.
  apply StronglySorted_app_inv in Hasc as (Hfirst & _ & Hcross).
  split; [reflexivity|]. split; [|split; [exact Hfirst|split; [|split; [|exact Hcross]]]].
  - apply Forall_forall. intros t Ht. apply firstn_subset in Ht.
    apply (Permutation_in _ Hperm) in Ht. unfold stored, find_session in Ht.
    apply filter_In in Ht as [Hin Heq]. apply String.eqb_eq in Heq. auto.
  - now rewrite firstn_skipn.
  - rewrite length_firstn, (Permutation_length Hperm). lia.
Qed.

End History.

(** ** The desert analysis: order, regions and summaries *)

Definition by_desert_score (a b : RegionData) : Prop :=
  desert_score b <= desert_score a.

Lemma insert_by_score_HdRel (a x : RegionData) (l : list RegionData) :
  by_desert_score a x -> HdRel by_desert_score a l ->
  HdRel by_desert_score a (insert_by_score x l).
Proof.
  intros Hax Hal. destruct l as [|y l]; simpl; [now constructor|].
  inversion Hal; subst. destruct (desert_score x <? desert_score y); now constructor.
Qed.

Lemma insert_by_score_sorted (x : RegionData) (l : list RegionData) :
  Sorted by_desert_score l -> Sorted by_desert_score (insert_by_score x l).
Proof.
  induction l as [|y l IH]; simpl; intros Hs; [repeat constructor|].
  inversion Hs as [|? ? Hs' Hhd]; subst.
  destruct (Z.ltb_spec (desert_score x) (desert_score y)).
  - constructor; [now apply IH|].
    apply insert_by_score_HdRel; [|exact Hhd]. unfold by_desert_score. lia.
  - constructor; [exact Hs|]. constructor. unfold by_desert_score. lia.
Qed.

Lemma sort_by_score_desc_sorted (l : list RegionData) :
  StronglySorted by_desert_score (sort_by_score_desc l).
Proof.
  apply Sorted_StronglySorted.
  - intros a b c. unfold by_desert_score. lia.
  - induction l as [|x l IH]; simpl; [constructor|].
    now apply insert_by_score_sorted.
Qed.

(** The facilities of region [k] among [seen], in the order read. *)
Definition of_region (k : string) (seen : list Facility) : list Facility :=
  filter (fun f => String.eqb (fac_region f) k) seen.

(** The entry of region [k] once the first loop has read [fs]. *)
Definition summary (k : string) (fs : list Facility) : RegionData :=
  fold_left (fun r f => add_facility f r) fs (new_region k).

(** The state of [regions] after the first loop has read [seen]: the entry
    of each region is the summary of the facilities of that region, and
    every key is the region of a facility read. *)
Definition summarised (seen : list Facility) (regions : list (string * RegionData))
    : Prop :=
  aggregated seen regions
  /\ (forall k r, In (k, r) regions -> r = summary k (of_region k seen))
  /\ (forall k, In k (map fst regions) -> exists f, In f seen /\ fac_region f = k).

Lemma of_region_none (k : string) (seen : list Facility) :
  (forall f, In f seen -> fac_region f <> k) -> of_region k seen = [].
Proof.
  induction seen as [|f seen IH]; intros H; simpl; [reflexivity|].
  destruct (String.eqb_spec (fac_region f) k) as [Heq|Hne].
  - exfalso. apply (H f); [now left | exact Heq].
  - apply IH. intros g Hg. apply H. now right.
Qed.

Lemma of_region_snoc (k : string) (seen : list Facility) (fac : Facility) :
  of_region k (seen ++ [fac])
  = (of_region k seen ++ if String.eqb (fac_region fac) k then [fac] else [])%list.
Proof. unfold of_region. rewrite filter_app. reflexivity. Qed.

Lemma summarised_step (seen : list Facility) (regions : list (string * RegionData))
    (fac : Facility) :
  summarised seen regions -> summarised (seen ++ [fac]) (aggregate regions fac).
Proof.
  intros (Hagg & Hsum & Horigin).
  split; [now apply aggregated_step|].
  destruct Hagg as (Hnd & _ & Hkeys). unfold aggregate.
  set (key := fac_region fac).
  set (regions' := if has_key key regions then regions
                   else (regions ++ [(key, new_region key)])%list).
  assert (Hnd' : NoDup (map fst regions')).
  { subst regions'. destruct (has_key key regions) eqn:Hk; [exact Hnd|].
    rewrite map_app. simpl. apply NoDup_app; [exact Hnd | repeat constructor; auto |].
    intros k Hin [<-|[]]. apply has_key_In in Hin. congruence. }
  assert (Hsum' : forall k r, In (k, r) regions' -> r = summary k (of_region k seen)).
  { subst regions'. destruct (has_key key regions) eqn:Hk; [exact Hsum|].
    intros k r Hin. apply in_app_iff in Hin as [Hin|[Heq|[]]]; [now apply Hsum|].
    inversion Heq; subst. rewrite of_region_none; [reflexivity|].
    intros f Hf Hregion. apply Hkeys, has_key_In in Hf. fold key in Hregion.
    congruence. }
  split.
  - intros k r Hin.
    apply (update_entry_In _ _ _ _ _ Hnd') in Hin
      as [[Hne Hin]|(-> & r0 & Hin & ->)].
    + rewrite of_region_snoc. fold key.
      apply String.eqb_neq in Hne. rewrite String.eqb_sym in Hne.
      rewrite Hne, app_nil_r. now apply Hsum'.
    + rewrite of_region_snoc. fold key. rewrite String.eqb_refl.
      unfold summary. rewrite fold_left_app. simpl.
      f_equal. now apply Hsum'.
  - intros k Hin. rewrite update_entry_keys in Hin. subst regions'.
    destruct (has_key key regions).
    + destruct (Horigin k Hin) as (f & Hf & Hregion).
      exists f. split; [apply in_app_iff; now left | exact Hregion].
    + rewrite map_app in Hin. apply in_app_iff in Hin as [Hin|[<-|[]]].
      * destruct (Horigin k Hin) as (f & Hf & Hregion).
        exists f. split; [apply in_app_iff; now left | exact Hregion].
      * exists fac. split; [apply in_app_iff; right; now left | reflexivity].
Qed.

Lemma summarised_fold (coll seen : list Facility)
    (regions : list (string * RegionData)) :
  summarised seen regions ->
  summarised (seen ++ coll) (fold_left aggregate coll regions).
Proof.
  revert seen regions. induction coll as [|fac coll IH]; intros seen regions H.
  - now rewrite app_nil_r.
  - simpl. replace (seen ++ fac :: coll)%list with ((seen ++ [fac]) ++ coll)%list
      by now rewrite <- app_assoc.
    apply IH. now apply summarised_step.
Qed.

Lemma summarised_all (coll : list Facility) :
  summarised coll (fold_left aggregate coll []).
Proof.
  apply (summarised_fold coll [] []). split; [|split].
  - repeat split; simpl; try contradiction. constructor.
  - intros k r [].
  - intros k [].
Qed.

Lemma scored_regions_entry (coll : list Facility) (d : RegionData) :
  In d (sort_by_score_desc (scored_regions coll)) ->
  exists k, In (k, summary k (of_region k (firstn 5000 coll)))
               (fold_left aggregate (firstn 5000 coll) [])
            /\ d = score_region (summary k (of_region k (firstn 5000 coll))).
Proof.
  intros Hd. apply (Permutation_in _ (sort_by_score_desc_perm _)) in Hd.
  unfold scored_regions in Hd. apply in_map_iff in Hd as ([k r] & <- & Hin).
  destruct (summarised_all (firstn 5000 coll)) as (_ & Hsum & _).
  pose proof (Hsum k r Hin) as Hr. subst r. exists k. split; [exact Hin | reflexivity].
Qed.

Lemma summary_region (k : string) (fs : list Facility) : region (summary k fs) = k.
Proof.
  unfold summary. change k with (region (new_region k)) at 2.
  generalize (new_region k).
  induction fs as [|f fs IH]; intros r; simpl; [reflexivity|].
  now rewrite IH.
Qed.

(** The analysis has one entry per region, the most deprived first.
    [get_medical_deserts] returns its entries in descending order of
    [desert_score]; the regions of the entries are pairwise distinct, and
    they are the regions of the facilities the analysis reads: every
    facility belongs to the entry of its region and no entry is without a
    facility. *)
Theorem desert_analysis_is_sorted_with_one_entry_per_region (w : World) :
  exists deserts,
    get_medical_deserts w = (Return deserts, w)
    /\ StronglySorted by_desert_score deserts
    /\ NoDup (map region deserts)
    /\ forall k, In k (map region deserts)
                 <-> In k (map fac_region (firstn 5000 (db_facilities w))).
Proof.
  eexists. split; [reflexivity|]. split; [apply sort_by_score_desc_sorted|].
  set (read := firstn 5000 (db_facilities w)).
  destruct (summarised_all read) as ((Hnd & Hflags & Hkeys) & Hsum & Horigin).
  assert (Hregions : map region (map (fun kv => score_region (snd kv))
                                     (fold_left aggregate read []))
                     = map fst (fold_left aggregate read [])).
  { rewrite map_map. apply map_ext_in. intros [k r] Hin. simpl.
    now destruct (Hflags k r Hin). }
  assert (Hperm : Permutation
                    (map region (sort_by_score_desc (scored_regions (db_facilities w))))
                    (map fst (fold_left aggregate read []))).
  { rewrite <- Hregions. apply Permutation_map, sort_by_score_desc_perm. }
  split.
  - apply (Permutation_NoDup (Permutation_sym Hperm)). exact Hnd.
  - intros k. split.
    + intros Hin. apply (Permutation_in _ Hperm) in Hin.
      destruct (Horigin k Hin) as (f & Hf & <-). now apply in_map.
    + intros Hin. apply in_map_iff in Hin as (f & <- & Hf).
      apply (Permutation_in _ (Permutation_sym Hperm)). now apply Hkeys.
Qed.

Lemma fold_sum_shift (key : Facility -> Z) (fs : list Facility) :
  forall a b,
    fold_left (fun acc f => acc + key f) fs (a + b)
    = a + fold_left (fun acc f => acc + key f) fs b.
Proof.
  induction fs as [|f fs IH]; intros a b; simpl; [reflexivity|].
  rewrite <- IH. f_equal. lia.
Qed.

Lemma sum_of_from (key : Facility -> Z) (fs : list Facility) (a : Z) :
  fold_left (fun acc f => acc + key f) fs a = a + sum_of key fs.
Proof. unfold sum_of. rewrite <- fold_sum_shift. f_equal. lia. Qed.

Lemma sum_of_cons (key : Facility -> Z) (f : Facility) (fs : list Facility) :
  sum_of key (f :: fs) = key f + sum_of key fs.
Proof. unfold sum_of at 1. simpl. now rewrite sum_of_from. Qed.

Lemma sum_of_app (key : Facility -> Z) (fs gs : list Facility) :
  sum_of key (fs ++ gs) = sum_of key fs + sum_of key gs.
Proof.
  unfold sum_of at 1. rewrite fold_left_app. fold (sum_of key fs).
  apply sum_of_from.
Qed.

Lemma str_in_In (x : string) (xs : list string) : str_in x xs = true <-> In x xs.
Proof.
  unfold str_in. rewrite existsb_exists. split.
  - intros (y & Hy & Heq). apply String.eqb_eq in Heq. now subst.
  - intros H. exists x. split; [exact H | apply String.eqb_refl].
Qed.

(** Does [fac] list [service] among its services, [item] among its
    equipment. *)
Definition offers (service : string) (fac : Facility) : bool :=
  str_in service (get_default (fac_services fac) []).

Definition equipped_with (item : string) (fac : Facility) : bool :=
  str_in item (get_default (fac_equipment fac) []).

Lemma fold_add_facility (fs : list Facility) :
  forall r0,
    let r := fold_left (fun r f => add_facility f r) fs r0 in
    facilities r = (facilities r0 ++ map fac_name fs)%list
    /\ total_beds r = total_beds r0 + sum_of (fun f => get_default (fac_beds f) 0) fs
    /\ total_staff r
       = total_staff r0 + sum_of (fun f => get_default (fac_staff_count f) 0) fs
    /\ has_surgery r = (has_surgery r0 || existsb (offers "Surgery") fs)%bool
    /\ has_icu r = (has_icu r0 || existsb (offers "ICU") fs)%bool
    /\ has_blood_bank r = (has_blood_bank r0 || existsb (offers "Blood Bank") fs)%bool
    /\ has_ct_mri r
       = (has_ct_mri r0
          || existsb (fun f => equipped_with "CT Scanner" f || equipped_with "MRI" f) fs)%bool.
Proof.
  induction fs as [|f fs IH]; intros r0; cbv zeta.
  - simpl. rewrite app_nil_r, !orb_false_r. unfold sum_of. simpl.
    repeat split; lia.
  - simpl fold_left. destruct (IH (add_facility f r0)) as (a & b & c & d & e & g & h).
    rewrite a, b, c, d, e, g, h. rewrite !sum_of_cons.
    unfold add_facility, offers, equipped_with.
    cbn [facilities total_beds total_staff has_surgery has_icu has_blood_bank
         has_ct_mri existsb map].
    rewrite <- app_assoc. simpl app.
    repeat split; try lia.
    + destruct (str_in "Surgery" _), (has_surgery r0); reflexivity.
    + destruct (str_in "ICU" _), (has_icu r0); reflexivity.
    + destruct (str_in "Blood Bank" _), (has_blood_bank r0); reflexivity.
    + rewrite orb_false_r.
      destruct (str_in "CT Scanner" _), (str_in "MRI" _), (has_ct_mri r0); reflexivity.
Qed.

Lemma set_add_In (s x : string) (set : list string) :
  In x (set_add s set) <-> In x set \/ x = s.
Proof.
  unfold set_add. destruct (str_in s set) eqn:Hs.
  - apply str_in_In in Hs. split; [auto | intros [H| ->]; auto].
  - rewrite in_app_iff. simpl. split; [intros [H|[<-|[]]] | intros [H| ->]]; auto.
Qed.

Lemma set_add_NoDup (s : string) (set : list string) :
  NoDup set -> NoDup (set_add s set).
Proof.
  intros Hnd. unfold set_add. destruct (str_in s set) eqn:Hs; [exact Hnd|].
  apply NoDup_app; [exact Hnd | repeat constructor; auto |].
  intros x Hx [<-|[]]. apply str_in_In in Hx. congruence.
Qed.

Lemma fold_set_add (xs : list string) :
  forall set,
    let set' := fold_left (fun set s => set_add s set) xs set in
    (NoDup set -> NoDup set')
    /\ forall x, In x set' <-> In x set \/ In x xs.
Proof.
  induction xs as [|s xs IH]; intros set; cbv zeta; simpl.
  - split; [auto | intros x; tauto].
  - destruct (IH (set_add s set)) as [Hnd Hin]. split.
    + intros H. now apply Hnd, set_add_NoDup.
    + intros x. rewrite Hin, set_add_In. intuition (subst; auto).
Qed.

Lemma fold_add_facility_specialties (fs : list Facility) :
  forall r0,
    let r := fold_left (fun r f => add_facility f r) fs r0 in
    (NoDup (specialties r0) -> NoDup (specialties r))
    /\ forall s, In s (specialties r)
                 <-> In s (specialties r0)
                     \/ exists f, In f fs /\ In s (get_default (fac_specialties f) []).
Proof.
  induction fs as [|f fs IH]; intros r0; cbv zeta.
  - simpl. split; [auto|]. intros s. split; [auto | intros [H|(f & [] & _)]; exact H].
  - simpl fold_left. destruct (IH (add_facility f r0)) as [Hnd Hin].
    destruct (fold_set_add (get_default (fac_specialties f) []) (specialties r0))
      as [Hnd0 Hin0].
    cbv zeta in Hnd0, Hin0. split.
    + intros H. apply Hnd. unfold add_facility. cbn [specialties]. now apply Hnd0.
    + intros s. rewrite Hin. unfold add_facility at 1. cbn [specialties].
      rewrite Hin0. split.
      * intros [[H|H]|(g & Hg & Hs)]; auto.
        -- right. exists f. split; [now left | exact H].
        -- right. exists g. split; [now right | exact Hs].
      * intros [H|(g & [<-|Hg] & Hs)]; auto.
        right. exists g. auto.
Qed.

(** What an entry of the analysis says of the facilities of its region. *)
Definition summarises (d : RegionData) (fs : list Facility) : Prop :=
  fs <> []
  /\ Forall (fun f => fac_region f = region d) fs
  /\ facilities d = map fac_name fs
  /\ total_beds d = sum_of (fun f => get_default (fac_beds f) 0) fs
  /\ total_staff d = sum_of (fun f => get_default (fac_staff_count f) 0) fs.

Definition flags_tell (d : RegionData) (fs : list Facility) : Prop :=
  has_surgery d = existsb (offers "Surgery") fs
  /\ has_icu d = existsb (offers "ICU") fs
  /\ has_blood_bank d = existsb (offers "Blood Bank") fs
  /\ has_ct_mri d
     = existsb (fun f => equipped_with "CT Scanner" f || equipped_with "MRI" f) fs
  /\ NoDup (specialties d)
  /\ forall s, In s (specialties d)
               <-> exists f, In f fs /\ In s (get_default (fac_specialties f) []).

Lemma of_region_nonempty (k : string) (seen : list Facility) (f : Facility) :
  In f seen -> fac_region f = k -> of_region k seen <> [].
Proof.
  intros Hin Hk Hnil. assert (Hf : In f (of_region k seen)).
  { apply filter_In. split; [exact Hin | now apply String.eqb_eq]. }
  rewrite Hnil in Hf. contradiction.
Qed.

Lemma deserts_entry (w : World) (d : RegionData) :
  In d (sort_by_score_desc (scored_regions (db_facilities w))) ->
  let fs := of_region (region d) (firstn 5000 (db_facilities w)) in
  d = score_region (summary (region d) fs) /\ fs <> [].
Proof.
  intros Hd. apply scored_regions_entry in Hd as (k & Hin & ->).
  cbn [score_region region]. rewrite summary_region. split; [reflexivity|].
  destruct (summarised_all (firstn 5000 (db_facilities w))) as (_ & _ & Horigin).
  destruct (Horigin k) as (f & Hf & Hk).
  { apply in_map_iff. now exists (k, summary k (of_region k (firstn 5000 (db_facilities w)))). }
  exact (of_region_nonempty k _ f Hf Hk).
Qed.

(** Every entry of the analysis summarises its own region.  For each
    entry, the facilities read whose region is the entry's, in the order
    read, are not empty; [facilities] lists their names in that order, and
    [total_beds] and [total_staff] are the sums of their beds and staff, a
    missing count taken as zero.  The entry has surgery, an intensive-care
    unit or a blood bank exactly when one of these facilities lists that
    service, it has a scanner exactly when one lists a CT scanner or an MRI
    among its equipment, and its specialties are the specialties of these
    facilities, each once. *)
Theorem desert_entry_summarises_its_region (w : World) :
  exists deserts,
    get_medical_deserts w = (Return deserts, w)
    /\ Forall (fun d =>
                 let fs := of_region (region d) (firstn 5000 (db_facilities w)) in
                 summarises d fs /\ flags_tell d fs)
              deserts.
Proof.
  eexists. split; [reflexivity|]. apply Forall_forall. intros d Hd. cbv zeta.
  destruct (deserts_entry w d Hd) as [Hentry Hne].
  set (fs := of_region (region d) (firstn 5000 (db_facilities w))) in *.
  destruct (fold_add_facility fs (new_region (region d)))
    as (a & b & c & a' & b' & c' & e').
  destruct (fold_add_facility_specialties fs (new_region (region d))) as [Hnd Hin].
  fold (summary (region d) fs) in a, b, c, a', b', c', e', Hnd, Hin.
  simpl in a, b, c, a', b', c', e', Hnd, Hin.
  split.
  - split; [exact Hne|]. split.
    { apply Forall_forall. intros f Hf. apply filter_In in Hf as [_ Heq].
      now apply String.eqb_eq. }
    rewrite Hentry. cbn [score_region facilities total_beds total_staff].
    rewrite a, b, c. repeat split; lia.
  - rewrite Hentry. unfold flags_tell.
    cbn [score_region has_surgery has_icu has_blood_bank has_ct_mri specialties].
    split; [exact a'|]. split; [exact b'|]. split; [exact c'|]. split; [exact e'|].
    split; [apply Hnd; constructor|].
    intros s0. rewrite Hin. split; [intros [[]|H]; exact H | auto].
Qed.

(** [is_desert] agrees with the score and with the label: an entry is a
    desert exactly when its [desert_score] is at least 40, that is when its
    severity is "Critical" or "Moderate" and not "Adequate". *)
Theorem is_desert_agrees_with_score_and_severity (w : World) :
  exists deserts,
    get_medical_deserts w = (Return deserts, w)
    /\ Forall (fun d =>
                 is_desert d = Some (40 <=? desert_score d)
                 /\ (is_desert d = Some true
                     <-> severity d = Some "Critical" \/ severity d = Some "Moderate")
                 /\ (is_desert d = Some false <-> severity d = Some "Adequate"))
              deserts.
Proof.
  eexists. split; [reflexivity|]. apply Forall_forall. intros d Hd.
  apply (Permutation_in _ (sort_by_score_desc_perm _)) in Hd.
  unfold scored_regions in Hd. apply in_map_iff in Hd as ([k r] & <- & _).
  cbn [snd score_region is_desert desert_score severity].
  generalize (region_score r). intros score. unfold severity_label.
  destruct (Z.leb_spec 40 score) as [L1|L1],
           (Z.leb_spec 40 (Z.min score 100)) as [L2|L2]; try lia;
    destruct (Z.leb_spec 60 score) as [L3|L3]; try lia;
    (split; [reflexivity|]);
    (split; split; intros H);
    try reflexivity; try (destruct H as [H|H]); try discriminate H;
    try (left; reflexivity); try (right; reflexivity).
Qed.


(** ** Corpus statistics *)

(** The sum of [g] over the entries of a list of regions. *)
Definition total (g : RegionData -> Z) (ds : list RegionData) : Z :=
  fold_right (fun d acc => g d + acc) 0 ds.

Lemma total_perm (g : RegionData -> Z) (l l' : list RegionData) :
  Permutation l l' -> total g l = total g l'.
Proof. induction 1; simpl; lia. Qed.

Lemma total_app (g : RegionData -> Z) (l l' : list RegionData) :
  total g (l ++ l') = total g l + total g l'.
Proof. induction l as [|d l IH]; simpl; lia. Qed.

Lemma total_map (g : RegionData -> Z) (f : RegionData -> RegionData)
    (l : list RegionData) :
  (forall d, g (f d) = g d) -> total g (map f l) = total g l.
Proof. intros H. induction l as [|d l IH]; simpl; [reflexivity|]. rewrite H. lia. Qed.

Lemma update_entry_total (g : RegionData -> Z) (f : RegionData -> RegionData)
    (delta : Z) (key : string) (regions : list (string * RegionData)) :
  (forall r, g (f r) = g r + delta) ->
  In key (map fst regions) ->
  total g (map snd (update_entry key f regions))
  = total g (map snd regions) + delta.
Proof.
  intros Hf. induction regions as [|[k r] rest IH]; simpl; intros Hin;
    [contradiction|].
  destruct (String.eqb_spec k key) as [->|Hne]; simpl.
  - rewrite Hf. lia.
  - destruct Hin as [Heq|Hin]; [contradiction|]. rewrite (IH Hin). lia.
Qed.

Section Measure.

(** A quantity [g] of an entry to which every facility of the region adds
    [h]. *)
Variable g : RegionData -> Z.
Variable h : Facility -> Z.
Hypothesis g_new : forall k, g (new_region k) = 0.
Hypothesis g_add : forall fac r, g (add_facility fac r) = g r + h fac.

Lemma aggregate_total (regions : list (string * RegionData)) (fac : Facility) :
  total g (map snd (aggregate regions fac))
  = total g (map snd regions) + h fac.
Proof.
  unfold aggregate. destruct (has_key (fac_region fac) regions) eqn:Hk.
  - apply update_entry_total; [apply g_add | now apply has_key_In].
  - rewrite (update_entry_total g _ (h fac)); [|apply g_add|].
    + rewrite map_app, total_app. simpl. rewrite g_new. lia.
    + rewrite map_app. apply in_app_iff. right. now left.
Qed.

Lemma fold_aggregate_total (fs : list Facility) :
  forall regions,
    total g (map snd (fold_left aggregate fs regions))
    = total g (map snd regions) + sum_of h fs.
Proof.
  induction fs as [|f fs IH]; intros regions; simpl.
  - unfold sum_of. simpl. lia.
  - rewrite IH, aggregate_total, sum_of_cons. lia.
Qed.

Hypothesis g_score : forall r, g (score_region r) = g r.

Lemma deserts_total (coll : list Facility) :
  total g (sort_by_score_desc (scored_regions coll))
  = sum_of h (firstn 5000 coll).
Proof.
  rewrite (total_perm g _ _ (sort_by_score_desc_perm _)). unfold scored_regions.
  rewrite <- (map_map snd score_region), (total_map g score_region _ g_score).
  rewrite fold_aggregate_total. simpl. lia.
Qed.

End Measure.

Lemma has_key_str_in (key : string) (regions : list (string * RegionData)) :
  has_key key regions = str_in key (map fst regions).
Proof.
  unfold has_key, str_in. induction regions as [|[k r] rest IH]; simpl;
    [reflexivity|].
  now rewrite IH, String.eqb_sym.
Qed.

Lemma aggregate_keys (regions : list (string * RegionData)) (fac : Facility) :
  map fst (aggregate regions fac) = set_add (fac_region fac) (map fst regions).
Proof.
  unfold aggregate, set_add. rewrite update_entry_keys, has_key_str_in.
  destruct (str_in (fac_region fac) (map fst regions)); [reflexivity|].
  now rewrite map_app.
Qed.

Lemma fold_aggregate_keys (fs : list Facility) :
  forall regions,
    map fst (fold_left aggregate fs regions)
    = fold_left (fun set f => set_add (fac_region f) set) fs (map fst regions).
Proof.
  induction fs as [|f fs IH]; intros regions; simpl; [reflexivity|].
  now rewrite IH, aggregate_keys.
Qed.

Lemma sum_of_ones (fs : list Facility) :
  sum_of (fun _ => 1) fs = Z.of_nat (List.length fs).
Proof.
  induction fs as [|f fs IH]; [reflexivity|].
  rewrite sum_of_cons, IH. simpl List.length. lia.
Qed.

(** The statistics agree with the desert analysis of the same store.  The
    number of regions [get_stats] reports is the number of entries
    [get_medical_deserts] returns, its bed and staff totals are the sums of
    the totals of the entries, and its number of facilities is the number
    of facility names the entries list. *)
Theorem stats_agree_with_the_desert_analysis (w : World) :
  exists stats deserts,
    get_stats w = (Return stats, w)
    /\ get_medical_deserts w = (Return deserts, w)
    /\ st_total_regions stats = Z.of_nat (List.length deserts)
    /\ st_total_beds stats = total total_beds deserts
    /\ st_total_staff stats = total total_staff deserts
    /\ st_total_facilities stats
       = total (fun d => Z.of_nat (List.length (facilities d))) deserts.
Proof.
  eexists. eexists. split; [reflexivity|]. split; [reflexivity|].
  cbn [st_total_regions st_total_beds st_total_staff st_total_facilities].
  set (read := firstn 5000 (db_facilities w)).
  split; [|split; [|split]].
  - rewrite (Permutation_length (sort_by_score_desc_perm _)).
    unfold scored_regions. fold read. rewrite length_map.
    rewrite <- (length_map fst), fold_aggregate_keys. reflexivity.
  - symmetry. apply (deserts_total total_beds); auto.
  - symmetry. apply (deserts_total total_staff); auto.
  - transitivity (sum_of (fun _ => 1) read); [now rewrite sum_of_ones|].
    symmetry.
    apply (deserts_total (fun d => Z.of_nat (List.length (facilities d)))
                         (fun _ => 1)); auto.
    intros fac r. unfold add_facility. cbn [facilities].
    rewrite length_app. simpl. lia.
Qed.

Lemma sum_of_le (a b : Facility -> Z) (fs : list Facility) :
  (forall f, a f <= b f) -> sum_of a fs <= sum_of b fs.
Proof.
  intros H. induction fs as [|f fs IH]; [reflexivity|].
  rewrite !sum_of_cons. specialize (H f). lia.
Qed.

Lemma sum_of_plus (a b : Facility -> Z) (fs : list Facility) :
  sum_of (fun f => a f + b f) fs = sum_of a fs + sum_of b fs.
Proof.
  induction fs as [|f fs IH]; [reflexivity|]. rewrite !sum_of_cons, IH. lia.
Qed.

Lemma count_if_bounds (test : Facility -> bool) (fs : list Facility) :
  0 <= count_if test fs <= Z.of_nat (List.length fs).
Proof.
  unfold count_if. rewrite <- sum_of_ones. split.
  - induction fs as [|f fs IH]; [reflexivity|].
    rewrite sum_of_cons. destruct (test f); lia.
  - apply sum_of_le. intros f. destruct (test f); lia.
Qed.

Lemma length_fold_set_add {A} (key : A -> string) (xs : list A) :
  forall set,
    (List.length (fold_left (fun set x => set_add (key x) set) xs set)
     <= List.length set + List.length xs)%nat.
Proof.
  induction xs as [|x xs IH]; intros set; simpl; [lia|].
  specialize (IH (set_add (key x) set)). unfold set_add in *.
  destruct (str_in (key x) set); [lia|].
  rewrite length_app in IH. simpl in IH. lia.
Qed.

(** The counts of [get_stats] are counts of the facilities read.  No more
    than 5000 facilities are counted; the number of regions, the number of
    facilities flagged as medical deserts and each of the four counts by
    type lie between zero and the number of facilities, and the four
    counts by type together do not exceed it, a facility having one type. *)
Theorem stats_counts_are_bounded (w : World) :
  exists stats,
    get_stats w = (Return stats, w)
    /\ 0 <= st_total_facilities stats <= 5000
    /\ 0 <= st_total_regions stats <= st_total_facilities stats
    /\ 0 <= st_medical_deserts stats <= st_total_facilities stats
    /\ map fst (st_types stats)
       = ["Teaching Hospital"; "Regional Hospital"; "District Hospital";
          "Health Centre"]
    /\ Forall (fun tc => 0 <= snd tc <= st_total_facilities stats) (st_types stats)
    /\ fold_right Z.add 0 (map snd (st_types stats)) <= st_total_facilities stats.
Proof.
  eexists. split; [reflexivity|].
  cbn [st_total_facilities st_total_regions st_medical_deserts st_types].
  set (read := firstn 5000 (db_facilities w)).
  assert (Hread : (List.length read <= 5000)%nat) by apply firstn_le_length.
  split; [lia|]. split.
  { pose proof (length_fold_set_add fac_region read []) as H. simpl in H. lia. }
  split; [apply count_if_bounds|]. split; [reflexivity|]. split.
  { repeat constructor; apply count_if_bounds. }
  cbn [map snd fold_right]. unfold count_if. rewrite Z.add_0_r.
  rewrite <- !sum_of_plus, <- sum_of_ones. apply sum_of_le. intros f.
  destruct (String.eqb_spec (fac_type f) "Teaching Hospital") as [E1|E1];
    destruct (String.eqb_spec (fac_type f) "Regional Hospital") as [E2|E2];
    destruct (String.eqb_spec (fac_type f) "District Hospital") as [E3|E3];
    destruct (String.eqb_spec (fac_type f) "Health Centre") as [E4|E4];
    try lia; congruence.
Qed.


(** ** Text2SQL: what the endpoint reports and what it leaves *)

Section Text2SQLFailures.

Variable X : Collab.

Lemma benign_raise {A} (e : exn) : benign (@raise A e).
Proof. intros w. exists (Raise e), w. split; [reflexivity | apply same_data_refl]. Qed.

Lemma benign_get {A} (f : World -> A) : benign (get f).
Proof. intros w. exists (Return (f w)), w. split; [reflexivity | apply same_data_refl]. Qed.

Lemma benign_inv {A} (m : M A) (w w' : World) (o : outcome A) :
  benign m -> m w = (o, w') -> same_data w w'.
Proof.
  intros H E. destruct (H w) as (o0 & w0 & E0 & D). rewrite E0 in E.
  now injection E as _ <-.
Qed.

Lemma benign_text_to_mongo_query (natural_query : string) :
  benign (text_to_mongo_query X natural_query).
Proof.
  unfold text_to_mongo_query.
  apply benign_bind; [apply calm_benign, calm_uuid4 | intros h].
  apply benign_bind; [apply benign_lift | intros text].
  destruct (json_loads X (strip_fence text)); [apply benign_ret | apply benign_raise].
Qed.

Lemma benign_text2sql_try (req : Text2SQLRequest) : benign (text2sql_try X req).
Proof.
  unfold text2sql_try.
  apply benign_bind; [apply calm_benign, calm_text2sql_start | intros _].
  apply benign_bind; [apply calm_benign, calm_time_now | intros t0].
  apply benign_bind; [apply benign_text_to_mongo_query | intros query_spec].
  apply benign_bind; [apply calm_benign, calm_time_now | intros t]. cbv zeta.
  apply benign_bind; [apply benign_lift | intros mongo_filter].
  apply benign_bind; [apply benign_lift | intros projection].
  apply benign_bind; [apply benign_lift | intros has_id].
  apply benign_bind;
    [destruct has_id; [apply benign_ret | apply benign_lift] | intros projection'].
  apply benign_bind; [apply benign_lift | intros sort_spec].
  apply benign_bind; [apply benign_lift | intros limit].
  apply benign_bind; [apply benign_lift | intros explanation0].
  apply benign_bind; [apply benign_get | intros coll].
  apply benign_bind; [apply benign_lift | intros cursor].
  apply benign_bind.
  { destruct (py_truthy sort_spec); [|apply benign_ret].
    apply benign_bind; [apply benign_lift | intros keys]. apply benign_lift. }
  intros cursor'.
  apply benign_bind; [apply benign_lift | intros rows].
  apply benign_bind.
  { apply benign_try_except; [|intros e; apply calm_benign, calm_end_run].
    unfold mlflow_log_metric, mlflow_log_param, mlflow_end_run.
    repeat (apply benign_bind; [apply benign_call_unit | intros _]).
    apply benign_call_unit. }
  intros _.
  apply benign_bind; [apply benign_lift | intros mongo_query0].
  apply benign_bind; [apply benign_lift | intros explanation1].
  apply benign_ret.
Qed.

(** [text2sql_endpoint] only reads.  Whatever the provider answers and
    whatever comes of the query, the request ends with the index, the
    facilities and the chat history as they were. *)
Theorem text2sql_endpoint_only_reads (req : Text2SQLRequest) (w : World) :
  exists o w', text2sql_endpoint X req w = (o, w') /\ same_data w w'.
Proof.
  revert w. change (benign (text2sql_endpoint X req)).
  apply (benign_try_except (text2sql_try X req)).
  - apply benign_text2sql_try.
  - intros e. destruct (is_JSONDecodeError e);
      (apply benign_bind; [apply calm_benign, calm_end_run | intros _]);
      apply benign_raise.
Qed.

Lemma text2sql_handler (e : exn) (w : World) :
  exists w',
    (if is_JSONDecodeError e
     then try_pass (mlflow_end_run X) ;;; raise (HTTPException 422 parse_failure_detail)
     else try_pass (mlflow_end_run X) ;;;
          raise (HTTPException 500 ("Text2SQL error: " ++ str_exn e))) w
    = (@Raise Text2SQLResponse
         (if is_JSONDecodeError e then HTTPException 422 parse_failure_detail
          else HTTPException 500 ("Text2SQL error: " ++ str_exn e)), w')
    /\ same_data w w'.
Proof.
  destruct (calm_end_run X w) as (u & w1 & E & D). exists w1.
  split; [|exact D]. destruct (is_JSONDecodeError e); unfold bind; now rewrite E.
Qed.

(** The two errors of [text2sql_endpoint].  Every failure of the endpoint
    is an HTTP error: 422 with the suggestion to rephrase when the cause is
    a [JSONDecodeError], and otherwise 500 with a detail that quotes the
    cause.  No exception of the provider, of the store or of validation
    leaves the endpoint as it is. *)
Theorem text2sql_failures_are_422_or_500
    (req : Text2SQLRequest) (w w' : World) (e : exn)
    (Hrun : text2sql_endpoint X req w = (Raise e, w')) :
  exists cause w1,
    text2sql_try X req w = (Raise cause, w1)
    /\ (is_JSONDecodeError cause = true
        /\ e = HTTPException 422
                 "Failed to parse LLM response into MongoDB query. Try rephrasing."
        \/ is_JSONDecodeError cause = false
           /\ e = HTTPException 500 ("Text2SQL error: " ++ str_exn cause)).
Proof.
  unfold text2sql_endpoint, try_except in Hrun.
  destruct (text2sql_try X req w) as [[resp|cause] w1]; [discriminate|].
  cbn [any_Exception] in Hrun.
  destruct (text2sql_handler cause w1) as (w2 & E & _). rewrite E in Hrun.
  injection Hrun as <- _. exists cause, w1. split; [reflexivity|].
  destruct (is_JSONDecodeError cause); [left | right]; auto.
Qed.

(** A failure of the provider is reported as a server error.  When the
    provider raises on the translation prompt, the endpoint raises the
    HTTP error 500 with the provider's message, unless the exception is a
    [JSONDecodeError], which the endpoint reports as the parse failure
    422.  No query is run and the data is as it was. *)
Theorem text2sql_reports_a_provider_failure
    (req : Text2SQLRequest) (w : World) (cls : exn_class) (msg : string)
    (Hraises : forall label system,
       send_message X label system (text2sql_prompt (query req))
       = Raise (PyExc cls msg)) :
  exists w',
    text2sql_endpoint X req w
    = (Raise (match cls with
              | JSONDecodeError =>
                  HTTPException 422
                    "Failed to parse LLM response into MongoDB query. Try rephrasing."
              | _ => HTTPException 500 ("Text2SQL error: " ++ msg)
              end), w')
    /\ same_data w w'.
Proof.
  destruct (calm_text2sql_start X req w) as (u & w1 & E1 & D1).
  assert (Htry : text2sql_try X req w
                 = (Raise (PyExc cls msg), tick_uuid (tick_clock w1))).
  { unfold text2sql_try. unfold bind at 1. rewrite E1.
    unfold bind at 1. unfold time_now at 1. unfold bind at 1.
    unfold text_to_mongo_query. unfold bind at 1. unfold uuid4 at 1.
    unfold bind at 1. unfold lift at 1. now rewrite Hraises. }
  destruct (text2sql_handler (PyExc cls msg) (tick_uuid (tick_clock w1)))
    as (w2 & E2 & D2).
  exists w2. split.
  - unfold text2sql_endpoint, try_except. rewrite Htry. cbn [any_Exception].
    rewrite E2. destruct cls; reflexivity.
  - eapply same_data_trans; [exact D1|]. eapply same_data_trans; [|exact D2].
    repeat split; simpl; auto.
Qed.

End Text2SQLFailures.


(** ** Text2SQL: a translation that can be run *)

(** [query_spec.get(key, default)] on the entries of the translated query. *)
Definition given (key : string) (default : JSON) (entries : list (string * JSON))
    : JSON :=
  match dict_lookup key entries with
  | Some v => v
  | None => default
  end.

(** The projection passed to [find]: the one given, with [_id: 0] added
    when it says nothing of [_id]. *)
Definition with_id (fields : list (string * JSON)) : list (string * JSON) :=
  match dict_lookup "_id" fields with
  | Some _ => fields
  | None => dict_set "_id" (JInt 0) fields
  end.

Lemma dict_lookup_set (key : string) (v : JSON) (entries : list (string * JSON)) :
  dict_lookup key (dict_set key v entries) = Some v.
Proof.
  induction entries as [|[k v0] rest IH]; simpl.
  - now rewrite String.eqb_refl.
  - destruct (String.eqb k key) eqn:Hk; simpl; now rewrite Hk.
Qed.

Lemma with_id_has_id (fields : list (string * JSON)) :
  exists v, dict_lookup "_id" (with_id fields) = Some v.
Proof.
  unfold with_id. destruct (dict_lookup "_id" fields) as [v|] eqn:H; [eauto|].
  rewrite dict_lookup_set. eauto.
Qed.

Section Text2SQLRuns.

Variable X : Collab.

Lemma wp_lift {A} (o : outcome A) (a : A) (w : World) :
  o = Return a -> wp (lift o) w (fun a' w' => a' = a /\ w' = w).
Proof. intros ->. exists a, w. repeat split. Qed.

Lemma wp_ret_eq {A} (a : A) (w : World) :
  wp (ret a) w (fun a' w' => a' = a /\ w' = w).
Proof. exists a, w. repeat split. Qed.

Lemma calm_text2sql_log (mongo_filter : JSON) :
  calm (try_except
          (mlflow_log_metric X "text2sql_latency_ms" ;;;
           mlflow_log_metric X "result_count" ;;;
           mlflow_log_param X "mongo_filter"
             (slice_to 250 (json_dumps X mongo_filter)) ;;;
           mlflow_end_run X)
          any_Exception
          (fun _ => try_pass (mlflow_end_run X))).
Proof.
  apply calm_try_except; [|intros e; apply calm_end_run].
  unfold mlflow_log_metric, mlflow_log_param, mlflow_end_run.
  repeat (apply benign_bind; [apply benign_call_unit | intros _]).
  apply benign_call_unit.
Qed.

Tactic Notation "run" uconstr(lemma) :=
  apply wp_bind; eapply wp_conseq; [eapply lemma | cbv beta].

(** A translation that can be run is run as translated.  The provider's
    answer parses to an object whose [projection], when given, is an
    object, whose [sort] is absent or empty and whose [limit], 20 when
    absent, is an integer [n] that is not negative.  Then the endpoint
    queries the store once, with the filter of the translation, the empty
    filter when it has none, and with its projection, to which [_id: 0] is
    added when it does not mention [_id]; it returns the first
    [min(n, 50)] documents of the cursor and their number, and leaves the
    data as it was. *)
Theorem text2sql_runs_a_well_formed_translation
    (req : Text2SQLRequest) (w : World) (text : string)
    (entries fields q : list (string * JSON)) (n : Z) (docs : list JSON)
    (ex : string)
    (Hsend : forall label system,
       send_message X label system (text2sql_prompt (query req)) = Return text)
    (Hparsed : json_loads X (strip_fence text) = Some (JDict entries))
    (Hprojection : given "projection" (JDict [("_id", JInt 0)]) entries
                   = JDict fields)
    (Hsort : py_truthy (given "sort" JNull entries) = false)
    (Hlimit : given "limit" (JInt 20) entries = JInt n)
    (Hn : 0 <= n)
    (Hfind : mongo_find X (given "filter" (JDict []) entries)
                        (JDict (with_id fields)) (db_facilities w)
             = Return docs)
    (Hq : validate_dict X (given "filter" (JDict []) entries) = Return q)
    (Hex : validate_str X (given "explanation" (JStr "") entries) = Return ex) :
  let rows := firstn (Z.to_nat (Z.min n 50)) docs in
  exists w',
    text2sql_endpoint X req w
    = (Return (mkText2SQLResponse (query req) q rows
                                  (Z.of_nat (List.length rows)) ex), w')
    /\ same_data w w'
    /\ py_in "_id" (JDict (with_id fields)) = Return true.
Proof.
  intros rows.
  assert (Htry : wp (text2sql_try X req) w
                    (fun resp _ =>
                       resp = mkText2SQLResponse (query req) q rows
                                (Z.of_nat (List.length rows)) ex)).
  { unfold text2sql_try.
    run wp_calm; [apply calm_text2sql_start|]. intros _ w1 D1.
    run wp_calm; [apply calm_time_now|]. intros t0 w2 D2.
    apply wp_bind. exists (JDict entries), (tick_uuid w2). split.
    { rewrite (text_to_mongo_query_answer X _ _ _ Hsend), Hparsed. reflexivity. }
    run wp_calm; [apply calm_time_now|]. intros t w3 D3. cbv zeta.
    run wp_lift; [reflexivity|]. intros mongo_filter w4 [-> ->].
    run wp_lift; [reflexivity|]. intros projection w4 [-> ->].
    fold (given "filter" (JDict []) entries).
    fold (given "projection" (JDict [("_id", JInt 0)]) entries).
    rewrite Hprojection.
    run wp_lift; [reflexivity|]. intros has_id w4 [-> ->].
    apply wp_bind. exists (JDict (with_id fields)), w3. split.
    { unfold with_id. destruct (dict_lookup "_id" fields); reflexivity. }
    run wp_lift; [reflexivity|]. intros sort_spec w4 [-> ->].
    fold (given "sort" JNull entries).
    run wp_lift.
    { unfold row_limit, py_get. fold (given "limit" (JInt 20) entries).
      rewrite Hlimit. reflexivity. }
    intros limit w4 [-> ->].
    run wp_lift; [reflexivity|]. intros explanation0 w4 [-> ->].
    fold (given "explanation" (JStr "") entries).
    run wp_get. intros coll w4 [-> ->].
    assert (Hdb : db_facilities w3 = db_facilities w).
    { assert (D : same_data w w3).
      { eapply same_data_trans; [exact D1|]. eapply same_data_trans; [exact D2|].
        eapply same_data_trans; [|exact D3]. repeat split; simpl; auto. }
      now destruct D as (_ & _ & _ & Hdb & _). }
    rewrite Hdb.
    run wp_lift; [exact Hfind|]. intros cursor w4 [-> ->].
    rewrite Hsort.
    run wp_ret_eq. intros cursor w4 [-> ->].
    run (wp_lift _ (firstn (Z.to_nat (if 50 <? n then 50 else n)) docs)).
    { unfold to_list. destruct (50 <? n) eqn:Hcap.
      - reflexivity.
      - destruct (Z.ltb_spec n 0); [lia | reflexivity]. }
    intros results0 w4 [-> ->].
    run wp_calm; [apply calm_text2sql_log|]. intros _ w5 D5.
    run wp_lift; [exact Hq|]. intros mongo_query0 w6 [-> ->].
    run wp_lift; [exact Hex|]. intros explanation1 w6 [-> ->].
    apply wp_ret. subst rows.
    replace (Z.to_nat (Z.min n 50)) with (Z.to_nat (if 50 <? n then 50 else n)).
    - destruct (50 <? n); reflexivity.
    - destruct (Z.ltb_spec 50 n); f_equal; lia. }
  destruct Htry as (resp & w' & Hrun & ->).
  exists w'. split; [|split].
  - unfold text2sql_endpoint, try_except. now rewrite Hrun.
  - apply (benign_inv _ _ _ _ (benign_text2sql_try X req) Hrun).
  - destruct (with_id_has_id fields) as [v Hv]. simpl. now rewrite Hv.
Qed.

End Text2SQLRuns.


(** ** Text2SQL: the clean-up of the provider's answer *)

(** [s] does not begin with white space. *)
Definition starts_clean (s : string) : Prop :=
  match s with
  | String c _ => is_space c = false
  | EmptyString => True
  end.

Lemma lstrip_clean (s : string) : starts_clean (lstrip s).
Proof.
  induction s as [|c s IH]; simpl; [exact I|].
  destruct (is_space c) eqn:Hc; [exact IH | exact Hc].
Qed.

Lemma lstrip_id (s : string) : starts_clean s -> lstrip s = s.
Proof. destruct s as [|c s]; simpl; [reflexivity|]. now intros ->. Qed.

Lemma rstrip_clean (s : string) : starts_clean s -> starts_clean (rstrip s).
Proof.
  destruct s as [|c s]; simpl; [auto|]. intros Hc.
  destruct (rstrip s); [rewrite Hc|]; exact Hc.
Qed.

Lemma rstrip_idem (s : string) : rstrip (rstrip s) = rstrip s.
Proof.
  induction s as [|c s IH]; [reflexivity|]. cbn [rstrip].
  destruct (rstrip s) as [|c' r'] eqn:E.
  - destruct (is_space c) eqn:Hc; [reflexivity|]. cbn [rstrip]. now rewrite Hc.
  - change (rstrip (String c (String c' r')))
      with (match rstrip (String c' r') with
            | EmptyString => if is_space c then EmptyString else String c EmptyString
            | String a b => String c (String a b)
            end).
    now rewrite IH.
Qed.

Lemma strip_idem (s : string) : strip (strip s) = strip s.
Proof.
  unfold strip.
  rewrite (lstrip_id (rstrip (lstrip s))) by apply rstrip_clean, lstrip_clean.
  apply rstrip_idem.
Qed.

(** An answer without a code fence is only stripped of the white space
    around it. *)
Theorem strip_fence_leaves_an_unfenced_answer (text : string)
    (Hplain : prefix "```" (strip text) = false) :
  strip_fence text = strip text.
Proof. unfold strip_fence. cbv zeta. rewrite Hplain. apply strip_idem. Qed.

Lemma prefix_empty (s : string) : prefix "" s = true.
Proof. now destruct s. Qed.

Lemma append_empty_r (s : string) : s ++ "" = s.
Proof. induction s as [|c s IH]; simpl; [reflexivity | now rewrite IH]. Qed.

Lemma append_assoc (s1 s2 s3 : string) : (s1 ++ s2) ++ s3 = s1 ++ s2 ++ s3.
Proof. induction s1 as [|c s1 IH]; simpl; [reflexivity | now rewrite IH]. Qed.

Lemma split_at_fence (cur tail : string) :
  split_from "```" 0 cur ("```" ++ tail) = cur :: split_from "```" 0 "" tail.
Proof. cbn. now rewrite prefix_empty. Qed.

Lemma split_before_fence (body : string) :
  contains "`" body = false ->
  forall cur tail,
    split_from "```" 0 cur (body ++ "```" ++ tail)
    = (cur ++ body) :: split_from "```" 0 "" tail.
Proof.
  induction body as [|c body IH]; intros Hnone cur tail.
  - rewrite append_empty_r. apply split_at_fence.
  - cbn [contains] in Hnone. apply orb_false_iff in Hnone as [Hc Hrest].
    cbn [prefix] in Hc. cbn [append split_from prefix].
    destruct (ascii_dec "`" c) as [Heq|Hne].
    + rewrite prefix_empty in Hc. discriminate.
    + change (String "`" (String "`" (String "`" tail))) with ("```" ++ tail).
      rewrite (IH Hrest). now rewrite append_assoc.
Qed.

Lemma substring_all (s : string) : substring 0 (String.length s) s = s.
Proof. induction s as [|c s IH]; simpl; [reflexivity | now rewrite IH]. Qed.

(** An answer in a [json] code fence is unwrapped.  When the answer,
    white space apart, is a fence opened with [```json], a body without a
    backquote and the closing fence, then what is parsed is the body,
    stripped; what follows the closing fence is dropped. *)
Theorem strip_fence_unwraps_a_fenced_answer (text body rest : string)
    (Hbody : contains "`" body = false)
    (Hfenced : strip text = "```json" ++ body ++ "```" ++ rest) :
  strip_fence text = strip body.
Proof.
  unfold strip_fence. cbv zeta. rewrite Hfenced.
  replace (prefix "```" ("```json" ++ body ++ "```" ++ rest)) with true
    by reflexivity.
  unfold split.
  change ("```json" ++ body ++ "```" ++ rest)
    with ("```" ++ ("json" ++ body) ++ "```" ++ rest).
  rewrite (split_at_fence "" (("json" ++ body) ++ "```" ++ rest)).
  rewrite (split_before_fence ("json" ++ body)) by exact Hbody.
  cbn [nth]. change ("" ++ "json" ++ body) with ("json" ++ body).
  replace (prefix "json" ("json" ++ body)) with true
    by (cbn; now rewrite prefix_empty).
  unfold slice_from. f_equal.
  cbn [append String.length substring Nat.sub]. rewrite Nat.sub_0_r.
  apply substring_all.
Qed.


(** ** The notes of the data file and the deserts the server counts *)

Definition northern (region : string) : bool := str_in region NORTHERN_REGIONS.

Definition small_type (ftype : string) : bool :=
  str_in ftype ["CHPS"; "CPHS"; "Clinic"; "clinic"; "RCH"; "Health Centre"].

(** The facilities [generate_notes] marks: those of a northern region that
    are of a small type or have fewer than 50 beds. *)
Definition marked_desert (ftype region : string) (beds : option Z) : bool :=
  northern region && (small_type ftype || (get_default beds 0 <? 50)).

Lemma generate_notes_marks (fac_data : FacData) :
  contains "MEDICAL DESERT" (generate_notes fac_data)
  = marked_desert (fd_type fac_data) (fd_region fac_data) (fd_beds fac_data).
Proof.
  unfold generate_notes, marked_desert, northern, small_type. cbv zeta.
  destruct (str_in (fd_region fac_data) NORTHERN_REGIONS),
           (str_in (fd_type fac_data)
                   ["CHPS"; "CPHS"; "Clinic"; "clinic"; "RCH"; "Health Centre"]),
           (get_default (fd_beds fac_data) 0 <? 50),
           (get_default (fd_beds fac_data) 0 <? 20),
           (str_in (fd_type fac_data) ["Teaching Hospital"; "Regional Hospital"]),
           (str_in (fd_ownership fac_data) ["CHAG"; "Mission"]),
           (String.eqb (fd_ownership fac_data) "Private");
    reflexivity.
Qed.

Lemma count_if_ext (p q : Facility -> bool) (fs : list Facility) :
  Forall (fun f => p f = q f) fs -> count_if p fs = count_if q fs.
Proof.
  unfold count_if. induction 1 as [|f fs Hf _ IH]; [reflexivity|].
  rewrite !sum_of_cons, IH, Hf. reflexivity.
Qed.

(** The server counts the deserts the data script marked.  When the notes
    of every facility read are the ones [generate_notes] computes from its
    type, region and beds, whatever its ownership, the [medical_deserts] of
    [get_stats] is the number of facilities of a northern region that are
    of a small type or have fewer than 50 beds: the other notes the script
    writes never count. *)
Theorem stats_count_the_deserts_marked_by_generate_notes (w : World)
    (Hnotes : Forall (fun f =>
                 exists ownership,
                   fac_notes f
                   = generate_notes (mkFacData (fac_type f) (fac_region f)
                                               ownership (fac_beds f)))
              (firstn 5000 (db_facilities w))) :
  exists stats,
    get_stats w = (Return stats, w)
    /\ st_medical_deserts stats
       = count_if (fun f => marked_desert (fac_type f) (fac_region f) (fac_beds f))
                  (firstn 5000 (db_facilities w)).
Proof.
  eexists. split; [reflexivity|]. cbn [st_medical_deserts].
  apply count_if_ext. eapply Forall_impl; [|exact Hnotes].
  intros f (ownership & ->). apply generate_notes_marks.
Qed.


(** ** Authentication: who is let in, and what logging out revokes *)

Lemma truthy_some (s : option string) :
  truthy s = true -> exists token, s = Some token /\ token <> "".
Proof.
  destruct s as [[|c r]|]; simpl; try discriminate.
  intros _. eexists. split; [reflexivity | discriminate].
Qed.

Lemma truthy_token (token : string) : token <> "" -> truthy (Some token) = true.
Proof. destruct token; [contradiction | reflexivity]. Qed.

Lemma presented_cookie (token : string) (header : option string) :
  token <> "" -> presented_token (mkRequest (Some token) header) = Some token.
Proof.
  intros H. unfold presented_token. cbn [cookie_session_token].
  now rewrite (truthy_token token H).
Qed.

Section AuthProperties.

Variable X : Collab.
Variable fromisoformat : string -> outcome DateTime.
Variable oauth_session_data : string -> outcome (Z * UserData).

(** Only a live session lets a request in.  When [get_current_user]
    returns a user, the request presented a token that is not empty, its
    cookie if it has one and otherwise the word after [Bearer]; a stored
    session carries that token; the expiry of the session, read as UTC, is
    not before the reading of the clock; and the user is a stored user
    with the user id of the session. *)
Theorem get_current_user_needs_a_live_session
    (request : Request) (db : AuthDb) (w w' : World) (user : User)
    (Hrun : get_current_user X fromisoformat request db w = (Return user, w')) :
  exists token session expires_at,
    presented_token request = Some token
    /\ token <> ""
    /\ (forall c, cookie_session_token request = Some c -> c <> "" -> token = c)
    /\ In session (db_user_sessions db)
    /\ ses_session_token session = token
    /\ (ses_expires_at session = TimeValue expires_at
        \/ exists s, ses_expires_at session = TimeStr s
                     /\ fromisoformat s = Return expires_at)
    /\ datetime_now X (clock_reads w) <= utc_instant (assume_utc expires_at)
    /\ In user (db_users db)
    /\ usr_user_id user = ses_user_id session.
Proof.
  unfold get_current_user in Hrun. cbv zeta in Hrun.
  destruct (truthy (presented_token request)) eqn:Ht; [|discriminate].
  cbn [negb] in Hrun.
  destruct (truthy_some _ Ht) as (token & Htoken & Hne).
  rewrite Htoken in Hrun. cbn [get_default] in Hrun.
  destruct (find_session_by_token token db) as [session|] eqn:Hfind;
    [|discriminate].
  apply bind_inv in Hrun as (expires_at & w1 & Hexp & Hrun).
  apply lift_inv in Hexp as [Hexp ->].
  apply bind_inv in Hrun as (now & w2 & Hnow & Hrun).
  unfold utc_now in Hnow. injection Hnow as <- <-.
  destruct (utc_instant (assume_utc expires_at) <? datetime_now X (clock_reads w))
    eqn:Hlt; [discriminate|].
  destruct (find_user_by_id (ses_user_id session) db) as [u|] eqn:Hu;
    [|discriminate].
  injection Hrun as <- _.
  apply find_some in Hfind as [Hin Heq]. apply String.eqb_eq in Heq.
  apply find_some in Hu as [Hinu Hequ]. apply String.eqb_eq in Hequ.
  apply Z.ltb_ge in Hlt.
  exists token, session, expires_at.
  split; [exact Htoken|]. split; [exact Hne|]. split.
  { intros c Hc Hcne. unfold presented_token in Htoken.
    rewrite Hc, (truthy_token c Hcne) in Htoken. now injection Htoken as <-. }
  split; [exact Hin|]. split; [exact Heq|]. split.
  { destruct (ses_expires_at session) as [s|d].
    - right. exists s. auto.
    - left. now injection Hexp as <-. }
  auto.
Qed.

Lemma find_deleted (token : string) (sessions : list UserSession) :
  find (fun s => String.eqb (ses_session_token s) token)
       (filter (fun s => negb (String.eqb (ses_session_token s) token)) sessions)
  = None.
Proof.
  induction sessions as [|s rest IH]; simpl; [reflexivity|].
  destruct (String.eqb (ses_session_token s) token) eqn:Hs; simpl;
    [exact IH | now rewrite Hs].
Qed.

Lemma find_kept (token other : string) (sessions : list UserSession) :
  other <> token ->
  find (fun s => String.eqb (ses_session_token s) other)
       (filter (fun s => negb (String.eqb (ses_session_token s) token)) sessions)
  = find (fun s => String.eqb (ses_session_token s) other) sessions.
Proof.
  intros Hne. induction sessions as [|s rest IH]; simpl; [reflexivity|].
  destruct (String.eqb_spec (ses_session_token s) token) as [Hs|Hs]; simpl.
  - destruct (String.eqb_spec (ses_session_token s) other) as [Ho|Ho];
      [congruence | exact IH].
  - now rewrite IH.
Qed.

(** Logging out revokes the session of the cookie, and nothing else.  The
    store [logout] leaves has the same users; no session carries the token
    of the request's cookie any more, so a request with that cookie is no
    longer let in; the sessions of every other token are looked up as
    before; and a request without a cookie changes nothing, whatever its
    [Authorization] header: a client that authenticates with the header
    alone stays logged in. *)
Theorem logout_revokes_the_session_of_the_cookie (request : Request) (db : AuthDb) :
  let db' := fst (fst (logout request db)) in
  db_users db' = db_users db
  /\ (forall token, cookie_session_token request = Some token -> token <> "" ->
        find_session_by_token token db' = None
        /\ forall header w,
             get_current_user X fromisoformat (mkRequest (Some token) header) db' w
             = (Raise (HTTPException 401 "Invalid session"), w))
  /\ (forall other, cookie_session_token request <> Some other ->
        find_session_by_token other db' = find_session_by_token other db)
  /\ (truthy (cookie_session_token request) = false -> db' = db).
Proof.
  cbv zeta. unfold logout. cbn [fst].
  split; [|split; [|split]].
  - destruct (truthy (cookie_session_token request)); reflexivity.
  - intros token Hc Hne. rewrite Hc, (truthy_token token Hne). cbn [get_default].
    assert (Hnone : find_session_by_token token (delete_sessions token db) = None)
      by apply find_deleted.
    split; [exact Hnone|]. intros header w.
    unfold get_current_user. cbv zeta.
    rewrite (presented_cookie token header Hne), (truthy_token token Hne).
    cbn [negb get_default]. now rewrite Hnone.
  - intros other Hother.
    destruct (truthy (cookie_session_token request)) eqn:Ht; [|reflexivity].
    destruct (truthy_some _ Ht) as (token & Hc & _). rewrite Hc. cbn [get_default].
    apply find_kept. intros ->. now apply Hother.
  - now intros ->.
Qed.

Lemma find_app_none {A} (p : A -> bool) (l l' : list A) :
  find p l = None -> find p (l ++ l') = find p l'.
Proof.
  induction l as [|a l IH]; simpl; [reflexivity|].
  destruct (p a); [discriminate | exact IH].
Qed.

Lemma find_exists {A} (p : A -> bool) (l : list A) (a : A) :
  In a l -> p a = true -> exists b, find p l = Some b.
Proof.
  intros Hin Hp. destruct (find p l) as [b|] eqn:H; [eauto|].
  rewrite (find_none _ _ H a Hin) in Hp. discriminate.
Qed.

Lemma update_user_keeps_ids (email name picture : string) (users : list User) :
  map usr_user_id (update_user email name picture users) = map usr_user_id users.
Proof.
  induction users as [|u rest IH]; simpl; [reflexivity|].
  destruct (String.eqb (usr_email u) email); simpl; [reflexivity | now rewrite IH].
Qed.

Lemma find_user_by_id_exists (user_id : string) (users : list User)
    (sessions : list UserSession) :
  In user_id (map usr_user_id users) ->
  exists u, find_user_by_id user_id (mkAuthDb users sessions) = Some u.
Proof.
  intros Hin. apply in_map_iff in Hin as (u & Hid & Hu).
  apply (find_exists _ _ u Hu). now apply String.eqb_eq.
Qed.

(** What [create_session] has done when it returns. *)
Lemma create_session_returned (body_session_id : option string) (db : AuthDb)
    (w w1 : World) (user : option User) (cookie : SetCookie) (db' : AuthDb) :
  create_session X oauth_session_data body_session_id db w
  = (Return (user, cookie, db'), w1) ->
  exists user_id users k created_at,
    (clock_reads w <= k < clock_reads w1)%nat
    /\ db' = mkAuthDb users
               (db_user_sessions db
                ++ [mkUserSession user_id (ck_value cookie)
                      (TimeValue (stored_datetime (datetime_now X k + seven_days)))
                      created_at])%list
    /\ In user_id (map usr_user_id users)
    /\ user = find_user_by_id user_id db'
    /\ cookie = mkSetCookie "session_token" (ck_value cookie) true true "none" "/"
                            (7 * 24 * 3600).
Proof.
  unfold create_session. intros H.
  destruct (truthy body_session_id); [|discriminate]. cbn [negb] in H.
  apply bind_inv in H as ([status_code user_data] & wa & Hresp & H).
  apply lift_inv in Hresp as [_ ->].
  destruct (status_code =? 200); [|discriminate]. cbn [negb] in H.
  apply bind_inv in H as (email & wb & Hemail & H).
  apply lift_inv in Hemail as [_ ->]. cbv zeta in H.
  apply bind_inv in H as ([user_id users] & wc & Hcreated & H).
  apply bind_inv in H as (h & wd & Hh & H). unfold uuid4 in Hh.
  injection Hh as <- <-.
  apply bind_inv in H as (expires_from & we & He & H). unfold utc_now in He.
  injection He as <- <-.
  apply bind_inv in H as (created_at & wf & Hc & H). unfold utc_now in Hc.
  injection Hc as <- <-.
  injection H as <- <- <- <-. cbn [ck_value clock_reads tick_clock tick_uuid].
  assert (Hstep : (clock_reads w <= clock_reads wc)%nat
                  /\ In user_id (map usr_user_id users)).
  { destruct (find_user_by_email email db) as [existing|] eqn:Hexisting.
    - apply bind_inv in Hcreated as (name & wg & Hname & Hcreated).
      apply lift_inv in Hname as [_ ->]. injection Hcreated as <- <- <-.
      split; [lia|]. rewrite update_user_keeps_ids.
      apply find_some in Hexisting as [Hin _]. now apply in_map.
    - apply bind_inv in Hcreated as (h0 & wg & Hh0 & Hcreated).
      unfold uuid4 in Hh0. injection Hh0 as <- <-.
      apply bind_inv in Hcreated as (name & wh & Hname & Hcreated).
      apply lift_inv in Hname as [_ ->].
      apply bind_inv in Hcreated as (t & wi & Ht & Hcreated).
      unfold utc_now in Ht. injection Ht as <- <-.
      injection Hcreated as <- <- <-. cbn [clock_reads tick_clock tick_uuid].
      split; [lia|]. rewrite map_app. apply in_app_iff. right. now left. }
  destruct Hstep as [Hclock Hid].
  eexists. eexists. exists (clock_reads wc). eexists.
  split; [simpl; lia|]. split; [reflexivity|]. split; [exact Hid|].
  split; reflexivity.
Qed.

(** The cookie [create_session] sets authenticates as the user it returns.
    When [create_session] returns, it returns a user, never [None]; and if
    no session stored before carries the value of the cookie it sets, and
    that value is not empty, then a later request that presents the cookie
    is let in by [get_current_user] as that same user, as long as the clock
    has not passed the expiry stored, seven days after the session was
    created, cut to the millisecond.  The cookie lives seven days too. *)
Theorem create_session_cookie_authenticates
    (body_session_id : option string) (db : AuthDb) (w w1 w2 : World)
    (user : option User) (cookie : SetCookie) (db' : AuthDb)
    (header : option string)
    (Hrun : create_session X oauth_session_data body_session_id db w
            = (Return (user, cookie, db'), w1))
    (Hfresh : find_session_by_token (ck_value cookie) db = None)
    (Hvalue : ck_value cookie <> "")
    (Hlive : forall k, (clock_reads w <= k < clock_reads w1)%nat ->
               datetime_now X (clock_reads w2)
               <= (datetime_now X k + seven_days) / 1000 * 1000) :
  exists u,
    user = Some u
    /\ get_current_user X fromisoformat
         (mkRequest (Some (ck_value cookie)) header) db' w2
       = (Return u, tick_clock w2)
    /\ ck_key cookie = "session_token"
    /\ ck_max_age cookie * 1000000 = seven_days.
Proof.
  destruct (create_session_returned _ _ _ _ _ _ _ Hrun)
    as (user_id & users & k & created_at & Hk & Hdb & Hid & Huser & Hcookie).
  destruct (find_user_by_id_exists user_id users
              (db_user_sessions db
               ++ [mkUserSession user_id (ck_value cookie)
                     (TimeValue (stored_datetime (datetime_now X k + seven_days)))
                     created_at])%list Hid) as [u Hu].
  rewrite <- Hdb in Hu. exists u. split; [congruence|]. split.
  - unfold get_current_user. cbv zeta.
    rewrite (presented_cookie _ header Hvalue), (truthy_token _ Hvalue).
    cbn [negb get_default].
    assert (Hfind : find_session_by_token (ck_value cookie) db'
                    = Some (mkUserSession user_id (ck_value cookie)
                              (TimeValue (stored_datetime
                                            (datetime_now X k + seven_days)))
                              created_at)).
    { rewrite Hdb. unfold find_session_by_token in *. cbn [db_user_sessions].
      rewrite (find_app_none _ _ _ Hfresh). simpl.
      now rewrite String.eqb_refl. }
    rewrite Hfind. cbn [ses_expires_at ses_user_id].
    unfold bind at 1. unfold lift at 1. unfold bind at 1. unfold utc_now at 1.
    unfold utc_instant, assume_utc, stored_datetime.
    cbn [dt_wall dt_utcoffset get_default].
    specialize (Hlive k Hk).
    destruct (Z.ltb_spec ((datetime_now X k + seven_days) / 1000 * 1000 - 0)
                         (datetime_now X (clock_reads w2))); [lia|].
    now rewrite Hu.
  - rewrite Hcookie. split; reflexivity.
Qed.

End AuthProperties.


(** ** The planning system *)

Section PlanProperties.

Variable X : Collab.
Variable find_region_regex : string -> list Facility -> outcome (list Facility).
Variable repr_types : list (string * Z) -> string.
Variable lower : string -> string.
Variable sort_plans : Z -> list Plan -> list Plan.

(** The documents of the cursor of [generate_plan], as its first
    statements ask for them. *)
Definition plan_cursor (req : PlanRequest) (coll : list Facility)
    : outcome (list Facility) :=
  if truthy (plan_req_region req)
  then find_region_regex (get_default (plan_req_region req) "") coll
  else Return coll.

Lemma generate_plan_start (req : PlanRequest) (plans : list Plan) (w : World)
    (found : list Facility) (summaries : list (string * RegionSummary)) :
  plan_cursor req (db_facilities w) = Return found ->
  summarise_regions (firstn 5000 found) [] = Return summaries ->
  generate_plan X find_region_regex repr_types lower req plans w
  = try_except
      (h <- uuid4 X ;;
       plan_text <- lift (send_message X ("plan_" ++ slice_to 8 h)
                            plan_system_message
                            (plan_prompt req (facility_context repr_types summaries))) ;;
       h' <- uuid4 X ;;
       created_at <- utc_now X ;;
       let plan_doc := mkPlan ("plan_" ++ slice_to 8 h') (plan_req_region req)
                              (plan_req_specialty req) (plan_req_description req)
                              plan_text in
       ret (plan_doc (mkDateTime created_at (Some 0)),
            (plans ++ [plan_doc (stored_datetime created_at)])%list))
      any_Exception
      (fun e =>
         if contains "budget" (lower (str_exn e))
         then raise (HTTPException 429 "LLM budget limit reached.")
         else raise (HTTPException 500 ("Plan generation error: " ++ str_exn e)))
      w.
Proof.
  unfold plan_cursor, generate_plan. intros Hfound Hsummaries.
  unfold bind at 1. unfold get at 1. cbv beta iota.
  destruct (truthy (plan_req_region req)).
  - unfold bind at 1. unfold lift at 1. rewrite Hfound. cbv beta iota zeta.
    unfold bind at 1. unfold lift at 1. rewrite Hsummaries. reflexivity.
  - injection Hfound as <-. unfold bind at 1. unfold ret at 1. cbv beta iota zeta.
    unfold bind at 1. unfold lift at 1. rewrite Hsummaries. reflexivity.
Qed.

(** A failure of the provider is told apart by its message.  Once the
    regional summary is built, if the provider raises, [generate_plan]
    raises the HTTP error 429 when the message of the exception, in lower
    case, mentions [budget], and otherwise the error 500 with that message;
    no plan is returned or stored. *)
Theorem generate_plan_reports_a_provider_failure
    (req : PlanRequest) (plans : list Plan) (w : World)
    (found : list Facility) (summaries : list (string * RegionSummary))
    (cls : exn_class) (msg : string)
    (Hfound : plan_cursor req (db_facilities w) = Return found)
    (Hsummaries : summarise_regions (firstn 5000 found) [] = Return summaries)
    (Hraises : forall label,
       send_message X label plan_system_message
         (plan_prompt req (facility_context repr_types summaries))
       = Raise (PyExc cls msg)) :
  generate_plan X find_region_regex repr_types lower req plans w
  = (Raise (if contains "budget" (lower msg)
            then HTTPException 429 "LLM budget limit reached."
            else HTTPException 500 ("Plan generation error: " ++ msg)),
     tick_uuid w).
Proof.
  rewrite (generate_plan_start req plans w found summaries Hfound Hsummaries).
  unfold try_except. unfold bind at 1. unfold uuid4 at 1.
  unfold bind at 1. unfold lift at 1. rewrite Hraises.
  cbn [any_Exception str_exn]. destruct (contains "budget" (lower msg)); reflexivity.
Qed.

(** The order of [sort("created_at", -1)] on stored plans, whose datetimes
    carry no time zone. *)
Definition newer_plan (a b : Plan) : Prop :=
  dt_wall (pl_created_at b) <= dt_wall (pl_created_at a).

Definition plan_sort_contract : Prop :=
  forall plans,
    Permutation (sort_plans (-1) plans) plans
    /\ Sorted newer_plan (sort_plans (-1) plans).

Lemma newer_plan_trans : Relations_1.Transitive newer_plan.
Proof. intros a b c. unfold newer_plan. lia. Qed.

Lemma generate_plan_returned (req : PlanRequest) (plans plans' : list Plan)
    (w w' : World) (doc : Plan) :
  generate_plan X find_region_regex repr_types lower req plans w
  = (Return (doc, plans'), w') ->
  exists label prompt plan_text h,
    send_message X label plan_system_message prompt = Return plan_text
    /\ doc = mkPlan ("plan_" ++ slice_to 8 h) (plan_req_region req)
                    (plan_req_specialty req) (plan_req_description req) plan_text
                    (mkDateTime (datetime_now X (clock_reads w)) (Some 0))
    /\ plans' = (plans ++ [mkPlan ("plan_" ++ slice_to 8 h) (plan_req_region req)
                             (plan_req_specialty req) (plan_req_description req)
                             plan_text
                             (stored_datetime (datetime_now X (clock_reads w)))])%list.
Proof.
  unfold generate_plan. intros H.
  apply bind_inv in H as (coll & w1 & Hcoll & H). injection Hcoll as <- <-.
  apply bind_inv in H as (found & w2 & Hfound & H).
  assert (Hw2 : w2 = w).
  { destruct (truthy (plan_req_region req)).
    - now apply lift_inv in Hfound as [_ ->].
    - now injection Hfound as _ <-. }
  subst w2. cbv zeta in H.
  apply bind_inv in H as (summaries & w3 & Hsum & H).
  apply lift_inv in Hsum as [_ ->].
  unfold try_except in H.
  match type of H with
  | context [match ?body w with _ => _ end] => destruct (body w) as [[r|e] w4] eqn:Hbody
  end.
  2:{ cbn [any_Exception] in H.
      destruct (contains "budget" (lower (str_exn e))); discriminate. }
  injection H as -> <-.
  apply bind_inv in Hbody as (h & wa & Hh & Hbody). unfold uuid4 in Hh.
  injection Hh as <- <-.
  apply bind_inv in Hbody as (plan_text & wb & Hsend & Hbody).
  apply lift_inv in Hsend as [Hsend ->].
  apply bind_inv in Hbody as (h' & wc & Hh' & Hbody). unfold uuid4 in Hh'.
  injection Hh' as <- <-.
  apply bind_inv in Hbody as (created_at & wd & Hc & Hbody). unfold utc_now in Hc.
  injection Hc as <- <-. cbv zeta in Hbody. injection Hbody as <- <- _.
  eexists. eexists. exists plan_text. eexists.
  split; [exact Hsend|]. split; reflexivity.
Qed.

(** A generated plan is stored once and heads the history.  When
    [generate_plan] returns, its document carries the text the provider
    answered, the fields of the request and an id [plan_] followed by eight
    characters of a fresh [uuid4]; [db.plans] is the collection before with
    that document appended, its datetime as the store holds it; and if the
    store sorts as MongoDB promises and every plan stored before is older,
    [get_plan_history] lists the new plan first, among at most twenty. *)
Theorem a_generated_plan_heads_the_history
    (req : PlanRequest) (plans plans' : list Plan) (w w' : World) (doc : Plan)
    (Hrun : generate_plan X find_region_regex repr_types lower req plans w
            = (Return (doc, plans'), w'))
    (Hsort : plan_sort_contract)
    (Holder : Forall (fun p => dt_wall (pl_created_at p)
                               < datetime_now X (clock_reads w) / 1000 * 1000)
                     plans) :
  exists stored,
    plans' = (plans ++ [stored])%list
    /\ pl_plan_id stored = pl_plan_id doc
    /\ pl_plan_text stored = pl_plan_text doc
    /\ pl_created_at stored = stored_datetime (datetime_now X (clock_reads w))
    /\ pl_created_at doc = mkDateTime (datetime_now X (clock_reads w)) (Some 0)
    /\ pl_region doc = plan_req_region req
    /\ pl_specialty doc = plan_req_specialty req
    /\ pl_description doc = plan_req_description req
    /\ (exists h, pl_plan_id doc = "plan_" ++ slice_to 8 h)
    /\ (exists label prompt,
          send_message X label plan_system_message prompt
          = Return (pl_plan_text doc))
    /\ hd_error (get_plan_history sort_plans plans') = Some stored
    /\ List.length (get_plan_history sort_plans plans')
       = Nat.min 20 (List.length plans + 1).
Proof.
  destruct (generate_plan_returned req plans plans' w w' doc Hrun)
    as (label & prompt & plan_text & h & Hsend & -> & ->).
  eexists. split; [reflexivity|]. cbn [pl_plan_id pl_plan_text pl_created_at
    pl_region pl_specialty pl_description].
  repeat (split; [reflexivity|]).
  split; [now exists h|]. split; [now exists label, prompt|].
  set (stored := mkPlan ("plan_" ++ slice_to 8 h) (plan_req_region req)
                        (plan_req_specialty req) (plan_req_description req)
                        plan_text
                        (stored_datetime (datetime_now X (clock_reads w)))).
  destruct (Hsort (plans ++ [stored])%list) as [Hperm Hsorted].
  unfold get_plan_history.
  split.
  - destruct (sort_plans (-1) (plans ++ [stored])%list) as [|first rest] eqn:Hs.
    { apply Permutation_nil in Hperm. now destruct plans. }
    cbn [firstn hd_error]. f_equal.
    apply (Sorted_StronglySorted newer_plan_trans) in Hsorted.
    inversion Hsorted as [|? ? _ Hall]; subst.
    assert (Hfirst : In first (plans ++ [stored])%list).
    { apply (Permutation_in _ Hperm). now left. }
    apply in_app_iff in Hfirst as [Hin|[Heq|[]]]; [|now symmetry].
    exfalso.
    assert (Hstored : In stored (first :: rest)).
    { apply (Permutation_in _ (Permutation_sym Hperm)).
      apply in_app_iff. right. now left. }
    rewrite Forall_forall in Holder. specialize (Holder first Hin).
    destruct Hstored as [Heq|Hin'].
    + rewrite Heq in Holder. cbn [stored pl_created_at stored_datetime dt_wall] in Holder.
      lia.
    + rewrite Forall_forall in Hall. specialize (Hall stored Hin').
      unfold newer_plan in Hall.
      cbn [stored pl_created_at stored_datetime dt_wall] in Hall. lia.
  - rewrite length_firstn, (Permutation_length Hperm), length_app. reflexivity.
Qed.

End PlanProperties.

(** * The further properties on concrete runs *)

(** Start-up on the two sample facilities, from an empty store. *)
Lemma build_faiss_index_aligns_the_arrays_witness :
  Forall2 (fun fac text => facility_text fac = Return text)
          [Sample.clinic; Sample.hospital] (facility_texts Sample.world)
  /\ facility_ids Sample.world
     = map fac_facility_id [Sample.clinic; Sample.hospital]
  /\ List.length (facility_ids Sample.world)
     = List.length (facility_texts Sample.world)
  /\ faiss_index Sample.world
     = Some (encode_texts sample (facility_texts Sample.world)).
Proof.
  apply (build_faiss_index_aligns_the_arrays sample
           [Sample.clinic; Sample.hospital] Sample.boot Sample.world).
  vm_compute. reflexivity.
Defined.

(** A restart on a store that holds one facility: the file is not loaded
    a second time. *)
Lemma build_faiss_index_loads_an_empty_store_only_witness :
  exists w',
    build_faiss_index sample [Sample.clinic; Sample.hospital] Sample.lone_clinic
    = (Return tt, w')
    /\ db_facilities w'
       = match db_facilities Sample.lone_clinic with
         | [] => [Sample.clinic; Sample.hospital]
         | _ => db_facilities Sample.lone_clinic
         end
    /\ db_chat_history w' = db_chat_history Sample.lone_clinic.
Proof.
  eexists. split; [vm_compute; reflexivity|].
  eapply (build_faiss_index_loads_an_empty_store_only sample
            [Sample.clinic; Sample.hospital] Sample.lone_clinic).
  vm_compute. reflexivity.
Defined.

(** A file whose second facility has no [equipment] key. *)
Lemma build_faiss_index_stops_on_a_missing_key_witness :
  exists key w',
    build_faiss_index sample [Sample.clinic; Sample.health_centre] Sample.boot
    = (Raise (PyExc KeyError key), w')
    /\ faiss_index w' = faiss_index Sample.boot
    /\ facility_texts w' = facility_texts Sample.boot
    /\ facility_ids w' = facility_ids Sample.boot.
Proof.
  apply (build_faiss_index_stops_on_a_missing_key sample
           [Sample.clinic; Sample.health_centre] Sample.boot).
  exists Sample.health_centre. split.
  - right. left. reflexivity.
  - intros (_ & _ & _ & H & _). now apply H.
Defined.


(** Three results asked of an index of two facilities: FAISS pads its
    answer with the label [-1], which gives no result. *)
Lemma search_results_come_from_the_labelled_positions_witness :
  exists ix scores indices results,
    faiss_index Sample.world = Some ix
    /\ index_search sample ix (encode_query sample "surgery at a clinic") 3
       = Return (scores, indices)
    /\ In (-1) indices
    /\ search_similar sample "surgery at a clinic" 3 Sample.world
       = (Return results, Sample.world)
    /\ Forall (from_hit (facility_texts Sample.world) (facility_ids Sample.world)
                        scores indices) results.
Proof.
  eexists. eexists. eexists. eexists.
  split; [vm_compute; reflexivity|].
  split; [vm_compute; reflexivity|].
  split; [right; right; left; reflexivity|].
  split; [vm_compute; reflexivity|].
  eapply (search_results_come_from_the_labelled_positions sample
            "surgery at a clinic" 3 Sample.world Sample.world).
  - vm_compute. reflexivity.
  - vm_compute. reflexivity.
  - vm_compute. reflexivity.
Defined.

Lemma search_after_start_up_returns_facilities_of_the_file_witness :
  exists results,
    search_similar sample "surgery at a clinic" 3 Sample.world
    = (Return results, Sample.world)
    /\ Forall (from_file [Sample.clinic; Sample.hospital]) results.
Proof.
  eexists. split; [vm_compute; reflexivity|].
  eapply (search_after_start_up_returns_facilities_of_the_file sample
            [Sample.clinic; Sample.hospital] Sample.boot Sample.world Sample.world
            "surgery at a clinic" 3).
  - vm_compute. reflexivity.
  - vm_compute. reflexivity.
Defined.

Lemma retrieved_facilities_can_be_looked_up_witness :
  exists results,
    search_similar sample "surgery at a clinic" 3 Sample.world
    = (Return results, Sample.world)
    /\ Forall (fun r =>
                 exists fac,
                   get_facility (sr_facility_id r) Sample.world
                   = (Return fac, Sample.world)
                   /\ In fac [Sample.clinic; Sample.hospital]
                   /\ fac_facility_id fac = sr_facility_id r) results.
Proof.
  eexists. split; [vm_compute; reflexivity|].
  eapply (retrieved_facilities_can_be_looked_up sample
            [Sample.clinic; Sample.hospital] Sample.boot Sample.world Sample.world
            "surgery at a clinic" 3).
  - reflexivity.
  - vm_compute. reflexivity.
  - vm_compute. reflexivity.
Defined.

(** A request without a session id, on a store that holds no turn. *)
Lemma chat_endpoint_appends_one_turn_to_its_session_witness :
  exists resp w',
    chat_endpoint sample (mkChatRequest "surgery please" None) Sample.world
    = (Return resp, w')
    /\ session_id resp = "chat_00000000"
    /\ (exists t,
          db_chat_history w' = (db_chat_history Sample.world ++ [t])%list
          /\ turn_session_id t = session_id resp
          /\ turn_message t = req_message (mkChatRequest "surgery please" None)
          /\ turn_response t = response resp
          /\ turn_citations t = citations resp
          /\ turn_reasoning_steps t = reasoning_steps resp
          /\ turn_mlflow_run_id t = mlflow_run_id resp)
    /\ (forall other, other <> session_id resp ->
          find_session other (db_chat_history w')
          = find_session other (db_chat_history Sample.world))
    /\ db_facilities w' = db_facilities Sample.world
    /\ faiss_index w' = faiss_index Sample.world
    /\ facility_texts w' = facility_texts Sample.world
    /\ facility_ids w' = facility_ids Sample.world
    /\ session_id resp <> ""
    /\ (forall sid,
          req_session_id (mkChatRequest "surgery please" None) = Some sid ->
          sid <> "" -> session_id resp = sid)
    /\ (req_session_id (mkChatRequest "surgery please" None) = None
        \/ req_session_id (mkChatRequest "surgery please" None) = Some "" ->
        session_id resp
        = "chat_" ++ slice_to 8 (uuid4_hex sample (uuid_draws Sample.world))).
Proof.
  eexists. eexists. split; [vm_compute; reflexivity|].
  split; [reflexivity|].
  eapply (chat_endpoint_appends_one_turn_to_its_session sample
            (mkChatRequest "surgery please" None) Sample.world).
  vm_compute. reflexivity.
Defined.

(** The trace when the provider is down. *)
Lemma chat_trace_has_five_numbered_steps_witness :
  exists resp w',
    chat_endpoint (Sample.collab Sample.unavailable Sample.tracking_up)
                  (mkChatRequest "surgery please" (Some "s1")) Sample.world
    = (Return resp, w')
    /\ map step (reasoning_steps resp) = [1; 2; 3; 4; 5]
    /\ map action (firstn 4 (reasoning_steps resp))
       = ["Query Analysis"; "Memory Retrieval";
          "Semantic Search (FAISS + sentence-transformers)"; "Context Assembly"]
    /\ (exists s3,
          nth_error (reasoning_steps resp) 2 = Some s3
          /\ data_used s3 = DataIds (map source_id (citations resp)))
    /\ (exists s5,
          nth_error (reasoning_steps resp) 4 = Some s5
          /\ (action s5 = "LLM Generation (Gemini 2.5 Flash)"
              /\ (exists label prompt,
                    send_message (Sample.collab Sample.unavailable Sample.tracking_up)
                      label prompt
                      (req_message (mkChatRequest "surgery please" (Some "s1")))
                    = Return (response resp))
              \/ action s5 = "LLM Generation - Error"
                 /\ exists label prompt e,
                      send_message (Sample.collab Sample.unavailable Sample.tracking_up)
                        label prompt
                        (req_message (mkChatRequest "surgery please" (Some "s1")))
                      = Raise e
                      /\ detail s5 = "Error: " ++ str_exn e
                      /\ response resp
                         = "Error processing query: " ++ str_exn e ++ ". Found "
                           ++ str_nat (List.length (citations resp))
                           ++ " relevant records.")).
Proof.
  eexists. eexists. split; [vm_compute; reflexivity|].
  eapply (chat_trace_has_five_numbered_steps
            (Sample.collab Sample.unavailable Sample.tracking_up)
            (mkChatRequest "surgery please" (Some "s1")) Sample.world).
  vm_compute. reflexivity.
Defined.

Lemma citations_mirror_the_search_results_witness :
  exists resp w' results,
    chat_endpoint sample (mkChatRequest "surgery please" (Some "s1")) Sample.world
    = (Return resp, w')
    /\ search_similar sample
         (req_message (mkChatRequest "surgery please" (Some "s1"))) 5 Sample.world
       = (Return results, Sample.world)
    /\ Forall2 cites (citations resp) results.
Proof.
  eexists. eexists.
  assert (Hrun : exists results,
            search_similar sample
              (req_message (mkChatRequest "surgery please" (Some "s1"))) 5
              Sample.world = (Return results, Sample.world)
            /\ Forall2 cites
                 (citations
                    (match fst (chat_endpoint sample
                                  (mkChatRequest "surgery please" (Some "s1"))
                                  Sample.world) with
                     | Return r => r
                     | Raise _ => mkChatResponse "" [] [] "" None
                     end)) results).
  { eapply (citations_mirror_the_search_results sample
              (mkChatRequest "surgery please" (Some "s1")) Sample.world).
    vm_compute. reflexivity. }
  destruct Hrun as (results & Hs & Hc). exists results.
  split; [vm_compute; reflexivity|]. split; [exact Hs | exact Hc].
Defined.

(** The history of a session of seven turns, stored out of order. *)
Lemma get_chat_history_returns_the_oldest_hundred_witness :
  exists turns later,
    get_chat_history sample "s1" Sample.seven_turns
    = (Return turns, Sample.seven_turns)
    /\ Forall (fun t => turn_session_id t = "s1"
                        /\ In t (db_chat_history Sample.seven_turns)) turns
    /\ chronological turns
    /\ Permutation (turns ++ later)
                   (find_session "s1" (db_chat_history Sample.seven_turns))
    /\ List.length turns
       = Nat.min (List.length
                    (find_session "s1" (db_chat_history Sample.seven_turns))) 100
    /\ Forall (fun t => Forall (older_first t) later) turns.
Proof.
  apply (get_chat_history_returns_the_oldest_hundred sample
           (sample_sort_contract Sample.echo Sample.tracking_up)
           "s1" Sample.seven_turns).
Defined.

(** The provider answers with a JSON array. *)
Lemma text2sql_failures_are_422_or_500_witness :
  exists e w' cause w1,
    text2sql_endpoint (Sample.collab (Sample.answers "[]") Sample.tracking_up)
                      (mkText2SQLRequest "all clinics") Sample.world
    = (Raise e, w')
    /\ text2sql_try (Sample.collab (Sample.answers "[]") Sample.tracking_up)
                    (mkText2SQLRequest "all clinics") Sample.world
       = (Raise cause, w1)
    /\ (is_JSONDecodeError cause = true
        /\ e = HTTPException 422
                 "Failed to parse LLM response into MongoDB query. Try rephrasing."
        \/ is_JSONDecodeError cause = false
           /\ e = HTTPException 500 ("Text2SQL error: " ++ str_exn cause)).
Proof.
  eexists. eexists.
  assert (H : exists cause w1,
            text2sql_try (Sample.collab (Sample.answers "[]") Sample.tracking_up)
                         (mkText2SQLRequest "all clinics") Sample.world
            = (Raise cause, w1)
            /\ (is_JSONDecodeError cause = true
                /\ HTTPException 500
                     "Text2SQL error: 'list' object has no attribute 'get'"
                   = HTTPException 422
                       "Failed to parse LLM response into MongoDB query. Try rephrasing."
                \/ is_JSONDecodeError cause = false
                   /\ HTTPException 500
                        "Text2SQL error: 'list' object has no attribute 'get'"
                      = HTTPException 500 ("Text2SQL error: " ++ str_exn cause))).
  { eapply (text2sql_failures_are_422_or_500
              (Sample.collab (Sample.answers "[]") Sample.tracking_up)
              (mkText2SQLRequest "all clinics") Sample.world).
    vm_compute. reflexivity. }
  destruct H as (cause & w1 & Htry & Hclass). exists cause, w1.
  split; [vm_compute; reflexivity|]. split; [exact Htry | exact Hclass].
Defined.

(** The provider is down. *)
Lemma text2sql_reports_a_provider_failure_witness :
  exists w',
    text2sql_endpoint (Sample.collab Sample.unavailable Sample.tracking_up)
                      (mkText2SQLRequest "all clinics") Sample.world
    = (Raise (HTTPException 500 ("Text2SQL error: " ++ "provider unavailable")), w')
    /\ same_data Sample.world w'.
Proof.
  apply (text2sql_reports_a_provider_failure
           (Sample.collab Sample.unavailable Sample.tracking_up)
           (mkText2SQLRequest "all clinics") Sample.world
           ProviderError "provider unavailable").
  intros label system. reflexivity.
Defined.

(** A translation that asks for a thousand rows of sixty. *)
Lemma text2sql_runs_a_well_formed_translation_witness :
  let rows :=
    firstn (Z.to_nat (Z.min 1000 50)) (map Sample.project (repeat Sample.clinic 60)) in
  exists w',
    text2sql_endpoint
      (Sample.collab (Sample.answers ("{" ++ quoted "limit" ++ ": 1000}"))
                     Sample.tracking_up)
      (mkText2SQLRequest "all clinics") Sample.sixty_clinics
    = (Return (mkText2SQLResponse
                 (query (mkText2SQLRequest "all clinics")) [] rows
                 (Z.of_nat (List.length rows)) ""), w')
    /\ same_data Sample.sixty_clinics w'
    /\ py_in "_id" (JDict (with_id [("_id", JInt 0)])) = Return true.
Proof.
  apply (text2sql_runs_a_well_formed_translation
           (Sample.collab (Sample.answers ("{" ++ quoted "limit" ++ ": 1000}"))
                          Sample.tracking_up)
           (mkText2SQLRequest "all clinics") Sample.sixty_clinics
           ("{" ++ quoted "limit" ++ ": 1000}")
           [("limit", JInt 1000)] [("_id", JInt 0)] [] 1000
           (map Sample.project (repeat Sample.clinic 60)) "").
  - intros label system. reflexivity.
  - reflexivity.
  - reflexivity.
  - reflexivity.
  - reflexivity.
  - lia.
  - reflexivity.
  - reflexivity.
  - reflexivity.
Defined.

Lemma strip_fence_leaves_an_unfenced_answer_witness :
  strip_fence "  {}  " = strip "  {}  ".
Proof. apply (strip_fence_leaves_an_unfenced_answer "  {}  "). reflexivity. Defined.

Lemma strip_fence_unwraps_a_fenced_answer_witness :
  strip_fence ("```json" ++ (nl ++ "{}" ++ nl) ++ "```" ++ nl ++ "Done.")
  = strip (nl ++ "{}" ++ nl).
Proof.
  apply (strip_fence_unwraps_a_fenced_answer
           ("```json" ++ (nl ++ "{}" ++ nl) ++ "```" ++ nl ++ "Done.")
           (nl ++ "{}" ++ nl) (nl ++ "Done.")).
  - reflexivity.
  - reflexivity.
Defined.

(** The notes of the three sample facilities: the clinic and the health
    centre are marked, the teaching hospital is not. *)
Lemma stats_count_the_deserts_marked_by_generate_notes_witness :
  exists stats,
    get_stats Sample.noted_world = (Return stats, Sample.noted_world)
    /\ st_medical_deserts stats
       = count_if (fun f => marked_desert (fac_type f) (fac_region f) (fac_beds f))
                  (firstn 5000 (db_facilities Sample.noted_world)).
Proof.
  apply (stats_count_the_deserts_marked_by_generate_notes Sample.noted_world).
  apply Forall_forall. intros f Hf. vm_compute in Hf.
  destruct Hf as [<-|[<-|[<-|[]]]];
    [exists "Government" | exists "Government" | exists "CHAG"]; reflexivity.
Defined.

(** A request that presents the cookie of a live session. *)
Lemma get_current_user_needs_a_live_session_witness :
  exists user w' token session expires_at,
    get_current_user sample Sample.no_iso (mkRequest (Some "tok") None)
                     Sample.auth_db Sample.boot
    = (Return user, w')
    /\ presented_token (mkRequest (Some "tok") None) = Some token
    /\ token <> ""
    /\ (forall c, cookie_session_token (mkRequest (Some "tok") None) = Some c ->
                  c <> "" -> token = c)
    /\ In session (db_user_sessions Sample.auth_db)
    /\ ses_session_token session = token
    /\ (ses_expires_at session = TimeValue expires_at
        \/ exists s, ses_expires_at session = TimeStr s
                     /\ Sample.no_iso s = Return expires_at)
    /\ datetime_now sample (clock_reads Sample.boot)
       <= utc_instant (assume_utc expires_at)
    /\ In user (db_users Sample.auth_db)
    /\ usr_user_id user = ses_user_id session.
Proof.
  eexists. eexists.
  assert (H : get_current_user sample Sample.no_iso (mkRequest (Some "tok") None)
                Sample.auth_db Sample.boot
              = (Return Sample.ama, tick_clock Sample.boot))
    by (vm_compute; reflexivity).
  destruct (get_current_user_needs_a_live_session sample Sample.no_iso
              (mkRequest (Some "tok") None) Sample.auth_db Sample.boot
              (tick_clock Sample.boot) Sample.ama H)
    as (token & session & expires_at & Hconclusion).
  exists token, session, expires_at. split; [exact H | exact Hconclusion].
Defined.

(** A first login on an empty store, and the request that follows it. *)
Lemma create_session_cookie_authenticates_witness :
  exists user cookie db' w1,
    create_session sample Sample.oauth (Some "oauth-session")
                   (mkAuthDb [] []) Sample.boot
    = (Return (user, cookie, db'), w1)
    /\ exists u,
         user = Some u
         /\ get_current_user sample Sample.no_iso
              (mkRequest (Some (ck_value cookie)) None) db' w1
            = (Return u, tick_clock w1)
         /\ ck_key cookie = "session_token"
         /\ ck_max_age cookie * 1000000 = seven_days.
Proof.
  assert (Hlive : forall k, (0 <= k < 3)%nat ->
            Sample.clock_micros 3
            <= (Sample.clock_micros k + seven_days) / 1000 * 1000).
  { intros k Hk. unfold Sample.clock_micros, seven_days.
    pose proof (Z.div_mod (1700000000000000 + Z.of_nat k
                           + 7 * 24 * 3600 * 1000000) 1000 ltac:(lia)) as Hdiv.
    pose proof (Z.mod_pos_bound (1700000000000000 + Z.of_nat k
                                 + 7 * 24 * 3600 * 1000000) 1000 ltac:(lia)) as Hmod.
    lia. }
  eexists. eexists. eexists. eexists.
  split; [vm_compute; reflexivity|].
  eapply (create_session_cookie_authenticates sample Sample.no_iso Sample.oauth
            (Some "oauth-session") (mkAuthDb [] []) Sample.boot).
  - vm_compute. reflexivity.
  - reflexivity.
  - discriminate.
  - intros k Hk. exact (Hlive k Hk).
Defined.

(** The provider refuses for lack of budget. *)
Lemma generate_plan_reports_a_provider_failure_witness :
  generate_plan (Sample.collab Sample.over_budget Sample.tracking_up)
                Sample.find_region Sample.repr_types Sample.lower
                (mkPlanRequest (Some "north") None None) [] Sample.cold_world
  = (Raise (if contains "budget" (Sample.lower "Budget has been exceeded")
            then HTTPException 429 "LLM budget limit reached."
            else HTTPException 500
                   ("Plan generation error: " ++ "Budget has been exceeded")),
     tick_uuid Sample.cold_world).
Proof.
  eapply (generate_plan_reports_a_provider_failure
            (Sample.collab Sample.over_budget Sample.tracking_up)
            Sample.find_region Sample.repr_types Sample.lower
            (mkPlanRequest (Some "north") None None) [] Sample.cold_world).
  - vm_compute. reflexivity.
  - vm_compute. reflexivity.
  - intros label. reflexivity.
Defined.

Lemma insert_plan_perm (p : Plan) (l : list Plan) :
  Permutation (Sample.insert_plan p l) (p :: l).
Proof.
  induction l as [|q l IH]; simpl; [reflexivity|].
  destruct (dt_wall (pl_created_at p) <? dt_wall (pl_created_at q)); [|reflexivity].
  rewrite IH. apply perm_swap.
Qed.

Lemma insert_plan_sorted (p : Plan) (l : list Plan) :
  Sorted newer_plan l -> Sorted newer_plan (Sample.insert_plan p l).
Proof.
  induction l as [|q l IH]; simpl; intros Hs; [repeat constructor|].
  inversion Hs as [|? ? Hs' Hhd]; subst.
  destruct (Z.ltb_spec (dt_wall (pl_created_at p)) (dt_wall (pl_created_at q))).
  - constructor; [now apply IH|].
    destruct l as [|r l]; simpl.
    + constructor. unfold newer_plan. lia.
    + inversion Hhd; subst.
      destruct (dt_wall (pl_created_at p) <? dt_wall (pl_created_at r));
        constructor; [assumption | unfold newer_plan; lia].
  - constructor; [exact Hs|]. constructor. unfold newer_plan. lia.
Qed.

Lemma sample_plan_sort_contract : plan_sort_contract Sample.sort_plans.
Proof.
  intros plans. unfold Sample.sort_plans. split.
  - induction plans as [|p l IH]; simpl; [reflexivity|].
    rewrite insert_plan_perm. now constructor.
  - induction plans as [|p l IH]; simpl; [constructor|].
    now apply insert_plan_sorted.
Qed.

(** A plan generated on a store that holds an older one. *)
Lemma a_generated_plan_heads_the_history_witness :
  exists doc plans' w',
    generate_plan sample Sample.find_region Sample.repr_types Sample.lower
                  (mkPlanRequest None (Some "Surgery") None) [Sample.old_plan]
                  Sample.cold_world
    = (Return (doc, plans'), w')
    /\ exists stored,
         plans' = ([Sample.old_plan] ++ [stored])%list
         /\ pl_plan_id stored = pl_plan_id doc
         /\ pl_plan_text stored = pl_plan_text doc
         /\ pl_created_at stored
            = stored_datetime (datetime_now sample (clock_reads Sample.cold_world))
         /\ pl_created_at doc
            = mkDateTime (datetime_now sample (clock_reads Sample.cold_world))
                         (Some 0)
         /\ pl_region doc
            = plan_req_region (mkPlanRequest None (Some "Surgery") None)
         /\ pl_specialty doc
            = plan_req_specialty (mkPlanRequest None (Some "Surgery") None)
         /\ pl_description doc
            = plan_req_description (mkPlanRequest None (Some "Surgery") None)
         /\ (exists h, pl_plan_id doc = "plan_" ++ slice_to 8 h)
         /\ (exists label prompt,
               send_message sample label plan_system_message prompt
               = Return (pl_plan_text doc))
         /\ hd_error (get_plan_history Sample.sort_plans plans') = Some stored
         /\ List.length (get_plan_history Sample.sort_plans plans')
            = Nat.min 20 (List.length [Sample.old_plan] + 1).
Proof.
  eexists. eexists. eexists.
  split; [vm_compute; reflexivity|].
  eapply (a_generated_plan_heads_the_history sample Sample.find_region
            Sample.repr_types Sample.lower Sample.sort_plans
            (mkPlanRequest None (Some "Surgery") None) [Sample.old_plan]).
  - vm_compute. reflexivity.
  - apply sample_plan_sort_contract.
  - repeat constructor.
Defined.
